(** * UCTB data loader: a shallow embedding of [NodeTrafficLoader]

    The development follows [src/UCTB/dataset/data_loader.py].  The
    constructor [NodeTrafficLoader.__init__] is embedded as the function
    [init] in an error monad (a Python exception aborts the construction),
    the method [build_graph] as [build_graph] and the method [make_concat]
    as [make_concat].

    Conventions of the embedding.
    - A Python [float] is the rational it denotes ([Q]), and the
      arithmetic of the interpreter on floats is that of IEEE 754
      binary64 (module [Float]): the quotient of line 104, the products
      of lines 122, 124, 234 and 239-240 and the hours of lines 158-198
      are the exact results rounded to the nearest binary64 number, ties
      to the even one; a conversion that leaves the range raises
      [OverflowError].  [int(x)] on a float is truncation towards zero
      ([py_int]).
    - The entries of a [numpy] array are rationals.  What [numpy]
      computes on them in floating point at line 129 (the column means
      and their product with [daily_slots]) is a parameter; casts
      ([astype(np.float32)], [dtype=np.float32]) are the identity; the
      branch for the dataset ["Metro"] and the values handed to the
      collaborators modelled from the specification (the split ratios,
      the traffic the normaliser scales) are computed on rationals.
    - A 2-D [numpy] array is a record [ndarray] holding its second
      dimension and the list of its rows; a windowed 4-D array is a nested
      list indexed [row][node][position][channel].
    - Python slices [a[i:j]] are [py_slice], with negative indices counted
      from the end and out-of-range bounds clamped.
    - The collaborators the loader imports from other modules
      ([SplitData], [Normalizer], [ST_MoveSample], [GraphBuilder],
      [one_hot], the date library) are either modelled from the
      specification or taken as parameters (class [Collaborators]).
    - An array without rows keeps its second dimension only; a windowed
      array without rows keeps none of its inner dimensions. *)

From Stdlib Require Import ZArith QArith Qround Qabs String Ascii Lia.
From stdpp Require Import base list list_numbers sorting strings gmap.

Local Close Scope Q_scope.
Local Open Scope Z_scope.

(** ** Exceptions and the construction monad *)

Inductive exn : Type :=
| ZeroDivisionError
| AssertionError
| TypeError
| AttributeError
| IndexError
| FileNotFoundError
| ValueError (msg : string)
| ConfigError
| OverflowError.

Inductive result (A : Type) : Type :=
| Ok (a : A)
| Raise (e : exn).
Arguments Ok {A} a.
Arguments Raise {A} e.

#[global] Instance result_ret : MRet result := fun A a => Ok a.
#[global] Instance result_bind : MBind result := fun A B f m =>
  match m with
  | Ok a => f a
  | Raise e => Raise e
  end.

Definition py_assert (b : bool) : result unit :=
  if b then Ok tt else Raise AssertionError.

Definition completes {A} (m : result A) : bool :=
  match m with Ok _ => true | Raise _ => false end.

(** ** Python numbers *)

(** [int(x)] for a float [x]: truncation towards zero. *)
Definition py_int (x : Q) : Z := Z.quot (Qnum x) (Z.pos (Qden x)).

(** [round(x)]: to the nearest integer, ties to the even one. *)
Definition py_round (x : Q) : Z :=
  let f := Qfloor x in
  match Qcompare (x - inject_Z f)%Q (1 # 2)%Q with
  | Lt => f
  | Gt => f + 1
  | Eq => if Z.even f then f else f + 1
  end.

Definition Qltb (x y : Q) : bool :=
  match Qcompare x y with Lt => true | _ => false end.

Definition Qsum (l : list Q) : Q := foldr Qplus (0 # 1)%Q l.

(** ** The floats of Python

    A float of Python is a number of IEEE 754 binary64.  The embedding
    keeps the rational a float denotes and rounds after every operation;
    a rational of magnitude [2 ** 1024] or more stands for an infinity. *)
Module Float.

(** [2 ** e]. *)
Definition pow2 (e : Z) : Q :=
  if 0 <=? e then inject_Z (2 ^ e) else (1 # Z.to_pos (2 ^ (- e)))%Q.

(** The binade of a number other than zero: the [e] with
    [2 ** e <= |x| < 2 ** (e + 1)]. *)
Definition binade (x : Q) : Z :=
  let e := Z.log2 (Z.abs (Qnum x)) - Z.log2 (Z.pos (Qden x)) in
  if Qltb (Qabs x) (pow2 e) then e - 1 else e.

(** Rounding to the nearest number with [prec] significant bits and an
    exponent of at least [emin], ties to the even one. *)
Definition round (prec emin : Z) (x : Q) : Q :=
  let x := Qred x in
  if Qeq_bool x (0 # 1)%Q then (0 # 1)%Q
  else
    let ulp := pow2 (Z.max (binade x) emin - (prec - 1)) in
    Qred (inject_Z (py_round (x / ulp)%Q) * ulp)%Q.

(** Rounding to binary64: 53 significant bits, exponents from -1022. *)
Definition double (x : Q) : Q := round 53 (-1022) x.

Definition is_finite (x : Q) : bool := Qltb (Qabs x) (pow2 1024).

(** A float that is to be converted, or the float an [int] was
    converted to: infinities raise. *)
Definition checked (x : Q) : result Q :=
  if is_finite x then Ok x else Raise OverflowError.

(** [float(z)] for an [int] [z], as the interpreter converts the [int]
    operand of a mixed operation. *)
Definition of_int (z : Z) : result Q := checked (double (inject_Z z)).

(** [x * y] on floats. *)
Definition mul (x y : Q) : Q := double (x * y).

(** [x * z] and [z * x] for a float [x] and an [int] [z]. *)
Definition mul_int (x : Q) (z : Z) : result Q :=
  y ← of_int z; Ok (mul x y).

(** [int(x)] for a float [x]. *)
Definition to_int (x : Q) : result Z :=
  x ← checked x; Ok (py_int x).

(** [int(x * z)] and [int(z * x)] for a float [x] and an [int] [z]. *)
Definition int_of_product (x : Q) (z : Z) : result Z :=
  p ← mul_int x z; to_int p.

(** [a / b] for two [int]s, [b] not zero. *)
Definition true_div (a b : Z) : result Q :=
  checked (double (inject_Z a / inject_Z b)).

End Float.

(** ** Python slices and indices *)

(** Normalisation of a slice bound against a length [n]. *)
Definition slice_bound (n : nat) (i : Z) : nat :=
  if i <? 0 then Z.to_nat (Z.max 0 (i + Z.of_nat n))
  else Z.to_nat (Z.min i (Z.of_nat n)).

(** [l[start:stop]]; [None] stands for an omitted bound. *)
Definition py_slice {A} (start stop : option Z) (l : list A) : list A :=
  let n := length l in
  let a := match start with Some i => slice_bound n i | None => 0%nat end in
  let b := match stop with Some j => slice_bound n j | None => n end in
  take (b - a) (drop a l).

(** [l[i]] for an integer [i]: negative indices wrap once, anything else
    out of range raises [IndexError]. *)
Definition py_index {A} (l : list A) (i : Z) : result A :=
  let n := Z.of_nat (length l) in
  let j := if i <? 0 then i + n else i in
  if (0 <=? j) && (j <? n)
  then match l !! Z.to_nat j with Some x => Ok x | None => Raise IndexError end
  else Raise IndexError.

(** The last [k] elements of a list (all of it when it is shorter). *)
Definition lastn {A} (k : nat) (l : list A) : list A :=
  drop (length l - k) l.

(** ** Strings *)

Definition lower_ascii (c : ascii) : ascii :=
  let n := nat_of_ascii c in
  if (65 <=? n)%nat && (n <=? 90)%nat then ascii_of_nat (n + 32) else c.

Fixpoint lower (s : string) : string :=
  match s with
  | EmptyString => EmptyString
  | String c s' => String (lower_ascii c) (lower s')
  end.

(** [needle in hay] on Python strings. *)
Fixpoint str_in (needle hay : string) : bool :=
  if String.prefix needle hay then true
  else match hay with
       | EmptyString => false
       | String _ hay' => str_in needle hay'
       end.

(** [s.split('-')]. *)
Fixpoint split_dash_aux (cur : string) (s : string) : list string :=
  match s with
  | EmptyString => [cur]
  | String c s' =>
      if Ascii.eqb c "-"%char then cur :: split_dash_aux EmptyString s'
      else split_dash_aux (cur ++ String c EmptyString)%string s'
  end.
Definition split_dash (s : string) : list string := split_dash_aux EmptyString s.

(** ** Arrays *)

(** A 2-D array of shape [[len, shape1]]. *)
Record ndarray : Type := mk_ndarray {
  shape1 : nat;
  rows : list (list Q)
}.

Definition len (a : ndarray) : nat := length (rows a).

(** [np.array([])]. *)
Definition empty_array : ndarray := mk_ndarray 0 [].

(** [a[start:stop]] on the first axis. *)
Definition slice_rows (start stop : option Z) (a : ndarray) : ndarray :=
  mk_ndarray (shape1 a) (py_slice start stop (rows a)).

(** [np.vstack([a, b])] on 2-D arrays: the column counts must agree. *)
Definition vstack (a b : ndarray) : result ndarray :=
  if (shape1 a =? shape1 b)%nat
  then Ok (mk_ndarray (shape1 a) (rows a ++ rows b))
  else Raise (ValueError "vstack: dimension mismatch").

(** Entry [j] of a row; a missing entry reads as zero (rows of a
    well-shaped array have all their entries). *)
Definition entry (r : list Q) (j : nat) : Q := default (0 # 1)%Q (r !! j).

(** Column [j] of an array, as the series of its values. *)
Definition column (a : ndarray) (j : nat) : list Q :=
  (fun r => entry r j) <$> rows a.

(** [a[:, idx]] for a list of column positions. *)
Definition take_columns (idx : list nat) (a : ndarray) : ndarray :=
  mk_ndarray (length idx) ((fun r => (fun j => entry r j) <$> idx) <$> rows a).

(** [a[idx, :]] for a list of row positions, each checked against the
    first dimension. *)
Definition take_rows (idx : list Z) (a : ndarray) : result ndarray :=
  rs ← mapM (M := result) (py_index (rows a)) idx;
  Ok (mk_ndarray (shape1 a) rs).

(** [np.concatenate(blocks, axis=-1)]: the blocks are joined row by row
    and must have the same number of rows. *)
Definition concat_columns (blocks : list ndarray) : result ndarray :=
  match blocks with
  | [] => Raise (ValueError "need at least one array to concatenate")
  | b :: bs =>
      if forallb (fun c => (len c =? len b)%nat) bs
      then Ok (foldl (fun acc c =>
                        mk_ndarray (shape1 acc + shape1 c)
                                   (zip_with app (rows acc) (rows c)))
                     b bs)
      else Raise (ValueError "concatenate: dimension mismatch")
  end.

(** A windowed array, indexed [row][node][position][channel], and a target
    array, indexed [row][node][step]. *)
Abbreviation windows := (list (list (list (list Q)))) (only parsing).
Abbreviation targets := (list (list (list Q))) (only parsing).

(** [np.concatenate((a, b), axis=-1)] on windowed arrays. *)
Definition concat_channels (a b : windows) : windows :=
  zip_with (zip_with (zip_with app)) a b.

(** ** Collaborators modelled from the specification *)

Module SplitData.

(** Modelled from the spec: [SplitData.split_data], which the loader
    imports from [UCTB.preprocess].  The partitions are contiguous and in
    order, partition [k] has [round(len * ratio_k)] elements and the last
    one takes what remains. *)
Fixpoint partitions {A} (n : nat) (ratios : list Q) (data : list A)
  : list (list A) :=
  match ratios with
  | [] => []
  | r :: rs =>
      match rs with
      | [] => [data]
      | _ => let k := Z.to_nat (py_round (inject_Z (Z.of_nat n) * r)%Q) in
             take k data :: partitions n rs (drop k data)
      end
  end.

(** Modelled from the spec: the failure clause of [split_data]: a
    negative ratio, ratios that do not sum to one, or fewer elements than
    partitions raise [ConfigError]. *)
Definition split_data {A} (data : list A) (ratios : list Q)
  : result (list (list A)) :=
  if existsb (fun r => Qltb r (0 # 1)%Q) ratios then Raise ConfigError
  else if negb (Qeq_bool (Qsum ratios) (1 # 1)%Q) then Raise ConfigError
  else if (length data <? length ratios)%nat then Raise ConfigError
  else Ok (partitions (length data) ratios data).

(** The two-way split of a 2-D array, as [__init__] unpacks it. *)
Definition split_array (a : ndarray) (ratios : list Q)
  : result (ndarray * ndarray) :=
  parts ← split_data (rows a) ratios;
  match parts with
  | [tr; te] => Ok (mk_ndarray (shape1 a) tr, mk_ndarray (shape1 a) te)
  | _ => Raise (ValueError "unpack")
  end.

End SplitData.

Module Normalizer.

(** Modelled from the spec: the state of [Normalizer], which the loader
    imports from [UCTB.preprocess]: the minimum and the maximum of each
    channel of the array it was fitted on. *)
Record t : Type := mk { _min : list Q; _max : list Q }.

Definition extremum (pick : Q -> Q -> Q) (l : list Q) : Q :=
  match l with
  | [] => (0 # 1)%Q
  | x :: l' => foldl pick x l'
  end.

Definition Qmin' (x y : Q) : Q := if Qltb y x then y else x.
Definition Qmax' (x y : Q) : Q := if Qltb x y then y else x.

(** Modelled from the spec: [fit(train_array)], reducing over the time
    axis for every channel. *)
Definition fit (a : ndarray) : t :=
  let chans := seq 0 (shape1 a) in
  mk ((fun j => extremum Qmin' (column a j)) <$> chans)
     ((fun j => extremum Qmax' (column a j)) <$> chans).

(** Modelled from the spec: [min_max_normal(array)], that is
    [(array - min) / (max - min + eps)] with the stored statistics. *)
Definition min_max_normal (eps : Q) (nz : t) (a : ndarray) : ndarray :=
  mk_ndarray (shape1 a)
    ((fun r =>
        imap (fun j x =>
                let lo := entry (_min nz) j in
                let hi := entry (_max nz) j in
                ((x - lo) / (hi - lo + eps))%Q) r) <$> rows a).

End Normalizer.

Module ST_MoveSample.

(** Modelled from the spec: the configuration of the sliding-window
    sampler [ST_MoveSample], which the loader imports from
    [UCTB.preprocess].  The spec uses [daily_slots] as an index stride, so
    it is a whole number of slots here. *)
Record t : Type := mk {
  closeness_len : Z;
  period_len : Z;
  trend_len : Z;
  target_length : Z;
  daily_slots : Z
}.

(** Modelled from the spec: the number of leading slots for which no
    sample exists. *)
Definition max_lookback (s : t) : Z :=
  Z.max (closeness_len s)
        (Z.max (period_len s * daily_slots s)
               (trend_len s * 7 * daily_slots s)).

(** The current indices [i], from [max_lookback] to [T - target_length]. *)
Definition candidates (s : t) (T : nat) : list Z :=
  seqZ (max_lookback s) (Z.of_nat T - target_length s - max_lookback s + 1).

(** The slots [i - k * stride] for [k] from [n] down to [1]. *)
Definition lookback_slots (i n stride : Z) : list Z :=
  (fun k => i - (n - k) * stride) <$> seqZ 0 n.

Definition row_at (data : ndarray) (j : Z) : list Q :=
  if j <? 0 then [] else default [] (rows data !! Z.to_nat j).

(** One sample of a window: for every node the values at the given
    slots, earliest first, each in a feature axis of size one. *)
Definition window_at (data : ndarray) (slots : list Z)
  : list (list (list Q)) :=
  (fun n => (fun j => [entry (row_at data j) n]) <$> slots)
    <$> seq 0 (shape1 data).

Definition stack (n : Z) (data : ndarray) (cands : list Z)
                 (slots : Z -> list Z) : windows :=
  if n =? 0 then [] else (fun i => window_at data (slots i)) <$> cands.

Definition target_at (s : t) (data : ndarray) (i : Z) : list (list Q) :=
  (fun n => (fun j => entry (row_at data j) n) <$> seqZ i (target_length s))
    <$> seq 0 (shape1 data).

(** Modelled from the spec: [move_sample(data)], returning the
    closeness, period and trend windows and the targets.  With all three
    lengths zero there is nothing to sample. *)
Definition move_sample (s : t) (data : ndarray)
  : result (windows * windows * windows * targets) :=
  if (closeness_len s =? 0) && (period_len s =? 0) && (trend_len s =? 0)
  then Raise ConfigError
  else
    let cands := candidates s (len data) in
    Ok (stack (closeness_len s) data cands
              (fun i => seqZ (i - closeness_len s) (closeness_len s)),
        stack (period_len s) data cands
              (fun i => lookback_slots i (period_len s) (daily_slots s)),
        stack (trend_len s) data cands
              (fun i => lookback_slots i (trend_len s) (7 * daily_slots s)),
        if 0 <? target_length s
        then target_at s data <$> cands
        else []).

End ST_MoveSample.


(** ** Collaborators taken as parameters *)

(** The date library ([dateutil.parser.parse], [datetime.timedelta]), the
    encoder [one_hot], the constant of [Normalizer] and the functions of
    [GraphBuilder] are used by the loader and defined elsewhere.  So is
    [mean_axis0_times a s], the array [np.mean(a, axis=0) * s] of line
    129, with one entry per column of [a]: [numpy] sums and multiplies
    in the floating point type of the array, in an order of its own. *)
Class Collaborators : Type := {
  mean_axis0_times : ndarray -> Q -> list Q;
  normalizer_eps : Q;
  datetime : Type;
  parse : string -> datetime;
  add_hours : datetime -> Q -> datetime;
  hour : datetime -> Z;
  weekday : datetime -> Z;
  one_hot : list (list Z) -> ndarray;
  distance_adjacent : ndarray -> Q -> ndarray;
  correlation_adjacent : ndarray -> Q -> ndarray;
  interaction_adjacent : ndarray -> Q -> ndarray;
  adjacent_to_laplacian : ndarray -> ndarray
}.

(** Modelled from the spec: the shape contract of [GraphBuilder], which
    the loader imports from [UCTB.model_unit]: an adjacency matrix is
    square over the nodes it is built from, and the Laplacian has the
    shape of the adjacency matrix it is computed from. *)
Class GraphBuilderShapes (C : Collaborators) : Prop := {
  distance_adjacent_shape : forall coords thr,
    len (distance_adjacent coords thr) = len coords /\
    shape1 (distance_adjacent coords thr) = len coords;
  correlation_adjacent_shape : forall series thr,
    len (correlation_adjacent series thr) = shape1 series /\
    shape1 (correlation_adjacent series thr) = shape1 series;
  interaction_adjacent_shape : forall counts thr,
    len (interaction_adjacent counts thr) = len counts /\
    shape1 (interaction_adjacent counts thr) = shape1 counts;
  adjacent_to_laplacian_shape : forall am,
    len (adjacent_to_laplacian am) = len am /\
    shape1 (adjacent_to_laplacian am) = shape1 am
}.

(** Modelled from the spec: [one_hot], which the loader imports from
    [UCTB.utils.encode_onehot], encodes each row of its argument in a row
    of its result. *)
Class OneHotRows (C : Collaborators) : Prop := {
  one_hot_len : forall rs, len (one_hot rs) = length rs
}.

(** ** The raw dataset and the configuration *)

Record DataSet : Type := {
  time_fitness : Z;
  time_range : list string;
  node_traffic : ndarray;
  external_feature_weather : ndarray;
  node_station_info : list (list Q);
  node_monthly_interaction : list ndarray;
  graph_neighbors : ndarray;
  graph_lines : ndarray;
  graph_transfer : ndarray;
  poi_pickle : option ndarray
}.

(** [data_range]: ['all'], a float (also given as a string ["0.…"]) or a
    list of two day numbers. *)
Inductive data_range_t : Type :=
| RangeAll
| RangeRatio (f : Q)
| RangeDays (start_day end_day : Z).

(** [train_data_length]: the string ['all'], a string holding a number of
    days, or (as the docstring allows) an [int]. *)
Inductive train_data_length_t : Type :=
| LengthAll
| LengthDays (d : Z)
| LengthInt (d : Z).

(** [node] of [make_concat]: ['all'] or the index of one node. *)
Inductive node_t : Type :=
| NodeAll
| NodeIndex (n : Z).

(** Matrix helpers of [build_graph]. *)
Definition select_columns (idx : list Z) (a : ndarray) : result ndarray :=
  rs ← mapM (M := result) (fun r => mapM (M := result) (py_index r) idx) (rows a);
  Ok (mk_ndarray (length idx) rs).

Definition zeros (n m : nat) : ndarray :=
  mk_ndarray m (replicate n (replicate m (0 # 1)%Q)).

Definition mat_add (a b : ndarray) : ndarray :=
  mk_ndarray (shape1 a) (zip_with (zip_with Qplus) (rows a) (rows b)).

Definition transpose (a : ndarray) : ndarray :=
  mk_ndarray (len a) (column a <$> seq 0 (shape1 a)).

(** [range(start, stop, step)]. *)
Definition py_range (start stop step : Z) : result (list Z) :=
  if step =? 0 then Raise (ValueError "range() arg 3 must not be zero")
  else if 0 <? step
       then Ok ((fun k => start + k * step) <$> seqZ 0 ((stop - start + step - 1) / step))
       else Ok ((fun k => start + k * step) <$> seqZ 0 ((start - stop - step - 1) / (- step))).

(** [np.concatenate((a, b), axis=-1)] with the shape check of [numpy]. *)
Definition same_dims (a b : windows) : bool :=
  (length a =? length b)%nat &&
  forallb (fun '(x, y) =>
             (length x =? length y)%nat &&
             forallb (fun '(u, v) => (length u =? length v)%nat) (zip x y))
          (zip a b).

Definition concatenate_last (a b : windows) : result windows :=
  if same_dims a b then Ok (concat_channels a b)
  else Raise (ValueError "concatenate: dimension mismatch").

(** ** The loader *)

Section NodeTrafficLoader.

Context {C : Collaborators}.

(** The arguments of [__init__] apart from the dataset itself; [dataset]
    is the name the dataset was asked by. *)
Record Config : Type := {
  dataset : string;
  data_range : data_range_t;
  train_data_length : train_data_length_t;
  test_ratio : Q;
  closeness_len : Z;
  period_len : Z;
  trend_len : Z;
  external_lstm_len : option Z;
  target_length : Z;
  graph : string;
  threshold_distance : Q;
  threshold_correlation : Q;
  threshold_interaction : Q;
  normalize : bool;
  workday_parser : datetime -> bool;
  with_lm : bool;
  with_tpe : bool;
  external_use : string
}.

(** The configuration with another [train_data_length], and with another
    [external_lstm_len]. *)
Definition with_train_data_length (cfg : Config) (v : train_data_length_t)
  : Config :=
  {| dataset := dataset cfg; data_range := data_range cfg;
     train_data_length := v; test_ratio := test_ratio cfg;
     closeness_len := closeness_len cfg; period_len := period_len cfg;
     trend_len := trend_len cfg; external_lstm_len := external_lstm_len cfg;
     target_length := target_length cfg; graph := graph cfg;
     threshold_distance := threshold_distance cfg;
     threshold_correlation := threshold_correlation cfg;
     threshold_interaction := threshold_interaction cfg;
     normalize := normalize cfg; workday_parser := workday_parser cfg;
     with_lm := with_lm cfg; with_tpe := with_tpe cfg;
     external_use := external_use cfg |}.

Definition with_external_lstm_len (cfg : Config) (v : option Z) : Config :=
  {| dataset := dataset cfg; data_range := data_range cfg;
     train_data_length := train_data_length cfg; test_ratio := test_ratio cfg;
     closeness_len := closeness_len cfg; period_len := period_len cfg;
     trend_len := trend_len cfg; external_lstm_len := v;
     target_length := target_length cfg; graph := graph cfg;
     threshold_distance := threshold_distance cfg;
     threshold_correlation := threshold_correlation cfg;
     threshold_interaction := threshold_interaction cfg;
     normalize := normalize cfg; workday_parser := workday_parser cfg;
     with_lm := with_lm cfg; with_tpe := with_tpe cfg;
     external_use := external_use cfg |}.

(** The time position embeddings of lines 321-346. *)
Record TPE : Type := {
  closeness_tpe : list Q;
  period_tpe : list Q;
  trend_tpe : list Q;
  train_closeness_tpe : windows;
  train_period_tpe : windows;
  train_trend_tpe : windows;
  test_closeness_tpe : windows;
  test_period_tpe : windows;
  test_trend_tpe : windows
}.

(** The attributes of a constructed [NodeTrafficLoader]. *)
Record Loader : Type := {
  self_dataset : DataSet;
  daily_slots : Q;
  self_closeness_len : Z;
  self_period_len : Z;
  self_trend_len : Z;
  self_external_lstm_len : Z;
  traffic_data_index : list nat;
  traffic_data : ndarray;
  external_onehot_dim : option (list nat);
  external_dim : nat;
  station_number : nat;
  train_test_ratio : list Q;
  normalizer : option Normalizer.t;
  train_data : ndarray;
  test_data : ndarray;
  train_ef : ndarray;
  test_ef : ndarray;
  train_closeness : windows;
  train_period : windows;
  train_trend : windows;
  train_y : targets;
  test_closeness : windows;
  test_period : windows;
  test_trend : windows;
  test_y : targets;
  train_sequence_len : nat;
  test_sequence_len : nat;
  poi_feature_train : option (list ndarray);
  poi_feature_test : option (list ndarray);
  poi_dim : option nat;
  train_ef_closeness : option windows;
  train_ef_period : option windows;
  train_ef_trend : option windows;
  train_lstm_ef : option windows;
  test_ef_closeness : option windows;
  test_ef_period : option windows;
  test_ef_trend : option windows;
  test_lstm_ef : option windows;
  tpe : option TPE;
  tpe_dim : option nat;
  self_threshold_distance : Q;
  self_threshold_correlation : Q;
  self_threshold_interaction : Q;
  AM : list ndarray;
  LM : list ndarray
}.

(** *** Lines 102-132: configuration, range and node filter *)

(** [24 * 60 / time_fitness]: the quotient of two [int]s, rounded.  Its
    magnitude is at most 1440, so it is in range. *)
Definition compute_daily_slots (ds : DataSet) : result Q :=
  if time_fitness ds =? 0 then Raise ZeroDivisionError
  else Ok (Float.double ((1440 # 1) / inject_Z (time_fitness ds))%Q).

(** The slot range [[data_range[0], data_range[1]]] of lines 117-124: a
    ratio is the float its literal or its string denotes, and both
    products are products of floats. *)
Definition resolve_data_range (dr : data_range_t) (slots : Q) (ds : DataSet)
  : result (Z * Z) :=
  match dr with
  | RangeAll => Ok (0, Z.of_nat (len (node_traffic ds)))
  | RangeRatio f =>
      hi ← Float.int_of_product (Float.double f)
                                (Z.of_nat (len (node_traffic ds)));
      Ok (0, hi)
  | RangeDays a b =>
      lo ← Float.int_of_product slots a;
      hi ← Float.int_of_product slots b;
      Ok (lo, hi)
  end.

(** Line 129:
    [np.where(np.mean(node_traffic, axis=0) * daily_slots > 1)[0]]. *)
Definition is_active (ds : DataSet) (slots : Q) (j : nat) : bool :=
  match mean_axis0_times (node_traffic ds) slots !! j with
  | Some v => Qltb (1 # 1)%Q v
  | None => false
  end.

Definition compute_traffic_data_index (ds : DataSet) (slots : Q) : list nat :=
  filter (fun j => is_active ds slots j = true) (seq 0 (shape1 (node_traffic ds))).

(** Lines 131-132: [node_traffic[d0:d1, traffic_data_index]]. *)
Definition compute_traffic_data (ds : DataSet) (range : Z * Z) (idx : list nat)
  : ndarray :=
  take_columns idx (slice_rows (Some (fst range)) (Some (snd range)) (node_traffic ds)).

Record Resolved : Type := {
  r_daily_slots : Q;
  r_external_lstm_len : Z;
  r_range : Z * Z;
  r_index : list nat;
  r_traffic_data : ndarray
}.

Definition resolve (cfg : Config) (ds : DataSet) : result Resolved :=
  slots ← compute_daily_slots ds;
  lstm ← match external_lstm_len cfg with
         | Some n => Ok n
         | None => Raise TypeError
         end;
  _ ← py_assert (0 <=? closeness_len cfg);
  _ ← py_assert (0 <=? period_len cfg);
  _ ← py_assert (0 <=? trend_len cfg);
  range ← resolve_data_range (data_range cfg) slots ds;
  let idx := compute_traffic_data_index ds slots in
  Ok {| r_daily_slots := slots;
        r_external_lstm_len := lstm;
        r_range := range;
        r_index := idx;
        r_traffic_data := compute_traffic_data ds range idx |}.

(** *** Lines 134-215: the external feature matrix *)

(** [parse(time_range[0]) + timedelta(hours=h)]. *)
Definition slot_time (ds : DataSet) (h : Q) : result datetime :=
  t0 ← py_index (time_range ds) 0;
  Ok (add_hours (parse t0) h).

(** [e * time_fitness / 60]: the quotient of two [int]s, rounded. *)
Definition slot_hours (ds : DataSet) (e : Z) : result Q :=
  Float.true_div (e * time_fitness ds) 60.

(** [range(lo, hi)]. *)
Definition range (lo hi : Z) : list Z := seqZ lo (hi - lo).

Definition holiday_rows (cfg : Config) (ds : DataSet) (lo hi : Z)
  : result (list (list Z)) :=
  mapM (M := result)
       (fun e => h ← slot_hours ds e;
                 t ← slot_time ds h;
                 Ok [if workday_parser cfg t then 1 else 0])
       (range lo hi).

Definition hourofday_rows (ds : DataSet) (hours : Z -> result Q) (lo hi : Z)
  : result (list (list Z)) :=
  mapM (M := result)
       (fun e => h ← hours e; t ← slot_time ds h; Ok [hour t])
       (range lo hi).

Definition dayofweek_rows (ds : DataSet) (lo hi : Z) : result (list (list Z)) :=
  mapM (M := result)
       (fun e => h ← slot_hours ds e; t ← slot_time ds h; Ok [weekday t])
       (range lo hi).

(** Lines 144-151: the service-hour slots of the ["Metro"] dataset. *)
Definition metro_use_index (ds : DataSet) (slots : Q) (num_time_slots : Z)
  : list Z :=
  let true_daily_slots := py_int (slots * (4 # 3))%Q in
  let true_hour_slots := ((60 # 1) / (inject_Z (time_fitness ds) * (3 # 4)))%Q in
  let days := py_int (inject_Z (Qfloor (inject_Z num_time_slots / slots)%Q)) in
  mjoin ((fun i =>
            range (py_int ((5 # 1) * true_hour_slots
                               + inject_Z (i * true_daily_slots))%Q)
                  (py_int ((23 # 1) * true_hour_slots
                               + inject_Z (i * true_daily_slots))%Q))
           <$> range 0 days).

(** The upper end of the slots the ["Metro"] branches enumerate:
    [int(num_time_slots * (4/3)) + data_range[0]]. *)
Definition metro_hi (lo num_time_slots : Z) : Z :=
  py_int (inject_Z num_time_slots * (4 # 3))%Q + lo.

Definition is_metro (cfg : Config) : bool := String.eqb (dataset cfg) "Metro".

Definition weather_blocks (cfg : Config) (ds : DataSet) (r : Resolved)
  : list ndarray :=
  if (0 <? len (external_feature_weather ds))%nat
     && str_in "weather" (external_use cfg)
  then [slice_rows (Some (fst (r_range r))) (Some (snd (r_range r)))
                   (external_feature_weather ds)]
  else [].

Definition holiday_blocks (cfg : Config) (ds : DataSet) (r : Resolved)
  : result (list ndarray) :=
  let lo := fst (r_range r) in
  let num_time_slots := snd (r_range r) - fst (r_range r) in
  if str_in "holiday" (external_use cfg) then
    if is_metro cfg then
      hs ← holiday_rows cfg ds lo (metro_hi lo num_time_slots);
      b ← take_rows (metro_use_index ds (r_daily_slots r) num_time_slots) (one_hot hs);
      Ok [b]
    else
      hs ← holiday_rows cfg ds lo (num_time_slots + lo);
      Ok [one_hot hs]
  else Ok [].

Definition tp_blocks (cfg : Config) (ds : DataSet) (r : Resolved)
  : result (list ndarray) :=
  let lo := fst (r_range r) in
  let num_time_slots := snd (r_range r) - fst (r_range r) in
  if str_in "tp" (external_use cfg) then
    if is_metro cfg then
      let use_index := metro_use_index ds (r_daily_slots r) num_time_slots in
      hs ← hourofday_rows ds (fun e => Ok (inject_Z e)) lo
                          (metro_hi lo num_time_slots);
      hb ← take_rows use_index (one_hot hs);
      ws ← dayofweek_rows ds lo (metro_hi lo num_time_slots);
      wb ← take_rows use_index (one_hot ws);
      Ok [hb; wb]
    else
      hs ← hourofday_rows ds (slot_hours ds) lo (num_time_slots + lo);
      ws ← dayofweek_rows ds lo (num_time_slots + lo);
      Ok [one_hot hs; one_hot ws]
  else Ok [].

(** The [external_onehot_dim] list: one width for the weather block, one
    for the holiday block, one for the two temporal position blocks. *)
Definition onehot_dims (wb hb tb : list ndarray) : list nat :=
  (shape1 <$> wb) ++ (shape1 <$> hb) ++
  match tb with
  | [] => []
  | _ => [sum_list (shape1 <$> tb)]
  end.

Record External : Type := {
  x_feature : ndarray;
  x_onehot_dim : option (list nat);
  x_dim : nat
}.

Definition external_features (cfg : Config) (ds : DataSet) (r : Resolved)
  : result External :=
  let wb := weather_blocks cfg ds r in
  hb ← holiday_blocks cfg ds r;
  tb ← tp_blocks cfg ds r;
  let blocks := wb ++ hb ++ tb in
  if (0 <? length blocks)%nat then
    ef ← concat_columns blocks;
    Ok {| x_feature := ef;
          x_onehot_dim := Some (onehot_dims wb hb tb);
          x_dim := shape1 ef |}
  else
    Ok {| x_feature := empty_array; x_onehot_dim := None; x_dim := 0 |}.

(** *** Lines 217-235: split, normalisation and truncation of the train set *)

(** The guard of lines 219-220. *)
Definition check_test_ratio (cfg : Config) : result unit :=
  if Qltb (1 # 1)%Q (test_ratio cfg) || Qltb (test_ratio cfg) (0 # 1)%Q
  then Raise (ValueError "test_ratio ")
  else Ok tt.

(** Lines 232-235: [a[-int(train_day_length * daily_slots):]] for the days
    the string [train_data_length] holds; an [int] has no [lower]. *)
Definition truncate_train (tdl : train_data_length_t) (slots : Q) (a : ndarray)
  : result ndarray :=
  match tdl with
  | LengthAll => Ok a
  | LengthDays d =>
      n ← Float.int_of_product slots d;
      Ok (slice_rows (Some (- n)) None a)
  | LengthInt _ => Raise AttributeError
  end.

Record Parts : Type := {
  p_station_number : nat;
  p_train_test_ratio : list Q;
  p_normalizer : option Normalizer.t;
  p_train_data : ndarray;
  p_test_data : ndarray;
  p_train_ef : ndarray;
  p_test_ef : ndarray
}.

Definition split_partitions (cfg : Config) (r : Resolved) (x : External)
  : result Parts :=
  let station_number := shape1 (r_traffic_data r) in
  _ ← check_test_ratio cfg;
  let ratio := [((1 # 1) - test_ratio cfg)%Q; test_ratio cfg] in
  '(train_data, test_data) ← SplitData.split_array (r_traffic_data r) ratio;
  '(train_ef, test_ef) ← SplitData.split_array (x_feature x) ratio;
  let nz := if normalize cfg then Some (Normalizer.fit train_data) else None in
  let norm a := match nz with
                | Some n => Normalizer.min_max_normal normalizer_eps n a
                | None => a
                end in
  let train_data := norm train_data in
  let test_data := norm test_data in
  train_data ← truncate_train (train_data_length cfg) (r_daily_slots r) train_data;
  train_ef ← truncate_train (train_data_length cfg) (r_daily_slots r) train_ef;
  Ok {| p_station_number := station_number;
        p_train_test_ratio := ratio;
        p_normalizer := nz;
        p_train_data := train_data;
        p_test_data := test_data;
        p_train_ef := train_ef;
        p_test_ef := test_ef |}.

(** *** Lines 237-244: the test partition borrows the end of the train set *)

(** [max(int(daily_slots * period_len), int(daily_slots * 7 * trend_len),
         closeness_len)]; the second product is
    [(daily_slots * 7) * trend_len], rounded twice. *)
Definition expansion (cfg : Config) (slots : Q) : result Z :=
  by_period ← Float.int_of_product slots (period_len cfg);
  weekly ← Float.mul_int slots 7;
  by_trend ← Float.int_of_product weekly (trend_len cfg);
  Ok (Z.max by_period (Z.max by_trend (closeness_len cfg))).

Definition expand_start_index (cfg : Config) (slots : Q) (p : Parts)
  : result Z :=
  lookback ← expansion cfg slots;
  Ok (Z.of_nat (len (p_train_data p)) - lookback).

Definition expand_test (cfg : Config) (slots : Q) (p : Parts)
  : result (ndarray * ndarray) :=
  start ← expand_start_index cfg slots p;
  test_data ← vstack (slice_rows (Some start) None (p_train_data p)) (p_test_data p);
  test_ef ← vstack (slice_rows (Some start) None (p_train_ef p)) (p_test_ef p);
  Ok (test_data, test_ef).

(** *** Lines 246-261: the windows of the traffic data *)

(** The sampler strides by whole slots; when [time_fitness] divides a day,
    [daily_slots] is whole already. *)
Definition whole_slots (slots : Q) : Z := py_int slots.

Definition st_move_sample (cfg : Config) (slots : Q) : ST_MoveSample.t :=
  ST_MoveSample.mk (closeness_len cfg) (period_len cfg) (trend_len cfg) 1
                   (whole_slots slots).

(** [max((len(closeness), len(period), len(trend)))]. *)
Definition sequence_len (c p t : windows) : nat :=
  (length c `max` (length p `max` length t))%nat.

(** *** Lines 263-278: the POI feature *)

Record Poi : Type := {
  q_train : option (list ndarray);
  q_test : option (list ndarray);
  q_dim : option nat
}.

Definition load_poi (cfg : Config) (ds : DataSet) (idx : list nat)
                    (train_sequence_len test_sequence_len : nat) : result Poi :=
  if str_in "poi" (external_use cfg) then
    raw ← match poi_pickle ds with
          | Some a => Ok a
          | None => Raise FileNotFoundError
          end;
    poi_feature ← take_rows (Z.of_nat <$> idx) raw;
    Ok {| q_train := Some (replicate train_sequence_len poi_feature);
          q_test := Some (replicate test_sequence_len poi_feature);
          q_dim := Some (shape1 poi_feature) |}
  else Ok {| q_train := None; q_test := None; q_dim := None |}.

(** *** Lines 280-311: the windows of the external features *)

(** [a[-sequence_len - target_length : -target_length]]. *)
Definition reslice {A} (sequence_len : nat) (target_length : Z) (l : list A)
  : list A :=
  py_slice (Some (- Z.of_nat sequence_len - target_length))
           (Some (- target_length)) l.

(** Subscripting an attribute that may still be [None]. *)
Definition reslice_opt (sequence_len : nat) (target_length : Z)
                       (w : option windows) : result (option windows) :=
  match w with
  | Some a => Ok (Some (reslice sequence_len target_length a))
  | None => Raise TypeError
  end.

Record ExternalWindows : Type := {
  w_train_ef : ndarray;
  w_test_ef : ndarray;
  w_train_ef_closeness : option windows;
  w_train_ef_period : option windows;
  w_train_ef_trend : option windows;
  w_train_lstm_ef : option windows;
  w_test_ef_closeness : option windows;
  w_test_ef_period : option windows;
  w_test_ef_trend : option windows;
  w_test_lstm_ef : option windows
}.

Definition external_windows (cfg : Config) (slots : Q) (lstm : Z)
                            (x : External) (train_ef test_ef : ndarray)
                            (train_sequence_len test_sequence_len : nat)
  : result ExternalWindows :=
  if (0 <? len (x_feature x))%nat then
    let sampler := ST_MoveSample.mk (closeness_len cfg) (period_len cfg)
                                    (trend_len cfg) 0 (whole_slots slots) in
    '(trc, trp, trt, _) ← ST_MoveSample.move_sample sampler train_ef;
    '(tec, tep, tet, _) ← ST_MoveSample.move_sample sampler test_ef;
    '(train_lstm, test_lstm) ←
      (if 0 <? lstm then
         let sampler := ST_MoveSample.mk lstm 0 0 0 (whole_slots slots) in
         '(a, _, _, _) ← ST_MoveSample.move_sample sampler train_ef;
         '(b, _, _, _) ← ST_MoveSample.move_sample sampler test_ef;
         Ok (Some a, Some b)
       else Ok (None, None));
    let train_ef' := mk_ndarray (shape1 train_ef)
                       (reslice train_sequence_len (target_length cfg) (rows train_ef)) in
    let test_ef' := mk_ndarray (shape1 test_ef)
                      (reslice test_sequence_len (target_length cfg) (rows test_ef)) in
    train_lstm ← reslice_opt train_sequence_len (target_length cfg) train_lstm;
    test_lstm ← reslice_opt test_sequence_len (target_length cfg) test_lstm;
    Ok {| w_train_ef := train_ef'; w_test_ef := test_ef';
          w_train_ef_closeness := Some trc; w_train_ef_period := Some trp;
          w_train_ef_trend := Some trt; w_train_lstm_ef := train_lstm;
          w_test_ef_closeness := Some tec; w_test_ef_period := Some tep;
          w_test_ef_trend := Some tet; w_test_lstm_ef := test_lstm |}
  else
    Ok {| w_train_ef := train_ef; w_test_ef := test_ef;
          w_train_ef_closeness := None; w_train_ef_period := None;
          w_train_ef_trend := None; w_train_lstm_ef := None;
          w_test_ef_closeness := None; w_test_ef_period := None;
          w_test_ef_trend := None; w_test_lstm_ef := None |}.

(** *** Lines 321-359: time position embeddings *)

(** [np.tile(np.reshape(v, [1, 1, -1, 1]), [n, m, 1, 1])]. *)
Definition tile (v : list Q) (n m : nat) : windows :=
  replicate n (replicate m ((fun x => [x]) <$> v)).

Definition time_position (cfg : Config) (slots : Q) (idx : list nat)
                         (trc trp trt tec tep tet : windows)
  : result (TPE * (windows * windows * windows) * (windows * windows * windows)) :=
  let d := py_int slots in
  c ← py_range 1 (closeness_len cfg + 1) 1;
  p ← py_range (1 * d) (period_len cfg * d + 1) d;
  t ← py_range (1 * d * 7) (trend_len cfg * d * 7 + 1) (d * 7);
  let c := inject_Z <$> c in
  let p := inject_Z <$> p in
  let t := inject_Z <$> t in
  let e := {| closeness_tpe := c; period_tpe := p; trend_tpe := t;
              train_closeness_tpe := tile c (length trc) (length idx);
              train_period_tpe := tile p (length trp) (length idx);
              train_trend_tpe := tile t (length trt) (length idx);
              test_closeness_tpe := tile c (length tec) (length idx);
              test_period_tpe := tile p (length tep) (length idx);
              test_trend_tpe := tile t (length tet) (length idx) |} in
  trc' ← concatenate_last trc (train_closeness_tpe e);
  trp' ← concatenate_last trp (train_period_tpe e);
  trt' ← concatenate_last trt (train_trend_tpe e);
  tec' ← concatenate_last tec (test_closeness_tpe e);
  tep' ← concatenate_last tep (test_period_tpe e);
  tet' ← concatenate_last tet (test_trend_tpe e);
  Ok (e, (trc', trp', trt'), (tec', tep', tet')).

(** *** Lines 377-415: [build_graph] *)

(** [np.sum(months, axis=0)] for matrices of shape [[n, n]]. *)
Definition sum_months (n : nat) (months : list ndarray) : ndarray :=
  foldl mat_add (zeros n n) months.

Definition build_graph (l : Loader) (graph_name : string)
  : result (option ndarray * option ndarray) :=
  let ds := self_dataset l in
  let name := lower graph_name in
  let idx := Z.of_nat <$> traffic_data_index l in
  if String.eqb name "distance" then
    let lat_lng_list :=
      mk_ndarray 2 ((fun e => py_slice (Some 2) (Some 4) e) <$> node_station_info ds) in
    coords ← take_rows idx lat_lng_list;
    let am := distance_adjacent coords (self_threshold_distance l) in
    Ok (Some am, Some (adjacent_to_laplacian am))
  else if String.eqb name "interaction" then
    monthly ← mapM (M := result)
                   (fun m => m' ← take_rows idx m; select_columns idx m')
                   (node_monthly_interaction ds);
    parts ← SplitData.split_data monthly (train_test_ratio l);
    match parts with
    | [monthly; _] =>
        let annually := sum_months (length idx) (py_slice (Some (-12)) None monthly) in
        let annually := mat_add annually (transpose annually) in
        let am := interaction_adjacent annually (self_threshold_interaction l) in
        Ok (Some am, Some (adjacent_to_laplacian am))
    | _ => Raise (ValueError "unpack")
    end
  else if String.eqb name "correlation" then
    let am := correlation_adjacent
                (slice_rows (Some (- 30 * py_int (daily_slots l))) None (train_data l))
                (self_threshold_correlation l) in
    Ok (Some am, Some (adjacent_to_laplacian am))
  else if String.eqb name "neighbor" then
    Ok (None, Some (adjacent_to_laplacian (graph_neighbors ds)))
  else if String.eqb name "line" then
    lm ← select_columns idx (adjacent_to_laplacian (graph_lines ds));
    lm ← take_rows idx lm;
    Ok (None, Some lm)
  else if String.eqb name "transfer" then
    Ok (None, Some (adjacent_to_laplacian (graph_transfer ds)))
  else Ok (None, None).

(** Lines 368-373: the loop over [graph.split('-')]. *)
Fixpoint build_graphs (l : Loader) (names : list string)
                      (am lm : list ndarray)
  : result (list ndarray * list ndarray) :=
  match names with
  | [] => Ok (am, lm)
  | graph_name :: names' =>
      '(a, m) ← build_graph l graph_name;
      let am := match a with Some a => am ++ [a] | None => am end in
      let lm := match m with Some m => lm ++ [m] | None => lm end in
      build_graphs l names' am lm
  end.

(** *** [__init__] *)

(** Lines 362-363 and 375: the graph attributes of a loader. *)
Definition set_graphs (l : Loader) (am lm : list ndarray) : Loader :=
  {| self_dataset := self_dataset l; daily_slots := daily_slots l;
     self_closeness_len := self_closeness_len l;
     self_period_len := self_period_len l;
     self_trend_len := self_trend_len l;
     self_external_lstm_len := self_external_lstm_len l;
     traffic_data_index := traffic_data_index l;
     traffic_data := traffic_data l;
     external_onehot_dim := external_onehot_dim l;
     external_dim := external_dim l;
     station_number := station_number l;
     train_test_ratio := train_test_ratio l;
     normalizer := normalizer l;
     train_data := train_data l; test_data := test_data l;
     train_ef := train_ef l; test_ef := test_ef l;
     train_closeness := train_closeness l; train_period := train_period l;
     train_trend := train_trend l; train_y := train_y l;
     test_closeness := test_closeness l; test_period := test_period l;
     test_trend := test_trend l; test_y := test_y l;
     train_sequence_len := train_sequence_len l;
     test_sequence_len := test_sequence_len l;
     poi_feature_train := poi_feature_train l;
     poi_feature_test := poi_feature_test l;
     poi_dim := poi_dim l;
     train_ef_closeness := train_ef_closeness l;
     train_ef_period := train_ef_period l;
     train_ef_trend := train_ef_trend l;
     train_lstm_ef := train_lstm_ef l;
     test_ef_closeness := test_ef_closeness l;
     test_ef_period := test_ef_period l;
     test_ef_trend := test_ef_trend l;
     test_lstm_ef := test_lstm_ef l;
     tpe := tpe l; tpe_dim := tpe_dim l;
     self_threshold_distance := self_threshold_distance l;
     self_threshold_correlation := self_threshold_correlation l;
     self_threshold_interaction := self_threshold_interaction l;
     AM := am; LM := lm |}.

(** Line 375: [np.array(self.LM, dtype=np.float32)].  The Laplacians are
    stacked in one array, which [numpy] refuses unless they all have the
    same shape; the cast is the identity. *)
Definition np_array (ms : list ndarray) : result (list ndarray) :=
  match ms with
  | [] => Ok []
  | m :: ms' =>
      if forallb (fun m' => (len m' =? len m)%nat && (shape1 m' =? shape1 m)%nat) ms'
      then Ok ms
      else Raise (ValueError "setting an array element with a sequence.")
  end.

(** Lines 361-375. *)
Definition attach_graphs (cfg : Config) (l : Loader) : result Loader :=
  if with_lm cfg then
    '(am, lm) ← build_graphs l (split_dash (graph cfg)) [] [];
    lm ← np_array lm;
    Ok (set_graphs l am lm)
  else Ok l.

Definition init (cfg : Config) (ds : DataSet) : result Loader :=
  r ← resolve cfg ds;
  x ← external_features cfg ds r;
  p ← split_partitions cfg r x;
  let slots := r_daily_slots r in
  '(test_data, test_ef) ← expand_test cfg slots p;
  let sampler := st_move_sample cfg slots in
  '(trc, trp, trt, trn_y) ← ST_MoveSample.move_sample sampler (p_train_data p);
  '(tec, tep, tet, tes_y) ← ST_MoveSample.move_sample sampler test_data;
  let train_sequence_len := sequence_len trc trp trt in
  let test_sequence_len := sequence_len tec tep tet in
  q ← load_poi cfg ds (r_index r) train_sequence_len test_sequence_len;
  w ← external_windows cfg slots (r_external_lstm_len r) x (p_train_ef p) test_ef
                       train_sequence_len test_sequence_len;
  '(e, (trc, trp, trt), (tec, tep, tet)) ←
    (if with_tpe cfg then
       '(e, tr, te) ← time_position cfg slots (r_index r) trc trp trt tec tep tet;
       Ok (Some e, tr, te)
     else Ok (None, (trc, trp, trt), (tec, tep, tet)));
  attach_graphs cfg
    {| self_dataset := ds; daily_slots := slots;
       self_closeness_len := closeness_len cfg;
       self_period_len := period_len cfg;
       self_trend_len := trend_len cfg;
       self_external_lstm_len := r_external_lstm_len r;
       traffic_data_index := r_index r;
       traffic_data := r_traffic_data r;
       external_onehot_dim := x_onehot_dim x;
       external_dim := x_dim x;
       station_number := p_station_number p;
       train_test_ratio := p_train_test_ratio p;
       normalizer := p_normalizer p;
       train_data := p_train_data p; test_data := test_data;
       train_ef := w_train_ef w; test_ef := w_test_ef w;
       train_closeness := trc; train_period := trp;
       train_trend := trt; train_y := trn_y;
       test_closeness := tec; test_period := tep;
       test_trend := tet; test_y := tes_y;
       train_sequence_len := train_sequence_len;
       test_sequence_len := test_sequence_len;
       poi_feature_train := q_train q;
       poi_feature_test := q_test q;
       poi_dim := q_dim q;
       train_ef_closeness := w_train_ef_closeness w;
       train_ef_period := w_train_ef_period w;
       train_ef_trend := w_train_ef_trend w;
       train_lstm_ef := w_train_lstm_ef w;
       test_ef_closeness := w_test_ef_closeness w;
       test_ef_period := w_test_ef_period w;
       test_ef_trend := w_test_ef_trend w;
       test_lstm_ef := w_test_lstm_ef w;
       tpe := e; tpe_dim := match e with Some _ => Some 1%nat | None => None end;
       self_threshold_distance := threshold_distance cfg;
       self_threshold_correlation := threshold_correlation cfg;
       self_threshold_interaction := threshold_interaction cfg;
       AM := []; LM := [] |}.

(** *** Lines 475-517: [make_concat] *)

(** A [for] loop whose body may raise. *)
Fixpoint for_each {S A} (xs : list A) (body : A -> S -> result S) (s : S)
  : result S :=
  match xs with
  | [] => Ok s
  | x :: xs' => s' ← body x s; for_each xs' body s'
  end.

(** [w[:, n, k, -1]]: for every row the last channel of position [k] of
    node [n].  An array without rows carries no further dimensions in this
    embedding, so the indices are checked on the rows that exist. *)
Definition pick (w : windows) (n k : Z) : result (list Q) :=
  mapM (M := result)
       (fun row => nd ← py_index row n;
                   pos ← py_index nd k;
                   py_index pos (-1))
       w.

(** [history[:, i, k] = v], with the broadcasting rule of [numpy]: [v] has
    one value per row, or a single value. *)
Definition assign (history : list (list (list Q))) (i k : nat) (v : list Q)
  : result (list (list (list Q))) :=
  if (length v =? length history)%nat then
    Ok (imap (fun r row => alter (fun nd => <[k := entry v r]> nd) i row) history)
  else if (length v =? 1)%nat then
    Ok ((fun row => alter (fun nd => <[k := entry v 0]> nd) i row) <$> history)
  else Raise (ValueError "could not broadcast input array").

(** One of the three inner loops of [make_concat]: positions [0..n-1] of
    [w] go to the entries [offset..offset+n-1] of node [i]. *)
Definition copy_window (w : windows) (node_i : Z) (i : nat) (offset n : Z)
                       (history : list (list (list Q)))
  : result (list (list (list Q))) :=
  for_each (range 0 n)
           (fun k h => v ← pick w node_i k; assign h i (Z.to_nat (offset + k)) v)
           history.

(** [np.expand_dims(history, 3)]. *)
Definition expand_dims (history : list (list (list Q))) : windows :=
  (fun row : list (list Q) =>
     (fun nd : list Q => (fun x => [x]) <$> nd) <$> row) <$> history.

Definition make_concat (l : Loader) (node : node_t) (is_train : bool)
  : result windows :=
  let '(length_, closeness, period, trend) :=
    if is_train
    then (length (train_y l), train_closeness l, train_period l, train_trend l)
    else (length (test_y l), test_closeness l, test_period l, test_trend l) in
  let node : list Z :=
    match node with
    | NodeAll => Z.of_nat <$> seq 0 (station_number l)
    | NodeIndex n => [n]
    end in
  let c := self_closeness_len l in
  let p := self_period_len l in
  let t := self_trend_len l in
  let history :=
    replicate length_ (replicate (length node) (replicate (Z.to_nat (c + p + t)) (0 # 1)%Q)) in
  history ← for_each (seq 0 (length node))
    (fun i h =>
       node_i ← py_index node (Z.of_nat i);
       h ← copy_window closeness node_i i 0 c h;
       h ← copy_window period node_i i c p h;
       copy_window trend node_i i (c + p) t h)
    history;
  Ok (expand_dims history).

End NodeTrafficLoader.

Arguments Config : clear implicits.

(** ** A computable set of collaborators

    Stand-ins for the collaborators, used to run the loader on concrete
    datasets: the traffic is an array of binary64 numbers whose columns
    are summed row after row, dates are hours since the start of the
    series, the distance is the planar one-norm, the correlation graph
    thresholds the covariance and the Laplacian is the degree matrix
    minus the adjacency matrix. *)
Module Sample.

(** The sum of a column in binary64, one addition after the other. *)
Definition float_sum (l : list Q) : Q :=
  foldl (fun acc x => Float.double (acc + x)) (0 # 1)%Q l.

(** [np.mean(a, axis=0) * s] on an array of binary64 numbers. *)
Definition float_mean_times (a : ndarray) (s : Q) : list Q :=
  (fun j => Float.mul
              (Float.double (float_sum (column a j) / inject_Z (Z.of_nat (len a))))
              s)
    <$> seq 0 (shape1 a).

(** The mean of a column, exactly. *)
Definition column_mean (a : ndarray) (j : nat) : Q :=
  (Qsum (column a j) / inject_Z (Z.of_nat (len a)))%Q.

Definition one_hot_row (width : nat) (v : Z) : list Q :=
  (fun k => if Z.of_nat k =? v then (1 # 1)%Q else (0 # 1)%Q) <$> seq 0 width.

Definition unit_one_hot (rs : list (list Z)) : ndarray :=
  let width := Z.to_nat (foldr Z.max 0 (mjoin rs) + 1) in
  mk_ndarray width ((fun r => one_hot_row width (default 0 (head r))) <$> rs).

Definition indicator (b : bool) : Q := if b then (1 # 1)%Q else (0 # 1)%Q.

Definition square (n : nat) (f : nat -> nat -> Q) : ndarray :=
  mk_ndarray n ((fun i => (fun j => f i j) <$> seq 0 n) <$> seq 0 n).

Definition cell (a : ndarray) (i j : nat) : Q :=
  entry (default [] (rows a !! i)) j.

Definition planar_adjacent (coords : ndarray) (thr : Q) : ndarray :=
  square (len coords)
         (fun i j => indicator
            (Qle_bool (Qabs (cell coords i 0 - cell coords j 0)
                       + Qabs (cell coords i 1 - cell coords j 1))%Q thr)).

Definition covariance (series : ndarray) (i j : nat) : Q :=
  let mi := column_mean series i in
  let mj := column_mean series j in
  Qsum ((fun r => ((entry r i - mi) * (entry r j - mj))%Q) <$> rows series).

Definition covariance_adjacent (series : ndarray) (thr : Q) : ndarray :=
  square (shape1 series) (fun i j => indicator (Qltb thr (covariance series i j))).

Definition threshold_adjacent (counts : ndarray) (thr : Q) : ndarray :=
  mk_ndarray (shape1 counts)
             ((fun r : list Q => (fun x => indicator (Qltb thr x)) <$> r) <$> rows counts).

Definition degree_laplacian (am : ndarray) : ndarray :=
  mk_ndarray (shape1 am)
             (imap (fun i (r : list Q) =>
                      imap (fun j x => if (i =? j)%nat then (Qsum r - x)%Q else (- x)%Q) r)
                   (rows am)).

Definition collaborators : Collaborators := {|
  mean_axis0_times := float_mean_times;
  normalizer_eps := (1 # 1000)%Q;
  datetime := Q;
  parse := fun _ => (0 # 1)%Q;
  add_hours := Qplus;
  hour := fun t => Qfloor t mod 24;
  weekday := fun t => (Qfloor t / 24) mod 7;
  one_hot := unit_one_hot;
  distance_adjacent := planar_adjacent;
  correlation_adjacent := covariance_adjacent;
  interaction_adjacent := threshold_adjacent;
  adjacent_to_laplacian := degree_laplacian
|}.

Definition qrow (l : list Z) : list Q := inject_Z <$> l.

(** Twelve half-day slots of three stations; the third one is idle. *)
Definition traffic : ndarray :=
  mk_ndarray 3 (qrow <$> [[4; 1; 0]; [6; 2; 0]; [5; 3; 0]; [7; 1; 0];
                           [4; 2; 0]; [8; 3; 0]; [6; 1; 0]; [9; 2; 0];
                           [5; 3; 0]; [7; 1; 0]; [6; 2; 0]; [8; 3; 0]]).

Definition weather : ndarray :=
  mk_ndarray 1 (qrow <$> [[1]; [2]; [3]; [4]; [5]; [6]; [7]; [8]; [9]; [10]; [11]; [12]]).

Definition ring3 : ndarray :=
  mk_ndarray 3 (qrow <$> [[0; 1; 1]; [1; 0; 1]; [1; 1; 0]]).

Definition data : DataSet := {|
  time_fitness := 720;
  time_range := ["2020-01-01"%string; "2020-01-07"%string];
  node_traffic := traffic;
  external_feature_weather := weather;
  node_station_info :=
    qrow <$> [[0; 0; 10; 10]; [1; 0; 10; 11]; [2; 0; 50; 50]];
  node_monthly_interaction := [ring3; ring3];
  graph_neighbors := ring3;
  graph_lines := ring3;
  graph_transfer := ring3;
  poi_pickle := None
|}.

Definition monday_to_friday (t : Q) : bool := Qfloor t / 24 mod 7 <? 5.

(** The arguments of the constructor, in the order of [Config]; the
    samples vary the range, the split, the length of the recent external
    history and the graphs. *)
Definition config_with (range : data_range_t) (ratio : Q) (lstm : option Z)
                       (graphs : string) : Config collaborators :=
  @Build_Config collaborators
    "Bike" range LengthAll ratio
    2 1 0 lstm 1
    graphs (1000 # 1)%Q (0 # 1)%Q (500 # 1)%Q
    true monday_to_friday true false "weather-holiday-tp".

Definition config : Config collaborators :=
  config_with RangeAll (1 # 4)%Q (Some 2) "Correlation-Line".

(** The first three days only. *)
Definition config_three_days : Config collaborators :=
  config_with (RangeDays 0 3) (1 # 4)%Q (Some 2) "Correlation-Line".

Definition config_neighbor : Config collaborators :=
  config_with RangeAll (1 # 4)%Q (Some 2) "Neighbor".

Definition config_ratio_above_one : Config collaborators :=
  config_with RangeAll (3 # 2)%Q (Some 2) "Correlation-Line".

Definition config_no_lstm : Config collaborators :=
  config_with RangeAll (1 # 4)%Q (Some 0) "Correlation-Line".

(** The same series, but the third station wakes up in the last slot. *)
Definition traffic_late : ndarray :=
  mk_ndarray 3 (qrow <$> [[4; 1; 0]; [6; 2; 0]; [5; 3; 0]; [7; 1; 0];
                           [4; 2; 0]; [8; 3; 0]; [6; 1; 0]; [9; 2; 0];
                           [5; 3; 0]; [7; 1; 0]; [6; 2; 0]; [8; 3; 100]]).

Definition data_late : DataSet := {|
  time_fitness := 720;
  time_range := ["2020-01-01"%string; "2020-01-07"%string];
  node_traffic := traffic_late;
  external_feature_weather := weather;
  node_station_info :=
    qrow <$> [[0; 0; 10; 10]; [1; 0; 10; 11]; [2; 0; 50; 50]];
  node_monthly_interaction := [ring3; ring3];
  graph_neighbors := ring3;
  graph_lines := ring3;
  graph_transfer := ring3;
  poi_pickle := None
|}.

(** The same series, but the first station is busier in the last slot. *)
Definition traffic_busy : ndarray :=
  mk_ndarray 3 (qrow <$> [[4; 1; 0]; [6; 2; 0]; [5; 3; 0]; [7; 1; 0];
                           [4; 2; 0]; [8; 3; 0]; [6; 1; 0]; [9; 2; 0];
                           [5; 3; 0]; [7; 1; 0]; [6; 2; 0]; [50; 3; 0]]).

Definition data_busy : DataSet := {|
  time_fitness := 720;
  time_range := ["2020-01-01"%string; "2020-01-07"%string];
  node_traffic := traffic_busy;
  external_feature_weather := weather;
  node_station_info :=
    qrow <$> [[0; 0; 10; 10]; [1; 0; 10; 11]; [2; 0; 50; 50]];
  node_monthly_interaction := [ring3; ring3];
  graph_neighbors := ring3;
  graph_lines := ring3;
  graph_transfer := ring3;
  poi_pickle := None
|}.

End Sample.

(** ** The phases of a completed construction

    [Phases cfg ds l] names the intermediate values [__init__] went through
    on its way to the loader [l]: the resolved configuration, the external
    feature matrix, the partitions as they were before the expansion of the
    test set, the expanded test set, and the windows of both samplers. *)
Section Phases.

Context {C : Collaborators}.

Inductive Phases (cfg : Config C) (ds : DataSet) (l : Loader) : Prop :=
| Build_Phases
    (ph_resolved : Resolved)
    (ph_external : External)
    (ph_parts : Parts)
    (ph_test_data : ndarray)
    (ph_test_ef : ndarray)
    (ph_train_windows : windows * windows * windows)
    (ph_test_windows : windows * windows * windows)
    (ph_external_windows : ExternalWindows)
    (ph_loader : Loader)
    (ph_resolve : resolve cfg ds = Ok ph_resolved)
    (ph_external_features :
       external_features cfg ds ph_resolved = Ok ph_external)
    (ph_split : split_partitions cfg ph_resolved ph_external = Ok ph_parts)
    (ph_expand :
       expand_test cfg (r_daily_slots ph_resolved) ph_parts
       = Ok (ph_test_data, ph_test_ef))
    (ph_sample_train :
       ST_MoveSample.move_sample
         (st_move_sample cfg (r_daily_slots ph_resolved)) (p_train_data ph_parts)
       = Ok (ph_train_windows, train_y l))
    (ph_sample_test :
       ST_MoveSample.move_sample
         (st_move_sample cfg (r_daily_slots ph_resolved)) ph_test_data
       = Ok (ph_test_windows, test_y l))
    (ph_sample_external :
       external_windows cfg (r_daily_slots ph_resolved)
                        (r_external_lstm_len ph_resolved) ph_external
                        (p_train_ef ph_parts) ph_test_ef
                        (train_sequence_len l) (test_sequence_len l)
       = Ok ph_external_windows)
    (ph_tpe :
       if with_tpe cfg
       then exists e,
           time_position cfg (r_daily_slots ph_resolved) (r_index ph_resolved)
             ph_train_windows.1.1 ph_train_windows.1.2 ph_train_windows.2
             ph_test_windows.1.1 ph_test_windows.1.2 ph_test_windows.2
           = Ok (e, (train_closeness l, train_period l, train_trend l),
                    (test_closeness l, test_period l, test_trend l))
       else (train_closeness l, train_period l, train_trend l) = ph_train_windows /\
            (test_closeness l, test_period l, test_trend l) = ph_test_windows)
    (ph_graphs : attach_graphs cfg ph_loader = Ok l)
    (ph_daily_slots : daily_slots l = r_daily_slots ph_resolved)
    (ph_index : traffic_data_index l = r_index ph_resolved)
    (ph_station_number : station_number l = p_station_number ph_parts)
    (ph_lengths :
       self_closeness_len l = closeness_len cfg /\
       self_period_len l = period_len cfg /\
       self_trend_len l = trend_len cfg)
    (ph_train_data : train_data l = p_train_data ph_parts)
    (ph_test_data_eq : test_data l = ph_test_data)
    (ph_train_ef : train_ef l = w_train_ef ph_external_windows)
    (ph_test_ef_eq : test_ef l = w_test_ef ph_external_windows)
    (ph_train_lstm_ef : train_lstm_ef l = w_train_lstm_ef ph_external_windows)
    (ph_train_sequence_len :
       train_sequence_len l
       = sequence_len ph_train_windows.1.1 ph_train_windows.1.2 ph_train_windows.2)
    (ph_test_sequence_len :
       test_sequence_len l
       = sequence_len ph_test_windows.1.1 ph_test_windows.1.2 ph_test_windows.2)
    (ph_normalizer : normalizer l = p_normalizer ph_parts)
    (ph_dataset : self_dataset l = ds)
    (ph_fresh : AM ph_loader = [] /\ LM ph_loader = []).

End Phases.

(** ** Provenance of errors *)

(** [clean m]: whatever [m] raises, it is not the error of the guard. *)
Definition clean {A} (m : result A) : Prop :=
  forall e, m = Raise e -> e <> ValueError "test_ratio ".

(** ** Shapes *)

(** An array of shape [[n, n]]. *)
Definition is_square (n : nat) (a : ndarray) : Prop := len a = n /\ shape1 a = n.

(** The graphs [build_graph] builds over the kept nodes, or re-indexes
    through [traffic_data_index]. *)
Definition over_kept_nodes (graph_name : string) : bool :=
  let name := lower graph_name in
  String.eqb name "distance" || String.eqb name "interaction"
  || String.eqb name "correlation" || String.eqb name "line".

(** ** The slots of the test partition

    The selected range [node_traffic[d0:d1]] covers the raw slots from
    [selected_lo] up to [selected_hi]; the split gives its first
    [train_count] slots to the train partition and the others to the test
    partition. *)
Section TestPartition.

Context {C : Collaborators}.

Definition daily_slots_of (ds : DataSet) : Q :=
  Float.double ((1440 # 1) / inject_Z (time_fitness ds))%Q.

(** The range [[data_range[0], data_range[1]]] the constructor resolves;
    where it raises instead, no slot is selected. *)
Definition selected_range (cfg : Config C) (ds : DataSet) : Z * Z :=
  match resolve_data_range (data_range cfg) (daily_slots_of ds) ds with
  | Ok range => range
  | Raise _ => (0, 0)
  end.

Definition selected_lo (cfg : Config C) (ds : DataSet) : nat :=
  slice_bound (len (node_traffic ds)) (fst (selected_range cfg ds)).

Definition selected_hi (cfg : Config C) (ds : DataSet) : nat :=
  slice_bound (len (node_traffic ds)) (snd (selected_range cfg ds)).

Definition train_count (cfg : Config C) (ds : DataSet) : nat :=
  Z.to_nat (py_round (inject_Z (Z.of_nat (selected_hi cfg ds - selected_lo cfg ds))
                      * ((1 # 1) - test_ratio cfg))%Q).

(** Two datasets that differ at most in the traffic values of the slots
    of the test partition: the slot length and the shape of the traffic
    matrix agree, and so do all the rows before and after the test
    partition. *)
Definition same_outside_test (cfg : Config C) (ds1 ds2 : DataSet) : Prop :=
  time_fitness ds1 = time_fitness ds2 /\
  shape1 (node_traffic ds1) = shape1 (node_traffic ds2) /\
  len (node_traffic ds1) = len (node_traffic ds2) /\
  take (selected_lo cfg ds1 + train_count cfg ds1) (rows (node_traffic ds1))
  = take (selected_lo cfg ds1 + train_count cfg ds1) (rows (node_traffic ds2)) /\
  drop (selected_hi cfg ds1) (rows (node_traffic ds1))
  = drop (selected_hi cfg ds1) (rows (node_traffic ds2)).

End TestPartition.

(** ** Reading windowed arrays *)

(** [h[r][i][k]] of a 3-D array, and the cell [w[r][n][k]] of a windowed
    array with its last channel [w[r][n][k][-1]]. *)
Definition get3 (h : list (list (list Q))) (r i k : nat) : option Q :=
  row ← h !! r; nd ← row !! i; nd !! k.

Definition cell (w : windows) (r n k : nat) : option (list Q) :=
  row ← w !! r; nd ← row !! n; nd !! k.

Definition last_channel (w : windows) (r n k : nat) : option Q :=
  e ← cell w r n k; last e.

(** A 3-D array of shape [[R, M, W]]. *)
Definition shaped3 (R M W : nat) (h : list (list (list Q))) : Prop :=
  length h = R /\
  forall r row, h !! r = Some row ->
    length row = M /\ forall i nd, row !! i = Some nd -> length nd = W.

(** A windowed array of [K] positions is of shape [[R, N, K, _]] with at
    least one channel; for [K = 0] the sampler returns an empty array and
    nothing is asked of it. *)
Definition well_shaped (R N : nat) (K : Z) (w : windows) : Prop :=
  K = 0 \/
  (0 < K /\ length w = R /\
   forall r row, w !! r = Some row ->
     length row = N /\
     forall n nd, row !! n = Some nd ->
       length nd = Z.to_nat K /\ forall k e, nd !! k = Some e -> e <> []).

(** The position an index of [numpy] stands for on an axis of size [N]. *)
Definition node_position (N : nat) (n : Z) : nat :=
  Z.to_nat (if n <? 0 then n + Z.of_nat N else n).

Definition valid_node (N : nat) (node : node_t) : Prop :=
  match node with
  | NodeAll => True
  | NodeIndex n => - Z.of_nat N <= n < Z.of_nat N
  end.

(** The nodes [make_concat] selects, as positions of the node axis. *)
Definition selected_nodes (N : nat) (node : node_t) : list nat :=
  match node with
  | NodeAll => seq 0 N
  | NodeIndex n => [node_position N n]
  end.

(** The value [make_concat] is to hold at [[r, i, k]]: the closeness
    entries first, then the period entries, then the trend entries, each
    the last channel of its window at row [r] and node [sel[i]]. *)
Definition layout (closeness period trend : windows) (c p t : nat)
                  (sel : list nat) (r i k : nat) : option Q :=
  n ← sel !! i;
  if decide (k < c)%nat then last_channel closeness r n k
  else if decide (k < c + p)%nat then last_channel period r n (k - c)
  else if decide (k < c + p + t)%nat then last_channel trend r n (k - c - p)
  else None.

(** ** Samples off the grid of whole slots *)
Module SampleLookback.

(** Forty slots of eighteen hours of two stations, with a weather
    reading for every slot. *)
Definition traffic : ndarray :=
  mk_ndarray 2 ((fun i => Sample.qrow [Z.of_nat i mod 5 + 1; Z.of_nat i mod 3 + 2])
                  <$> seq 0 40).

Definition weather : ndarray :=
  mk_ndarray 1 ((fun i => Sample.qrow [Z.of_nat i]) <$> seq 0 40).

Definition data : DataSet := {|
  time_fitness := 1080;
  time_range := ["2020-01-01"%string; "2020-01-31"%string];
  node_traffic := traffic;
  external_feature_weather := weather;
  node_station_info := Sample.qrow <$> [[0; 0; 10; 10]; [1; 0; 10; 11]];
  node_monthly_interaction := [];
  graph_neighbors := Sample.ring3;
  graph_lines := Sample.ring3;
  graph_transfer := Sample.ring3;
  poi_pickle := None
|}.

(** Two slots of closeness, one period and three weeks of trend; no
    graphs. *)
Definition config : Config Sample.collaborators :=
  @Build_Config Sample.collaborators
    "Bike" RangeAll LengthAll (1 # 4)%Q
    2 1 3 (Some 2) 1
    "Correlation" (1000 # 1)%Q (0 # 1)%Q (500 # 1)%Q
    true Sample.monday_to_friday false false "weather".

(** The sample dataset of [Sample] with a weather table that stops two
    slots early, and the weather as the only external feature. *)
Definition weather_short : ndarray :=
  mk_ndarray 1 (Sample.qrow <$> [[1]; [2]; [3]; [4]; [5]; [6]; [7]; [8]; [9]; [10]]).

Definition data_short_weather : DataSet := {|
  time_fitness := 720;
  time_range := ["2020-01-01"%string; "2020-01-07"%string];
  node_traffic := Sample.traffic;
  external_feature_weather := weather_short;
  node_station_info :=
    Sample.qrow <$> [[0; 0; 10; 10]; [1; 0; 10; 11]; [2; 0; 50; 50]];
  node_monthly_interaction := [Sample.ring3; Sample.ring3];
  graph_neighbors := Sample.ring3;
  graph_lines := Sample.ring3;
  graph_transfer := Sample.ring3;
  poi_pickle := None
|}.

Definition config_weather : Config Sample.collaborators :=
  @Build_Config Sample.collaborators
    "Bike" RangeAll LengthAll (1 # 4)%Q
    2 1 0 (Some 2) 1
    "Correlation-Line" (1000 # 1)%Q (0 # 1)%Q (500 # 1)%Q
    true Sample.monday_to_friday true false "weather".

(** 288 slots of 55 minutes of one station, which counts one
    ride in each of its first eleven slots. *)
Definition traffic_threshold : ndarray :=
  mk_ndarray 1 ((fun i => [if (i <? 11)%nat then (1 # 1)%Q else (0 # 1)%Q]) <$> seq 0 288).

Definition data_threshold : DataSet := {|
  time_fitness := 55;
  time_range := ["2020-01-01"%string; "2020-01-12"%string];
  node_traffic := traffic_threshold;
  external_feature_weather := empty_array;
  node_station_info := Sample.qrow <$> [[0; 0; 10; 10]];
  node_monthly_interaction := [];
  graph_neighbors := Sample.ring3;
  graph_lines := Sample.ring3;
  graph_transfer := Sample.ring3;
  poi_pickle := None
|}.

End SampleLookback.

(** ** The attributes of a constructed loader, read back *)

(** The graph names for which [build_graph] returns a Laplacian, and
    those for which it returns an adjacency matrix as well; any other
    name gives [(None, None)].  The names are compared in lower case. *)
Definition has_laplacian (graph_name : string) : bool :=
  let name := lower graph_name in
  String.eqb name "distance" || String.eqb name "interaction"
  || String.eqb name "correlation" || String.eqb name "neighbor"
  || String.eqb name "line" || String.eqb name "transfer".

Definition has_adjacency (graph_name : string) : bool :=
  let name := lower graph_name in
  String.eqb name "distance" || String.eqb name "interaction"
  || String.eqb name "correlation".

(** The values [stride, 2 * stride, ..., n * stride]. *)
Definition positions (n stride : Z) : list Q :=
  (fun k => inject_Z ((k + 1) * stride)) <$> seqZ 0 n.

(** The time positions of the history axis of [make_concat]: those of the
    closeness entries, of the period entries and of the trend entries. *)
Definition history_positions (c p t d : Z) : list Q :=
  positions c 1 ++ positions p d ++ positions t (7 * d).

(** [with_position v traffic w]: every cell of the windowed array [w] is
    the cell of [traffic] at the same row, node and position [k], followed
    by one more channel holding [v[k]]. *)
Definition with_position (v : list Q) (traffic w : windows) : Prop :=
  forall r n k ch,
    cell w r n k = Some ch ->
    exists ch0 x, cell traffic r n k = Some ch0 /\ v !! k = Some x /\ ch = ch0 ++ [x].

(** [avoids e0 m]: whatever [m] raises, it is not [e0]. *)
Definition avoids {A} (e0 : exn) (m : result A) : Prop :=
  forall e, m = Raise e -> e <> e0.

(** ** Further sample constructions *)
Module SampleAttributes.

(** The sample dataset with a POI table of three rows, one per raw
    station. *)
Definition poi_table : ndarray :=
  mk_ndarray 2 (Sample.qrow <$> [[1; 2]; [3; 4]; [5; 6]]).

Definition data_poi : DataSet := {|
  time_fitness := 720;
  time_range := ["2020-01-01"%string; "2020-01-07"%string];
  node_traffic := Sample.traffic;
  external_feature_weather := Sample.weather;
  node_station_info :=
    Sample.qrow <$> [[0; 0; 10; 10]; [1; 0; 10; 11]; [2; 0; 50; 50]];
  node_monthly_interaction := [Sample.ring3; Sample.ring3];
  graph_neighbors := Sample.ring3;
  graph_lines := Sample.ring3;
  graph_transfer := Sample.ring3;
  poi_pickle := Some poi_table
|}.

(** The arguments that the samples of this part vary: the length of the
    train set, the period length, the graphs, the time position embedding
    and the external features in use. *)
Definition config_of (length : train_data_length_t) (period : Z)
                     (graphs : string) (tpe : bool) (use : string)
  : Config Sample.collaborators :=
  @Build_Config Sample.collaborators
    "Bike" RangeAll length (1 # 4)%Q
    2 period 0 (Some 2) 1
    graphs (1000 # 1)%Q (0 # 1)%Q (500 # 1)%Q
    true Sample.monday_to_friday true tpe use.

Definition config_poi : Config Sample.collaborators :=
  config_of LengthAll 1 "Correlation-Line" false "weather-holiday-tp-poi".

Definition config_tpe : Config Sample.collaborators :=
  config_of LengthAll 1 "Correlation-Line" true "weather-holiday-tp".

(** A misspelt name between two known ones, in mixed case. *)
Definition config_graphs : Config Sample.collaborators :=
  config_of LengthAll 1 "DISTANCE-Corelation-Line" false "weather-holiday-tp".

(** A graph over the kept stations and one over all the stations. *)
Definition config_mixed : Config Sample.collaborators :=
  config_of LengthAll 1 "Correlation-Neighbor" false "weather-holiday-tp".

(** No external feature but the POI table. *)
Definition config_no_features : Config Sample.collaborators :=
  config_of LengthAll 1 "Correlation-Line" false "poi".

(** Two days of train data against a lookback of three days. *)
Definition config_short : Config Sample.collaborators :=
  config_of (LengthDays 2) 3 "Correlation-Line" false "weather-holiday-tp".

Definition config_negative : Config Sample.collaborators :=
  config_of LengthAll (-1) "Correlation-Line" false "weather-holiday-tp".

End SampleAttributes.

(** * [TransferDataLoader]

    The class pairs a loader of a source city with two loaders of a
    target city and looks, for every node of the target, for the window
    of the source train data that resembles the target train data most. *)

(** [sklearn.metrics.pairwise.cosine_similarity] is used by the class
    and defined elsewhere; it may reject its arguments. *)
Class Similarity : Type := {
  cosine_similarity : ndarray -> ndarray -> result ndarray
}.

(** ** Reductions of [numpy] *)

(** [max(r)] and the position of its first occurrence. *)
Definition maximum (r : list Q) : Q :=
  match r with
  | [] => (0 # 1)%Q
  | x :: r' => foldl (fun best y => if Qltb best y then y else best) x r'
  end.

Fixpoint argmax_from (best : Q) (found i : nat) (r : list Q) : nat :=
  match r with
  | [] => found
  | y :: r' =>
      if Qltb best y then argmax_from y i (Datatypes.S i) r'
      else argmax_from best found (Datatypes.S i) r'
  end.

Definition argmax (r : list Q) : nat :=
  match r with
  | [] => 0%nat
  | x :: r' => argmax_from x 0 1 r'
  end.

(** [np.max(a, axis=1)] and [np.argmax(a, axis=1)]: a reduction over an
    axis of size zero raises. *)
Definition np_max_axis1 (a : ndarray) : result (list Q) :=
  if (shape1 a =? 0)%nat
  then Raise (ValueError "zero-size array to reduction operation maximum which has no identity")
  else Ok (maximum <$> rows a).

Definition np_argmax_axis1 (a : ndarray) : result (list nat) :=
  if (shape1 a =? 0)%nat
  then Raise (ValueError "attempt to get argmax of an empty sequence")
  else Ok (argmax <$> rows a).

(** [l[i]] for an index that is not negative. *)
Definition item {A} (l : list A) (i : nat) : result A := py_index l (Z.of_nat i).

Module TransferDataLoader.

Section Loader.

Context {C : Collaborators} {Sim : Similarity}.

(** The attributes of a constructed [TransferDataLoader]. *)
Record t : Type := {
  sd_loader : Loader;
  td_loader : Loader;
  fake_td_loader : Loader
}.

(** The truth value of [td_data_length]: [None] and the integer zero are
    false, a string that holds a number of days or ['all'] is true. *)
Definition truthy (td_data_length : option train_data_length_t) : bool :=
  match td_data_length with
  | None => false
  | Some (LengthInt d) => negb (d =? 0)
  | Some _ => true
  end.

(** [td_params.update({'train_data_length': v})]. *)
Definition update_train_data_length (td_params : Config C)
                                    (v : option train_data_length_t) : Config C :=
  match v with
  | Some v => with_train_data_length td_params v
  | None => td_params
  end.

(** Lines 522-531.  [sd_params] and [td_params] stand for the keyword
    arguments of the two cities merged with [model_params], [sd_dataset]
    and [td_dataset] for the datasets they name.  The dictionary
    [td_params] is updated in place, so the constructor returns, next to
    the object, the dictionary as the caller finds it afterwards. *)
Definition init (sd_params td_params : Config C) (sd_dataset td_dataset : DataSet)
                (td_data_length : option train_data_length_t)
  : result (t * Config C) :=
  let td_params :=
    if truthy td_data_length
    then update_train_data_length td_params td_data_length
    else td_params in
  sd ← init sd_params sd_dataset;
  td ← init td_params td_dataset;
  let td_params := update_train_data_length td_params (Some (LengthDays 180)) in
  fake ← init td_params td_dataset;
  Ok ({| sd_loader := sd; td_loader := td; fake_td_loader := fake |}, td_params).

(** One entry of [similar_record]: the list
    [[max_sim, max_index, i, i + length]]. *)
Record Similar : Type := mk_similar {
  similarity : Q;
  source_node : nat;
  window_start : Z;
  window_stop : Z
}.

(** Lines 542-545: the similarity of every node of [td] with every node
    of [sd] over the window of [sd] that starts at slot [i], reduced for
    every node of [td] to the best value and to the node of [sd] that
    reaches it. *)
Definition window_scores (sd td : Loader) (i : Z) : result (list Q * list nat) :=
  let n := Z.of_nat (len (train_data td)) in
  sim ← cosine_similarity
          (transpose (train_data td))
          (transpose (slice_rows (Some i) (Some (i + n)) (train_data sd)));
  max_sim ← np_max_axis1 sim;
  max_index ← np_argmax_axis1 sim;
  Ok (max_sim, max_index).

(** Lines 548-549: the records of the first window. *)
Definition first_records (max_sim : list Q) (max_index : list nat) (i stop : Z)
  : result (list Similar) :=
  mapM (M := result)
       (fun e => m ← item max_sim e;
                 a ← item max_index e;
                 Ok (mk_similar m a i stop))
       (seq 0 (length max_sim)).

(** Lines 551-554: a record is replaced when the window does strictly
    better for its node. *)
Definition replace_records (max_sim : list Q) (max_index : list nat) (i stop : Z)
                           (similar_record : list Similar)
  : result (list Similar) :=
  for_each (seq 0 (length similar_record))
           (fun index recs =>
              r ← item recs index;
              m ← item max_sim index;
              if Qltb (similarity r) m then
                m ← item max_sim index;
                a ← item max_index index;
                Ok (<[index := mk_similar m a i stop]> recs)
              else Ok recs)
           similar_record.

(** The body that [traffic_sim] and [traffic_sim_fake] share.  [td] is
    the loader whose train data are compared with the windows of [sd];
    [replaced] is the length that is added to the start of a window when
    a record is replaced. *)
Definition similar_windows (sd td : Loader) (replaced : nat)
  : result (list Similar) :=
  _ ← py_assert (Qeq_bool (daily_slots sd) (daily_slots td));
  let n := Z.of_nat (len (train_data td)) in
  starts ← py_range 0 (Z.of_nat (len (train_data sd)) - n) (py_int (daily_slots sd));
  for_each starts
           (fun i similar_record =>
              '(max_sim, max_index) ← window_scores sd td i;
              if (length similar_record =? 0)%nat
              then first_records max_sim max_index i (i + n)
              else replace_records max_sim max_index i (i + Z.of_nat replaced)
                                   similar_record)
           [].

(** Lines 533-556. *)
Definition traffic_sim (self : t) : result (list Similar) :=
  similar_windows (sd_loader self) (td_loader self)
                  (len (train_data (td_loader self))).

(** Lines 558-582: the same with [fake_td_loader], except that a
    replaced record ends at [i + self.td_loader.train_data.shape[0]]. *)
Definition traffic_sim_fake (self : t) : result (list Similar) :=
  similar_windows (sd_loader self) (fake_td_loader self)
                  (len (train_data (td_loader self))).

End Loader.

End TransferDataLoader.

(** ** A computable similarity and two cities *)
Module TransferSample.

(** The scalar product stands in for the cosine. *)
Definition dot (u v : list Q) : Q := Qsum (zip_with Qmult u v).

Definition dot_similarity (x y : ndarray) : result ndarray :=
  Ok (mk_ndarray (len y) ((fun u => (fun v => dot u v) <$> rows y) <$> rows x)).

Definition dot_product : Similarity := {| cosine_similarity := dot_similarity |}.

(** Twenty half-day slots of two stations of the source city; the first
    station grows busier, the second one quieter. *)
Definition source_traffic : ndarray :=
  mk_ndarray 2 (Sample.qrow <$>
    [[1; 9]; [2; 9]; [3; 8]; [4; 8]; [5; 7]; [6; 7]; [7; 6]; [8; 6]; [9; 5]; [10; 5];
     [11; 4]; [12; 4]; [13; 3]; [14; 3]; [15; 2]; [16; 2]; [17; 2]; [18; 2]; [19; 2];
     [20; 2]]).

Definition source_weather : ndarray :=
  mk_ndarray 1 (Sample.qrow <$>
    [[1]; [2]; [3]; [4]; [5]; [6]; [7]; [8]; [9]; [10];
     [11]; [12]; [13]; [14]; [15]; [16]; [17]; [18]; [19]; [20]]).

Definition source : DataSet := {|
  time_fitness := 720;
  time_range := ["2020-01-01"%string; "2020-01-11"%string];
  node_traffic := source_traffic;
  external_feature_weather := source_weather;
  node_station_info := Sample.qrow <$> [[0; 0; 10; 10]; [1; 0; 10; 11]];
  node_monthly_interaction := [];
  graph_neighbors := Sample.ring3;
  graph_lines := Sample.ring3;
  graph_transfer := Sample.ring3;
  poi_pickle := None
|}.

(** The arguments of both cities: no normalisation, so that the scalar
    products stay whole numbers, and the holiday feature only. *)
Definition params : Config Sample.collaborators :=
  @Build_Config Sample.collaborators
    "Bike" RangeAll LengthAll (1 # 4)%Q
    2 1 0 (Some 2) 1
    "Correlation" (1000 # 1)%Q (0 # 1)%Q (500 # 1)%Q
    false Sample.monday_to_friday true false "holiday".

End TransferSample.

(** * [STMeta]: the graph of the model and its feed dictionary

    The development follows [src/UCTB/model/STMeta.py].  The method
    [build] assembles a TensorFlow graph: what it computes lies in the
    library, what it decides lies in Python.  The embedding keeps the
    Python part as it is written (the branches, the loops, the local
    variables that a branch may leave unassigned, the dictionaries
    [_input], [_output] and [_op] of the object) and takes every call of
    TensorFlow, keras, numpy or a unit of UCTB as a parameter that returns
    a tensor or raises. *)
Module STMeta.

(** The Python values handed to the library as sizes and shapes: [None],
    an [int], a [float] or a list of such values. *)
#[warnings="-register-all"] Inductive value : Type :=
| VNone
| VInt (n : Z)
| VFloat (x : Q)
| VList (l : list value).

Inductive error : Type :=
| ValueError (msg : string)
| UnboundLocalError (name : string)
| IndexError
| TypeError
| OtherError (name : string).

Inductive outcome (A : Type) : Type :=
| Done (a : A)
| Fail (e : error).
Arguments Done {A} a.
Arguments Fail {A} e.

(** [isinstance(v, int)], [len(v)] and [v[i]]. *)
Definition is_int (v : value) : bool :=
  match v with VInt _ => true | _ => false end.

Definition py_len (v : value) : outcome Z :=
  match v with
  | VList l => Done (Z.of_nat (length l))
  | _ => Fail TypeError
  end.

Definition subscript (v : value) (i : nat) : outcome value :=
  match v with
  | VList l => match l !! i with Some x => Done x | None => Fail IndexError end
  | _ => Fail TypeError
  end.

(** The calls of the libraries.  [Layer] is a keras layer that has been
    constructed and not yet applied. *)
Class Library : Type := {
  Tensor : Type;
  Layer : Type;
  Optimizer : Type;
  Activation : Type;
  (** [tf.sigmoid] and [tf.nn.tanh]. *)
  sigmoid : Activation;
  tanh : Activation;
  (** [Optimizer(decay_param=..., lr=...)]. *)
  new_optimizer : option string -> Q -> Optimizer;
  (** The dictionaries [_input], [_output] and [_op] as
      [BaseModel.__init__(code_version, model_dir, gpu_device)] leaves
      them. *)
  base_dictionaries : string -> string -> string ->
    gmap string string * gmap string string * gmap string string;
  (** [t.name] and [t.get_shape()[-1].value]. *)
  tensor_name : Tensor -> string;
  last_dimension : Tensor -> value;
  (** [tf.placeholder(tf.float32, shape, name=name)]. *)
  placeholder : list value -> option string -> outcome Tensor;
  (** Lines 183-191: the stacked [GCLSTMCell]s of one graph run over one
      temporal feature, from [units], [num_nodes], [laplace_matrix],
      [graph_index], [gcn_k], [gcn_l], the number of layers, [time_step]
      and the feature. *)
  gclstm : Z -> Z -> Tensor -> Z -> Z -> Z -> Z -> Z -> Tensor -> outcome Tensor;
  (** Lines 195-210: the same with [DCGRUCell], from [units],
      [num_graph], [laplace_matrix], [max_diffusion_step], [num_nodes],
      [graph_index] and [given_name] (the name of the cell), the number
      of layers, [time_step] and the feature. *)
  dcgru : Z -> Z -> Tensor -> Z -> Z -> Z -> string -> Z -> Z -> Tensor
          -> outcome Tensor;
  (** Lines 214-218 and 222-226: stacked [GRUCell]s and [LSTMCell]s, from
      [units], the number of layers, [time_step] and the feature. *)
  gru : Z -> Z -> Z -> Tensor -> outcome Tensor;
  lstm : Z -> Z -> Z -> Tensor -> outcome Tensor;
  (** [tf.concat(tensors, axis=axis)]. *)
  concat : list Tensor -> Z -> outcome Tensor;
  (** [GAL.add_ga_layer_matrix(inputs=..., units=..., num_head=...)]. *)
  add_ga_layer_matrix : Tensor -> Z -> Z -> outcome (Tensor * Tensor);
  (** [tf.reduce_mean(t, axis=axis, keepdims=True)]. *)
  reduce_mean : Tensor -> Z -> outcome Tensor;
  (** [tf.reshape(t, shape, name=name)]. *)
  reshape : Tensor -> list value -> option string -> outcome Tensor;
  (** [tf.keras.layers.BatchNormalization(axis=-1, name=name)(t)]. *)
  batch_normalization : string -> Tensor -> outcome Tensor;
  (** [tf.tile(t, [1, tf.shape(like)[1], tf.shape(like)[2], 1])]. *)
  tile_like : Tensor -> Tensor -> outcome Tensor;
  (** [tf.keras.layers.Dense(units=units, activation=activation, ...)(t)]. *)
  dense : value -> option Activation -> Tensor -> outcome Tensor;
  (** [tf.multiply(a, b)] and [tf.add(a, b)]. *)
  multiply : Tensor -> Tensor -> outcome Tensor;
  add : Tensor -> Tensor -> outcome Tensor;
  (** [tf.strided_slice(t, [0, first], [tf.shape(t)[0], last], [1, 1])]. *)
  strided_slice : Tensor -> Z -> Z -> outcome Tensor;
  (** [np.sum(v)], and [n + x] for an [int] and a number of numpy. *)
  np_sum : value -> outcome value;
  np_add : Z -> value -> outcome value;
  (** Lines 320-322: [tf.keras.layers.RNN] over one stacked [LSTMCell] of
      [units] units, constructed and not yet applied; and its
      application. *)
  lstm_layer : Z -> outcome Layer;
  apply_layer : Layer -> Tensor -> outcome Tensor;
  (** [t[:, first:]]. *)
  columns_from : Tensor -> Z -> outcome Tensor;
  (** [tf.sqrt(tf.reduce_mean(tf.square(target - prediction)), name=name)]. *)
  root_mean_square : Tensor -> Tensor -> string -> outcome Tensor;
  (** [optimizer.build(loss_pre=loss)], returning [train_op],
      [global_step_name] and [learning_rate_name]. *)
  optimizer_build : Optimizer -> Tensor -> outcome (Tensor * string * string)
}.

Section Model.

Context {L : Library}.

(** The attributes [__init__] sets and [build] only reads. *)
Record Attributes : Type := {
  _num_node : Z;
  _gcn_k : Z;
  _gcn_layer : Z;
  _graph_merge_gal_units : Z;
  _graph_merge_gal_num_heads : Z;
  _temporal_merge_gal_units : Z;
  _temporal_merge_gal_num_heads : Z;
  _gclstm_layers : Z;
  _num_graph : Z;
  _external_dim : option Z;
  _output_activation : Activation;
  _st_method : string;
  _temporal_merge : string;
  _graph_merge : string;
  _closeness_len : Z;
  _period_len : Z;
  _trend_len : Z;
  _weather_len : Z;
  _num_hidden_unit : Z;
  _num_dense_units : Z;
  _lr : Q;
  _optimizer : Optimizer;
  external_method : string;
  _classified_external_feature_dim : list Z
}.

(** The object: the attributes above, and those [build] assigns. *)
Record t : Type := {
  attributes : Attributes;
  _embedding_dim : value;
  _input : gmap string string;
  _output : gmap string string;
  _op : gmap string string
}.

(** Lines 57-132.  The lengths are integers already, so [int(...)] leaves
    them as they are. *)
Definition init (num_node : Z) (external_dim : option Z)
                (closeness_len period_len trend_len weather_len : Z)
                (num_graph gcn_k gcn_layers gclstm_layers : Z)
                (num_hidden_units num_dense_units : Z)
                (graph_merge_gal_units graph_merge_gal_num_heads : Z)
                (temporal_merge_gal_units temporal_merge_gal_num_heads : Z)
                (st_method temporal_merge graph_merge : string)
                (output_activation : Activation) (lr : Q)
                (code_version model_dir gpu_device : string)
                (external_method : string) (embedding_dim : value)
                (classified_external_feature_dim : list Z)
                (decay_param : option string) : t :=
  let '(input, output, op) := base_dictionaries code_version model_dir gpu_device in
  {| attributes :=
       {| _num_node := num_node;
          _gcn_k := gcn_k;
          _gcn_layer := gcn_layers;
          _graph_merge_gal_units := graph_merge_gal_units;
          _graph_merge_gal_num_heads := graph_merge_gal_num_heads;
          _temporal_merge_gal_units := temporal_merge_gal_units;
          _temporal_merge_gal_num_heads := temporal_merge_gal_num_heads;
          _gclstm_layers := gclstm_layers;
          _num_graph := num_graph;
          _external_dim := external_dim;
          _output_activation := output_activation;
          _st_method := st_method;
          _temporal_merge := temporal_merge;
          _graph_merge := graph_merge;
          _closeness_len := closeness_len;
          _period_len := period_len;
          _trend_len := trend_len;
          _weather_len := weather_len;
          _num_hidden_unit := num_hidden_units;
          _num_dense_units := num_dense_units;
          _lr := lr;
          _optimizer := new_optimizer decay_param lr;
          external_method := lower external_method;
          _classified_external_feature_dim := classified_external_feature_dim |};
     _embedding_dim := embedding_dim;
     _input := input;
     _output := output;
     _op := op |}.

(** ** The monad of [build]: the object is updated in place, and an
    exception leaves it as it is at that point. *)
Definition M (A : Type) : Type := t -> outcome A * t.

#[global] Instance M_ret : MRet M := fun A a s => (Done a, s).
#[global] Instance M_bind : MBind M := fun A B f m s =>
  match m s with
  | (Done a, s') => f a s'
  | (Fail e, s') => (Fail e, s')
  end.

Definition raise {A} (e : error) : M A := fun s => (Fail e, s).

(** A call of a library, or a Python expression that may raise. *)
Definition call {A} (o : outcome A) : M A := fun s => (o, s).

(** [self.x], for an attribute [x] that is only read. *)
Definition attribute {A} (x : Attributes -> A) : M A :=
  fun s => (Done (x (attributes s)), s).

Definition get_embedding_dim : M value := fun s => (Done (_embedding_dim s), s).

(** [self._embedding_dim = v], [self._input[k] = v], [self._output[k] = v]
    and [self._op[k] = v]. *)
Definition set_embedding_dim (v : value) : M unit := fun s =>
  (Done tt, {| attributes := attributes s; _embedding_dim := v;
               _input := _input s; _output := _output s; _op := _op s |}).

Definition set_input (k v : string) : M unit := fun s =>
  (Done tt, {| attributes := attributes s; _embedding_dim := _embedding_dim s;
               _input := <[k := v]> (_input s); _output := _output s;
               _op := _op s |}).

Definition set_output (k v : string) : M unit := fun s =>
  (Done tt, {| attributes := attributes s; _embedding_dim := _embedding_dim s;
               _input := _input s; _output := <[k := v]> (_output s);
               _op := _op s |}).

Definition set_op (k v : string) : M unit := fun s =>
  (Done tt, {| attributes := attributes s; _embedding_dim := _embedding_dim s;
               _input := _input s; _output := _output s;
               _op := <[k := v]> (_op s) |}).

(** Reading a local variable that a branch may have left unassigned. *)
Definition local {A} (name : string) (v : option A) : M A :=
  match v with
  | Some a => mret a
  | None => raise (UnboundLocalError name)
  end.

(** A [for] loop that carries a value along. *)
Fixpoint fold_each {A S} (xs : list A) (body : A -> S -> M S) (acc : S) : M S :=
  match xs with
  | [] => mret acc
  | x :: xs' => acc' ← body x acc; fold_each xs' body acc'
  end.

(** ** Lines 138-169: the inputs *)

(** A temporal feature: [[length, placeholder, name]]. *)
Definition temporal_feature : Type := Z * Tensor * string.

(** Lines 140-144 and alike: the placeholder of one history, when its
    length is positive. *)
Definition history_input (length : Z) (feature : string) : M (option Tensor) :=
  if 0 <? length then
    ph ← call (placeholder [VNone; VNone; VInt length; VInt 1] (Some feature));
    _ ← set_input feature (tensor_name ph);
    mret (Some ph)
  else mret None.

Definition as_feature (length : Z) (feature : string) (ph : option Tensor)
  : list temporal_feature :=
  match ph with
  | Some ph => [(length, ph, feature)]
  | None => []
  end.

Record Inputs : Type := {
  temporal_features : list temporal_feature;
  weather_feature : option Tensor;
  target : Tensor;
  laplace_matrix : Tensor
}.

Definition build_inputs : M Inputs :=
  closeness_len ← attribute _closeness_len;
  closeness ← history_input closeness_len "closeness_feature";
  period_len ← attribute _period_len;
  period ← history_input period_len "period_feature";
  trend_len ← attribute _trend_len;
  trend ← history_input trend_len "trend_feature";
  weather_len ← attribute _weather_len;
  weather ← history_input weather_len "weather_feature";
  let features := as_feature closeness_len "closeness_feature" closeness
                  ++ as_feature period_len "period_feature" period
                  ++ as_feature trend_len "trend_feature" trend in
  if (0 <? length features)%nat then
    target ← call (placeholder [VNone; VNone; VInt 1] (Some "target"));
    num_graph ← attribute _num_graph;
    laplace_matrix ← call (placeholder [VInt num_graph; VNone; VNone]
                                       (Some "laplace_matrix"));
    _ ← set_input "target" (tensor_name target);
    _ ← set_input "laplace_matrix" (tensor_name laplace_matrix);
    mret {| temporal_features := features; weather_feature := weather;
            target := target; laplace_matrix := laplace_matrix |}
  else raise (ValueError "closeness_len, period_len, trend_len cannot all be zero").

(** ** Lines 171-261: the spatial and temporal part *)

Definition is_st_method (name : string) : bool :=
  String.eqb name "GCLSTM" || String.eqb name "DCRNN"
  || String.eqb name "GRU" || String.eqb name "LSTM".

(** Lines 181-226: one temporal feature of one graph. *)
Definition st_outputs (laplace_matrix : Tensor) (graph_index : Z)
                      (feature : temporal_feature) : M Tensor :=
  let '(time_step, target_tensor, given_name) := feature in
  a ← attribute id;
  if String.eqb (_st_method a) "GCLSTM" then
    call (gclstm (_num_hidden_unit a) (_num_node a) laplace_matrix graph_index
                 (_gcn_k a) (_gcn_layer a) (_gclstm_layers a)
                 time_step target_tensor)
  else if String.eqb (_st_method a) "DCRNN" then
    call (dcgru (_num_hidden_unit a) (_num_graph a) laplace_matrix (_gcn_k a)
                (_num_node a) graph_index given_name (_gclstm_layers a)
                time_step target_tensor)
  else if String.eqb (_st_method a) "GRU" then
    call (gru (_num_hidden_unit a) (_gclstm_layers a) time_step target_tensor)
  else if String.eqb (_st_method a) "LSTM" then
    call (lstm (_num_hidden_unit a) (_gclstm_layers a) time_step target_tensor)
  else raise (UnboundLocalError "st_outputs").

(** Lines 236-240 and 246-249: the merge through a graph attention
    layer. *)
Definition gal_merge (tensors : list Tensor) (units num_head : Z) : M Tensor :=
  inputs ← call (concat tensors (-2));
  '(_, gal_output) ← call (add_ga_layer_matrix inputs units num_head);
  call (reduce_mean gal_output (-2)).

(** Lines 175-240: the body of the loop over the graphs. *)
Definition graph_outputs (inputs : Inputs) (graph_index : Z)
                         (graph_outputs_list : list Tensor) : M (list Tensor) :=
  a ← attribute id;
  if is_st_method (_st_method a) then
    outputs_temporal ← fold_each (temporal_features inputs)
      (fun feature outputs =>
         o ← st_outputs (laplace_matrix inputs) graph_index feature;
         mret (outputs ++ [o]))
      [];
    if String.eqb (_temporal_merge a) "concat" then
      o ← call (concat outputs_temporal (-1));
      mret (graph_outputs_list ++ [o])
    else if String.eqb (_temporal_merge a) "gal" then
      o ← gal_merge outputs_temporal (_temporal_merge_gal_units a)
                    (_temporal_merge_gal_num_heads a);
      mret (graph_outputs_list ++ [o])
    else mret graph_outputs_list
  else mret graph_outputs_list.

(** Lines 242-257: the merge of the graphs.  With more than one graph
    and a [graph_merge] that is neither ['gal'] nor ['concat'] the
    variable [dense_inputs] stays unassigned. *)
Definition merge_graphs (graph_outputs_list : list Tensor) : M (option Tensor) :=
  a ← attribute id;
  if 1 <? _num_graph a then
    if String.eqb (_graph_merge a) "gal" then
      o ← gal_merge graph_outputs_list (_graph_merge_gal_units a)
                    (_graph_merge_gal_num_heads a);
      mret (Some o)
    else if String.eqb (_graph_merge a) "concat" then
      o ← call (concat graph_outputs_list (-1));
      mret (Some o)
    else mret None
  else
    match last graph_outputs_list with
    | Some o => mret (Some o)
    | None => raise IndexError
    end.

Definition build_network (inputs : Inputs) : M Tensor :=
  num_graph ← attribute _num_graph;
  graph_outputs_list ← fold_each (seqZ 0 num_graph) (graph_outputs inputs) [];
  dense_inputs ← merge_graphs graph_outputs_list;
  dense_inputs ← local "dense_inputs" dense_inputs;
  num_node ← attribute _num_node;
  dense_inputs ← call (reshape dense_inputs
                               [VInt (-1); VInt num_node; VInt 1;
                                last_dimension dense_inputs] None);
  call (batch_normalization "feature_map" dense_inputs).

(** ** Lines 263-333: the external features *)

Definition dim_value (d : option Z) : value :=
  match d with
  | Some n => VInt n
  | None => VNone
  end.

(** [tf.tile(tf.reshape(t, [-1, 1, 1, size]), ...)]: one copy of the
    external vector for every node. *)
Definition spread (t : Tensor) (size : value) (dense_inputs : Tensor) : M Tensor :=
  r ← call (reshape t [VInt (-1); VInt 1; VInt 1; size] None);
  call (tile_like r dense_inputs).

(** Lines 291-300. *)
Definition embedding_dense (external_input dense_inputs : Tensor) : M Tensor :=
  e ← get_embedding_dim;
  _ ← (if is_int e then mret tt
       else
         first ← call (subscript e 0);
         if is_int first then set_embedding_dim first else mret tt);
  e ← get_embedding_dim;
  external_dense ← call (dense e None external_input);
  spread external_dense e dense_inputs.

(** Lines 302-315. *)
Definition classified_dense (external_input dense_inputs : Tensor) : M Tensor :=
  dims ← attribute _classified_external_feature_dim;
  e ← get_embedding_dim;
  _ ← call (py_len e);
  '(embedding_output, _) ←
    fold_each (imap (fun i tmp => (i, tmp)) dims)
      (fun '(i, tmp) '(embedding_output, ind) =>
         tensor_slice ← call (strided_slice external_input ind (ind + tmp));
         tensor_slice ← call (reshape tensor_slice [VInt (-1); VInt tmp] None);
         e ← get_embedding_dim;
         units ← call (subscript e i);
         extern_embedding ← call (dense units None tensor_slice);
         mret (embedding_output ++ [extern_embedding], ind + tmp))
      ([], 0);
  external_dense ← call (concat embedding_output (-1));
  e ← get_embedding_dim;
  size ← call (np_sum e);
  spread external_dense size dense_inputs.

(** Lines 317-329. *)
Definition lstm_dense (weather_feature : option Tensor)
                      (external_input dense_inputs : Tensor) : M Tensor :=
  let weather_lstm_hidden := 10 in
  dims ← attribute _classified_external_feature_dim;
  weather_dim ← call (match dims with
                      | d :: _ => Done d
                      | [] => Fail IndexError
                      end);
  layer ← call (lstm_layer weather_lstm_hidden);
  weather_feature ← local "weather_feature" weather_feature;
  weather_len ← attribute _weather_len;
  sequence ← call (reshape weather_feature
                           [VInt (-1); VInt weather_len; VInt weather_dim] None);
  outputs ← call (apply_layer layer sequence);
  weather_input ← call (reshape outputs [VInt (-1); VInt weather_lstm_hidden] None);
  others ← call (columns_from external_input weather_dim);
  external_dense ← call (concat [weather_input; others] (-1));
  rest ← call (np_sum (VList (VInt <$> drop 1 dims)));
  size ← call (np_add weather_lstm_hidden rest);
  spread external_dense size dense_inputs.

Definition build_external (inputs : Inputs) (dense_inputs : Tensor) : M Tensor :=
  method ← attribute external_method;
  if String.eqb method "not" then mret dense_inputs
  else
    external_dim ← attribute _external_dim;
    external_input ← call (placeholder [VNone; dim_value external_dim] None);
    _ ← set_input "external_feature" (tensor_name external_input);
    if String.eqb method "gating" then
      external_input ← spread external_input (dim_value external_dim) dense_inputs;
      gating_output ← call (dense (last_dimension dense_inputs) (Some sigmoid)
                                  external_input);
      call (multiply gating_output dense_inputs)
    else if String.eqb method "add" then
      external_input ← spread external_input (dim_value external_dim) dense_inputs;
      add_output ← call (dense (last_dimension dense_inputs) None external_input);
      call (add add_output dense_inputs)
    else
      external_dense ←
        (if String.eqb method "direct" then
           o ← spread external_input (dim_value external_dim) dense_inputs;
           mret (Some o)
         else if String.eqb method "embedding" then
           o ← embedding_dense external_input dense_inputs;
           mret (Some o)
         else if String.eqb method "classified" then
           o ← classified_dense external_input dense_inputs;
           mret (Some o)
         else if String.eqb method "lstm" then
           o ← lstm_dense (weather_feature inputs) external_input dense_inputs;
           mret (Some o)
         else mret None);
      external_dense ← local "external_dense" external_dense;
      call (concat [dense_inputs; external_dense] (-1)).

(** ** Lines 342-383: the output layers and the recorded names *)

Definition build_outputs (inputs : Inputs) (dense_inputs : Tensor) : M unit :=
  a ← attribute id;
  dense_output0 ← call (dense (VInt (_num_dense_units a)) (Some tanh) dense_inputs);
  dense_output1 ← call (dense (VInt (_num_dense_units a)) (Some tanh) dense_output0);
  pre_output ← call (dense (VInt 1) (Some tanh) dense_output1);
  prediction ← call (reshape pre_output [VInt (-1); VInt (_num_node a); VInt 1]
                             (Some "prediction"));
  loss_pre ← call (root_mean_square (target inputs) prediction "loss");
  '(train_op, global_step_name, learning_rate_name) ←
    call (optimizer_build (_optimizer a) loss_pre);
  _ ← set_input "global_step" global_step_name;
  _ ← set_output "prediction" (tensor_name prediction);
  _ ← set_output "loss" (tensor_name loss_pre);
  _ ← set_output "lr" learning_rate_name;
  set_op "train_op" (tensor_name train_op).

(** Lines 136-383: the graph. *)
Definition build_graph : M unit :=
  inputs ← build_inputs;
  dense_inputs ← build_network inputs;
  dense_inputs ← build_external inputs dense_inputs;
  build_outputs inputs dense_inputs.

(** Lines 135-385.  [base_build] stands for
    [BaseModel.build(init_vars, max_to_keep)], which is defined
    elsewhere. *)
Definition build (base_build : bool -> Z -> M unit)
                 (init_vars : bool) (max_to_keep : Z) : M unit :=
  _ ← build_graph;
  base_build init_vars max_to_keep.

(** ** Lines 388-411: [_get_feed_dict]

    The arguments are arrays or [None]. *)
Definition has_external (self : t) : bool :=
  negb (String.eqb (external_method (attributes self)) "not")
  && match _external_dim (attributes self) with
     | Some d => 0 <? d
     | None => false
     end.

Definition _get_feed_dict {A} (self : t) (laplace_matrix : option A)
    (closeness_feature period_feature trend_feature weather_feature
       target external_feature : option A)
  : gmap string (option A) :=
  let a := attributes self in
  let feed_dict : gmap string (option A) := {["laplace_matrix" := laplace_matrix]} in
  let feed_dict :=
    match target with
    | Some _ => <["target" := target]> feed_dict
    | None => feed_dict
    end in
  let feed_dict :=
    if has_external self
    then <["external_feature" := external_feature]> feed_dict else feed_dict in
  let feed_dict :=
    if 0 <? _closeness_len a
    then <["closeness_feature" := closeness_feature]> feed_dict else feed_dict in
  let feed_dict :=
    if 0 <? _period_len a
    then <["period_feature" := period_feature]> feed_dict else feed_dict in
  let feed_dict :=
    if 0 <? _trend_len a
    then <["trend_feature" := trend_feature]> feed_dict else feed_dict in
  let feed_dict :=
    if 0 <? _weather_len a
    then <["weather_feature" := weather_feature]> feed_dict else feed_dict in
  feed_dict.

(** The values of [external_method] that lines 264-329 tell apart. *)
Definition external_methods : list string :=
  ["not"; "gating"; "add"; "direct"; "embedding"; "classified"; "lstm"]%string.

(** ** Predicates on the runs of [build] *)

(** [fails m]: [m] never returns. *)
Definition fails {A} (m : M A) : Prop :=
  forall s, exists e s', m s = (Fail e, s').

(** [unchanged m]: [m] leaves the object as it is. *)
Definition unchanged {A} (m : M A) : Prop :=
  forall s, (m s).2 = s.

(** [extends s s']: the object [s'] has the attributes of [s] that
    [build] only reads, and every key of [_input] that [s] has. *)
Definition extends (s s' : t) : Prop :=
  attributes s' = attributes s /\
  forall k, is_Some (_input s !! k) -> is_Some (_input s' !! k).

(** [grows m]: [m] only adds to the object. *)
Definition grows {A} (m : M A) : Prop := forall s, extends s (m s).2.

End Model.

End STMeta.

(** ** A library that records names *)
Module STMetaSample.

Import STMeta.

(** The name of a tensor: the name it was asked by, or that of the
    operation, with the suffix of the first output. *)
Definition named (name : option string) (operation : string) : string :=
  (default operation name ++ ":0")%string.

(** Tensors are their names, and every call returns. *)
Definition library : Library := {|
  Tensor := string;
  Layer := unit;
  Optimizer := unit;
  Activation := unit;
  sigmoid := tt;
  tanh := tt;
  new_optimizer := fun _ _ => tt;
  base_dictionaries := fun _ _ _ => (∅, ∅, ∅);
  tensor_name := fun x => x;
  last_dimension := fun _ => VInt 64;
  placeholder := fun _ name => Done (named name "Placeholder");
  gclstm := fun _ _ _ _ _ _ _ _ _ => Done (named None "gclstm");
  dcgru := fun _ _ _ _ _ _ _ _ _ _ => Done (named None "dcgru");
  gru := fun _ _ _ _ => Done (named None "gru");
  lstm := fun _ _ _ _ => Done (named None "lstm");
  concat := fun _ _ => Done (named None "concat");
  add_ga_layer_matrix := fun _ _ _ => Done (named None "gal_weight", named None "gal");
  reduce_mean := fun _ _ => Done (named None "Mean");
  reshape := fun _ _ name => Done (named name "Reshape");
  batch_normalization := fun name _ => Done (named (Some name) "");
  tile_like := fun _ _ => Done (named None "Tile");
  dense := fun _ _ _ => Done (named None "dense");
  multiply := fun _ _ => Done (named None "Mul");
  add := fun _ _ => Done (named None "Add");
  strided_slice := fun _ _ _ => Done (named None "StridedSlice");
  np_sum := fun v => Done v;
  np_add := fun n _ => Done (VInt n);
  lstm_layer := fun _ => Done tt;
  apply_layer := fun _ _ => Done (named None "rnn");
  columns_from := fun _ _ => Done (named None "strided_slice");
  root_mean_square := fun _ _ name => Done (named (Some name) "");
  optimizer_build := fun _ _ =>
    Done (named None "train_op", named None "global_step", named None "learning_rate")
|}.

(** A model of three nodes with the default arguments of [__init__],
    apart from the history lengths, the external dimension and the
    external method. *)
Definition model (external_dim : option Z)
                 (closeness_len period_len trend_len weather_len : Z)
                 (external_method : string) : @t library :=
  @init library 3 external_dim closeness_len period_len trend_len weather_len
        1 1 1 1 64 32 32 2 64 2 "GCLSTM" "gal" "gal" tt (1 # 10000)%Q
        "STMeta-QuickStart" "model_dir" "0" external_method
        (VList [VInt 10; VInt 1; VInt 5]) [] None.

(** [BaseModel.build] as a step that does nothing. *)
Definition base_build (init_vars : bool) (max_to_keep : Z) : @M library unit :=
  mret tt.

End STMetaSample.


(** * Properties *)

(** ** The construction monad *)

Lemma bind_Ok_l {A B} (a : A) (f : A -> result B) : Ok a ≫= f = f a.
Proof. reflexivity. Qed.

Lemma bind_Raise_l {A B} (e : exn) (f : A -> result B) : Raise e ≫= f = Raise e.
Proof. reflexivity. Qed.

Lemma bind_Ok_inv {A B} (m : result A) (f : A -> result B) (b : B) :
  m ≫= f = Ok b -> exists a, m = Ok a /\ f a = Ok b.
Proof. destruct m as [a|e]; [eauto | discriminate]. Qed.

(** Splits a successful run of a monadic block into its steps. *)
Ltac inv_run H :=
  repeat first
    [ match type of H with
      | (?m ≫= ?f) = Ok _ =>
          let a := fresh "a" in
          let E := fresh "E" in
          destruct m as [a|?] eqn:E;
          [ rewrite bind_Ok_l in H; cbv beta in H
          | discriminate H ]
      end
    | match type of H with
      | (let '(_, _) := ?x in _) = Ok _ => destruct x
      end ].

(** ** Slices *)

Lemma py_slice_from_nonneg {A} (l : list A) (i : Z) :
  0 <= i <= Z.of_nat (length l) ->
  py_slice (Some i) None l = drop (Z.to_nat i) l.
Proof.
  intros Hi. unfold py_slice, slice_bound.
  destruct (Z.ltb_spec i 0); [lia|].
  rewrite Z.min_l by lia.
  apply take_ge. rewrite length_drop. lia.
Qed.

Lemma py_slice_from_zero {A} (l : list A) : py_slice (Some 0) None l = l.
Proof. rewrite py_slice_from_nonneg by lia. reflexivity. Qed.

Lemma py_slice_last {A} (l : list A) (k : Z) :
  0 < k -> py_slice (Some (- k)) None l = lastn (Z.to_nat k) l.
Proof.
  intros Hk. unfold py_slice, slice_bound, lastn.
  destruct (Z.ltb_spec (- k) 0); [|lia].
  replace (Z.to_nat (0 `max` (- k + Z.of_nat (length l))))
    with (length l - Z.to_nat k)%nat by lia.
  apply take_ge. rewrite length_drop. lia.
Qed.

Lemma length_lastn {A} (k : nat) (l : list A) :
  length (lastn k l) = (k `min` length l)%nat.
Proof. unfold lastn. rewrite length_drop. lia. Qed.

Lemma length_py_slice {A} (start stop : option Z) (l : list A) :
  length (py_slice start stop l) =
  (match stop with Some j => slice_bound (length l) j | None => length l end
   - match start with Some i => slice_bound (length l) i | None => 0 end)%nat.
Proof.
  unfold py_slice. rewrite length_take, length_drop.
  assert (Hb : forall j, (slice_bound (length l) j <= length l)%nat)
    by (intros j; unfold slice_bound; destruct (Z.ltb_spec j 0); lia).
  destruct stop as [j|], start as [i|];
    try pose proof (Hb j); try pose proof (Hb i); lia.
Qed.

(** ** Rounding *)

Lemma Qltb_lt (x y : Q) : Qltb x y = true <-> (x < y)%Q.
Proof.
  unfold Qltb. rewrite Qlt_alt.
  destruct (x ?= y)%Q; split; congruence.
Qed.

Lemma Qltb_ge (x y : Q) : Qltb x y = false <-> (y <= x)%Q.
Proof.
  rewrite <- not_true_iff_false, Qltb_lt. split.
  - apply Qnot_lt_le.
  - intros H1 H2. exact (Qlt_not_le _ _ H2 H1).
Qed.

Lemma Qred_inject_Z (z : Z) : Qred (inject_Z z) = inject_Z z.
Proof.
  unfold Qred, inject_Z.
  pose proof (Z.ggcd_gcd z 1) as Hg.
  pose proof (Z.ggcd_correct_divisors z 1) as Hd.
  destruct (Z.ggcd z 1) as [g [a b]]. simpl in *.
  rewrite Z.gcd_1_r in Hg. subst g. destruct Hd as [Ha Hb].
  replace a with z by lia. replace b with 1 by lia. reflexivity.
Qed.

Lemma Qred_whole (x : Q) (z : Z) : (x == inject_Z z)%Q -> Qred x = inject_Z z.
Proof. intros H. rewrite <- (Qred_inject_Z z). apply Qred_complete, H. Qed.

Lemma py_round_whole (x : Q) (z : Z) : (x == inject_Z z)%Q -> py_round x = z.
Proof.
  intros H. unfold py_round.
  assert (Hf : Qfloor x = z) by (rewrite H; apply Qfloor_Z).
  rewrite Hf.
  assert (Hlt : (x - inject_Z z < 1 # 2)%Q).
  { assert (H0 : (x - inject_Z z == 0)%Q) by (rewrite H; ring).
    rewrite H0. reflexivity. }
  destruct (Qcompare_spec (x - inject_Z z) (1 # 2)) as [He|_|Hg];
    [|reflexivity|].
  - rewrite He in Hlt. discriminate Hlt.
  - exfalso. exact (Qlt_irrefl _ (Qlt_trans _ _ _ Hlt Hg)).
Qed.

Lemma pow2_pos (e : Z) : (0 < Float.pow2 e)%Q.
Proof.
  unfold Float.pow2. destruct (Z.leb_spec 0 e).
  - unfold Qlt. simpl. pose proof (Z.pow_pos_nonneg 2 e). lia.
  - reflexivity.
Qed.

(** A whole number of fewer than 54 bits is a float. *)
Lemma double_whole (x : Q) (z : Z) :
  Z.abs z < 2 ^ 53 -> (x == inject_Z z)%Q -> Float.double x = inject_Z z.
Proof.
  intros Hz Hx. unfold Float.double, Float.round. cbv zeta.
  rewrite (Qred_whole x z Hx).
  destruct (Z.eq_dec z 0) as [->|Hne]; [reflexivity|].
  destruct (Qeq_bool (inject_Z z) (0 # 1)) eqn:Hq.
  { apply Qeq_bool_iff in Hq. unfold Qeq in Hq. simpl in Hq. lia. }
  set (b := Z.log2 (Z.abs z)).
  assert (Hb : 0 <= b < 53).
  { split; [apply Z.log2_nonneg|]. apply Z.log2_lt_pow2; lia. }
  assert (Hspec : 2 ^ b <= Z.abs z) by (apply Z.log2_spec; lia).
  assert (Hbin : Float.binade (inject_Z z) = b).
  { unfold Float.binade. simpl Qnum. simpl Qden.
    change (Z.log2 1) with 0. rewrite Z.sub_0_r. fold b.
    destruct (Qltb _ _) eqn:Hlt; [|reflexivity].
    apply Qltb_lt in Hlt. unfold Float.pow2 in Hlt.
    destruct (Z.leb_spec 0 b); [|lia].
    unfold Qlt in Hlt. simpl in Hlt. lia. }
  rewrite Hbin. rewrite Z.max_l by lia.
  apply Qred_whole.
  set (ulp := Float.pow2 (b - (53 - 1))).
  assert (Hulp : (ulp * inject_Z (2 ^ (52 - b)) == 1)%Q).
  { unfold ulp, Float.pow2. destruct (Z.leb_spec 0 (b - (53 - 1))).
    - replace (b - (53 - 1)) with 0 by lia. replace (52 - b) with 0 by lia.
      reflexivity.
    - replace (- (b - (53 - 1))) with (52 - b) by lia.
      assert (0 < 2 ^ (52 - b)) by (apply Z.pow_pos_nonneg; lia).
      unfold Qeq, Qmult. simpl. rewrite Pos.mul_1_r, Z2Pos.id by lia. lia. }
  assert (Hpos : (0 < ulp)%Q) by apply pow2_pos.
  assert (Hdiv : (inject_Z z / ulp == inject_Z (z * 2 ^ (52 - b)))%Q).
  { assert (Hnz : ~ (ulp == 0)%Q).
    { intros H0. rewrite H0 in Hpos. discriminate Hpos. }
    rewrite inject_Z_mult. unfold Qdiv. apply Qmult_comp; [reflexivity|].
    apply (Qmult_inj_l _ _ ulp Hnz). rewrite Qmult_inv_r by exact Hnz.
    symmetry. exact Hulp. }
  rewrite (py_round_whole _ _ Hdiv).
  rewrite inject_Z_mult. rewrite <- Qmult_assoc, (Qmult_comm _ ulp), Hulp.
  apply Qmult_1_r.
Qed.

Lemma double_zero (x : Q) : (x == 0)%Q -> Float.double x = (0 # 1)%Q.
Proof. intros H. apply (double_whole x 0); [reflexivity | exact H]. Qed.

Lemma py_round_nonneg (x : Q) : (0 <= x)%Q -> 0 <= py_round x.
Proof.
  intros H. unfold py_round.
  assert (Hf : 0 <= Qfloor x).
  { change 0 with (Qfloor 0). apply Qfloor_resp_le, H. }
  destruct (_ ?= _)%Q; [destruct (Z.even _)| |]; lia.
Qed.

(** Rounding keeps the sign. *)
Lemma double_nonneg (x : Q) : (0 <= x)%Q -> (0 <= Float.double x)%Q.
Proof.
  intros H. unfold Float.double, Float.round. cbv zeta.
  destruct (Qeq_bool _ _); [apply Qle_refl|].
  rewrite Qred_correct.
  set (ulp := Float.pow2 _).
  assert (Hpos : (0 < ulp)%Q) by apply pow2_pos.
  apply Qmult_le_0_compat; [|apply Qlt_le_weak, Hpos].
  change (0 # 1)%Q with (inject_Z 0). rewrite <- Zle_Qle.
  apply py_round_nonneg. rewrite Qred_correct.
  apply Qle_shift_div_l; [exact Hpos|]. rewrite Qmult_0_l. exact H.
Qed.

Lemma is_finite_whole (z : Z) :
  Z.abs z < 2 ^ 53 -> Float.is_finite (inject_Z z) = true.
Proof.
  intros H. unfold Float.is_finite. apply Qltb_lt.
  unfold Float.pow2. simpl. unfold Qlt. simpl.
  assert (2 ^ 53 < 2 ^ 1024) by (apply Z.pow_lt_mono_r; lia). lia.
Qed.

Lemma of_int_whole (z : Z) : Z.abs z < 2 ^ 53 -> Float.of_int z = Ok (inject_Z z).
Proof.
  intros H. unfold Float.of_int, Float.checked.
  rewrite (double_whole _ z H) by reflexivity.
  rewrite (is_finite_whole z H). reflexivity.
Qed.

(** The product of a whole float and an [int] is exact while it has fewer
    than 54 bits. *)
Lemma mul_int_whole (x : Q) (k z : Z) :
  (x == inject_Z k)%Q -> Z.abs z < 2 ^ 53 -> Z.abs (k * z) < 2 ^ 53 ->
  Float.mul_int x z = Ok (inject_Z (k * z)).
Proof.
  intros Hx Hz Hkz. unfold Float.mul_int. rewrite (of_int_whole z Hz).
  simpl. unfold Float.mul. f_equal.
  apply double_whole; [exact Hkz|]. rewrite Hx, inject_Z_mult. reflexivity.
Qed.

Lemma to_int_whole (z : Z) : Z.abs z < 2 ^ 53 -> Float.to_int (inject_Z z) = Ok z.
Proof.
  intros H. unfold Float.to_int, Float.checked. rewrite (is_finite_whole z H).
  simpl. f_equal. unfold py_int. simpl. apply Z.quot_1_r.
Qed.

Lemma int_of_product_whole (x : Q) (k z : Z) :
  (x == inject_Z k)%Q -> Z.abs z < 2 ^ 53 -> Z.abs (k * z) < 2 ^ 53 ->
  Float.int_of_product x z = Ok (k * z).
Proof.
  intros Hx Hz Hkz. unfold Float.int_of_product.
  rewrite (mul_int_whole x k z Hx Hz Hkz). simpl. apply to_int_whole, Hkz.
Qed.

(** [int(x * 0)] is zero. *)
Lemma int_of_product_zero (x : Q) : Float.int_of_product x 0 = Ok 0.
Proof.
  unfold Float.int_of_product, Float.mul_int.
  rewrite (of_int_whole 0) by reflexivity. simpl. unfold Float.mul.
  rewrite double_zero by (rewrite Qmult_0_r; reflexivity).
  reflexivity.
Qed.

(** ** Inversion of a completed construction *)

Section Properties.

Context {C : Collaborators}.

Lemma set_graphs_same (l : Loader) : set_graphs l (AM l) (LM l) = l.
Proof. destruct l; reflexivity. Qed.

(** The array of the Laplacians is the list of them, all of one shape. *)
Lemma np_array_inv (ms ms' : list ndarray) :
  np_array ms = Ok ms' ->
  ms' = ms /\
  forall m m', m ∈ ms -> m' ∈ ms -> len m = len m' /\ shape1 m = shape1 m'.
Proof.
  unfold np_array. destruct ms as [|m0 ms].
  - intros [= <-]. split; [reflexivity|]. intros m m' H. inversion H.
  - destruct (forallb _ ms) eqn:Hall; [|discriminate].
    intros [= <-]. split; [reflexivity|].
    assert (Hsame : forall m, m ∈ m0 :: ms -> len m = len m0 /\ shape1 m = shape1 m0).
    { intros m [->|Hin]%elem_of_cons; [auto|].
      apply Is_true_true, forallb_True in Hall.
      rewrite Forall_forall in Hall. specialize (Hall m Hin).
      apply Is_true_true, andb_prop in Hall as [H1 H2].
      apply Nat.eqb_eq in H1, H2. auto. }
    intros m m' Hm Hm'. destruct (Hsame m Hm), (Hsame m' Hm'). split; congruence.
Qed.

Lemma attach_graphs_inv (cfg : Config C) (l0 l : Loader) :
  attach_graphs cfg l0 = Ok l -> exists am lm, l = set_graphs l0 am lm.
Proof.
  unfold attach_graphs. intros H.
  destruct (with_lm cfg).
  - inv_run H. injection H as <-. eauto.
  - injection H as <-. exists (AM l0), (LM l0). symmetry. apply set_graphs_same.
Qed.

Lemma resolve_inv (cfg : Config C) (ds : DataSet) (r : Resolved) :
  resolve cfg ds = Ok r ->
  compute_daily_slots ds = Ok (r_daily_slots r) /\
  external_lstm_len cfg = Some (r_external_lstm_len r) /\
  0 <= closeness_len cfg /\ 0 <= period_len cfg /\ 0 <= trend_len cfg /\
  resolve_data_range (data_range cfg) (r_daily_slots r) ds = Ok (r_range r) /\
  r_index r = compute_traffic_data_index ds (r_daily_slots r) /\
  r_traffic_data r = compute_traffic_data ds (r_range r) (r_index r).
Proof.
  unfold resolve. intros H. inv_run H.
  destruct (external_lstm_len cfg) as [n|]; [|discriminate].
  injection E0 as ->.
  unfold py_assert in *.
  destruct (Z.leb_spec 0 (closeness_len cfg)); [|discriminate].
  destruct (Z.leb_spec 0 (period_len cfg)); [|discriminate].
  destruct (Z.leb_spec 0 (trend_len cfg)); [|discriminate].
  injection H as <-. simpl. auto 10.
Qed.

(** What a completed construction says about the first phase. *)
Lemma init_resolved (cfg : Config C) (ds : DataSet) (l : Loader) :
  init cfg ds = Ok l ->
  exists r, resolve cfg ds = Ok r /\
            daily_slots l = r_daily_slots r /\
            traffic_data_index l = r_index r /\
            traffic_data l = r_traffic_data r /\
            station_number l = shape1 (r_traffic_data r).
Proof.
  unfold init. intros H. inv_run H.
  apply attach_graphs_inv in H as (am & lm & ->). simpl.
  eexists. split; [reflexivity|]. repeat split.
  unfold split_partitions in E1. inv_run E1. injection E1 as <-. reflexivity.
Qed.

Lemma init_phases (cfg : Config C) (ds : DataSet) (l : Loader) :
  init cfg ds = Ok l -> Phases cfg ds l.
Proof.
  unfold init. intros H. inv_run H.
  destruct (attach_graphs_inv _ _ _ H) as (am & lm & Hl).
  destruct (with_tpe cfg) eqn:Htpe.
  - inv_run E7. inversion E7; subst; clear E7.
    eapply Build_Phases with (ph_train_windows := (_, _, _))
                             (ph_test_windows := (_, _, _));
      try eassumption; simpl; rewrite ?Htpe; eauto.
  - inversion E7; subst; clear E7.
    eapply Build_Phases with (ph_train_windows := (_, _, _))
                             (ph_test_windows := (_, _, _));
      try eassumption; simpl; rewrite ?Htpe; eauto.
Qed.

(** ** The node filter *)

Lemma compute_daily_slots_inv (ds : DataSet) (slots : Q) :
  compute_daily_slots ds = Ok slots ->
  time_fitness ds <> 0 /\
  slots = Float.double ((1440 # 1) / inject_Z (time_fitness ds))%Q.
Proof.
  unfold compute_daily_slots.
  destruct (Z.eqb_spec (time_fitness ds) 0); [discriminate|].
  intros [= <-]. auto.
Qed.







(** ** The expansion of the test partition *)

Lemma py_int_whole (x : Q) (n : Z) : (x == inject_Z n)%Q -> py_int x = n.
Proof.
  unfold Qeq, py_int. simpl. intros H.
  rewrite Z.mul_1_r in H. rewrite H. apply Z.quot_mul. discriminate.
Qed.

(** When [time_fitness] divides the minutes of a day, [daily_slots] is a
    whole number, which the quotient of line 104 yields exactly. *)
Lemma whole_daily_slots (ds : DataSet) (slots : Q) :
  compute_daily_slots ds = Ok slots ->
  (time_fitness ds | 1440) ->
  exists k, k * time_fitness ds = 1440 /\ Z.abs k <= 1440 /\ slots = inject_Z k.
Proof.
  intros Hs [k Hk]. apply compute_daily_slots_inv in Hs as [Hne ->].
  assert (Habs : Z.abs k <= 1440) by nia.
  exists k. split; [lia|]. split; [exact Habs|].
  apply double_whole; [lia|].
  change (1440 # 1)%Q with (inject_Z 1440). rewrite Hk, inject_Z_mult.
  field. intros H0. apply Hne.
  unfold Qeq in H0. simpl in H0. lia.
Qed.

(** With a whole number of slots a day and history lengths below
    [2 ** 39], the products the loader truncates are exact and their
    largest is the [max_lookback] of the sampler. *)
Lemma expansion_is_max_lookback (cfg : Config C) (ds : DataSet) (slots : Q) :
  compute_daily_slots ds = Ok slots ->
  (time_fitness ds | 1440) ->
  0 <= period_len cfg < 2 ^ 39 ->
  0 <= trend_len cfg < 2 ^ 39 ->
  expansion cfg slots
  = Ok (ST_MoveSample.max_lookback (st_move_sample cfg slots)).
Proof.
  intros Hs Hd Hp Ht. destruct (whole_daily_slots _ _ Hs Hd) as (k & _ & Hk & ->).
  assert (H39 : 2 ^ 39 * 10080 < 2 ^ 53) by reflexivity.
  assert (H53 : 0 < 2 ^ 53) by reflexivity.
  unfold expansion.
  rewrite (int_of_product_whole (inject_Z k) k (period_len cfg))
    by (reflexivity || nia).
  rewrite bind_Ok_l.
  rewrite (mul_int_whole (inject_Z k) k 7) by (reflexivity || lia).
  rewrite bind_Ok_l.
  rewrite (int_of_product_whole (inject_Z (k * 7)) (k * 7) (trend_len cfg))
    by (reflexivity || nia).
  rewrite bind_Ok_l. f_equal.
  unfold ST_MoveSample.max_lookback, st_move_sample, whole_slots. simpl.
  replace (py_int (inject_Z k)) with k
    by (symmetry; apply py_int_whole; reflexivity).
  replace (period_len cfg * k) with (k * period_len cfg) by ring.
  replace (trend_len cfg * 7 * k) with (k * 7 * trend_len cfg) by ring.
  lia.
Qed.

Lemma vstack_Ok (a b c : ndarray) :
  vstack a b = Ok c -> shape1 c = shape1 a /\ rows c = rows a ++ rows b.
Proof.
  unfold vstack. destruct (shape1 a =? shape1 b)%nat; [|discriminate].
  intros [= <-]. auto.
Qed.

Lemma expansion_nonneg (cfg : Config C) (slots : Q) (lookback : Z) :
  expansion cfg slots = Ok lookback -> 0 <= closeness_len cfg -> 0 <= lookback.
Proof. unfold expansion. intros H. inv_run H. injection H as <-. lia. Qed.

(** C1, as the code has it.  In a completed construction the test
    partition is extended by [lookback =
    max(int(daily_slots * period_len), int(daily_slots * 7 * trend_len),
    closeness_len)], the products being those of binary64, truncated.
    When the train partition (after the optional truncation) has at
    least [lookback] rows, the expanded test partition is its last
    [lookback] rows followed by the original test partition, and its
    length is the original length plus [lookback]; the same holds of the
    external features when they have a row for every train slot.
    When [time_fitness] divides the minutes of a day and the period and
    trend lengths are below [2 ** 39], [lookback] is the [max_lookback]
    of the sampler. *)
Theorem expand_test_borrows_lookback
    (cfg : Config C) (ds : DataSet) (l : Loader)
    (r : Resolved) (x : External) (p : Parts) :
  init cfg ds = Ok l ->
  resolve cfg ds = Ok r ->
  external_features cfg ds r = Ok x ->
  split_partitions cfg r x = Ok p ->
  exists lookback test_ef,
    expansion cfg (r_daily_slots r) = Ok lookback /\
    expand_test cfg (r_daily_slots r) p = Ok (test_data l, test_ef) /\
    (lookback <= Z.of_nat (len (p_train_data p)) ->
     rows (test_data l)
     = lastn (Z.to_nat lookback) (rows (p_train_data p)) ++ rows (p_test_data p) /\
     Z.of_nat (len (test_data l)) = Z.of_nat (len (p_test_data p)) + lookback /\
     (len (p_train_ef p) = len (p_train_data p) ->
      rows test_ef
      = lastn (Z.to_nat lookback) (rows (p_train_ef p)) ++ rows (p_test_ef p))) /\
    ((time_fitness ds | 1440) ->
     period_len cfg < 2 ^ 39 -> trend_len cfg < 2 ^ 39 ->
     lookback = ST_MoveSample.max_lookback (st_move_sample cfg (r_daily_slots r))).
Proof.
  intros Hinit Hr Hx Hp.
  destruct (init_phases _ _ _ Hinit).
  rewrite Hr in ph_resolve. injection ph_resolve as <-.
  rewrite Hx in ph_external_features. injection ph_external_features as <-.
  rewrite Hp in ph_split. injection ph_split as <-.
  apply resolve_inv in Hr as (Hs & _ & Hc & Hpl & Htl & _).
  pose proof ph_expand as Hexp.
  unfold expand_test in ph_expand. inv_run ph_expand.
  injection ph_expand as -> ->.
  unfold expand_start_index in E. inv_run E. injection E as <-.
  match goal with
  | H : expansion _ _ = Ok ?v |- _ => rename H into HL; rename v into L
  end.
  match goal with
  | H : vstack (slice_rows _ _ (p_train_data p)) _ = _ |- _ => rename H into Htd
  end.
  match goal with
  | H : vstack (slice_rows _ _ (p_train_ef p)) _ = _ |- _ => rename H into Hte
  end.
  pose proof (expansion_nonneg _ _ _ HL Hc) as Hnn.
  exists L, ph_test_ef. rewrite ph_test_data_eq.
  split; [reflexivity|]. split; [exact Hexp|].
  apply vstack_Ok in Htd as [_ Htd]. apply vstack_Ok in Hte as [_ Hte].
  simpl in Htd, Hte.
  split.
  - intros Hlen.
    rewrite py_slice_from_nonneg in Htd by (unfold len in *; lia).
    assert (Hn : Z.to_nat (Z.of_nat (len (p_train_data p)) - L)
                 = (length (rows (p_train_data p)) - Z.to_nat L)%nat)
      by (unfold len; lia).
    split; [|split].
    + rewrite Htd. unfold lastn. rewrite Hn. reflexivity.
    + unfold len at 1. rewrite Htd, length_app, length_drop.
      unfold len in *. lia.
    + intros Hef.
      rewrite py_slice_from_nonneg in Hte by (unfold len in *; lia).
      rewrite Hte. unfold lastn. rewrite Hn.
      unfold len in Hef. rewrite Hef. reflexivity.
  - intros Hd Hp39 Ht39.
    pose proof (expansion_is_max_lookback cfg ds _ Hs Hd
                  (conj Hpl Hp39) (conj Htl Ht39)) as Hmax.
    rewrite HL in Hmax. injection Hmax as ->. reflexivity.
Qed.

(** ** The truncation of the train set *)

Lemma slice_rows_from_zero (a : ndarray) : slice_rows (Some 0) None a = a.
Proof.
  destruct a as [m rs]. unfold slice_rows. simpl.
  rewrite py_slice_from_zero. reflexivity.
Qed.

Lemma truncate_train_zero_days (slots : Q) (a : ndarray) :
  truncate_train (LengthDays 0) slots a = Ok a.
Proof.
  unfold truncate_train. rewrite int_of_product_zero, bind_Ok_l.
  change (- 0) with 0. rewrite slice_rows_from_zero. reflexivity.
Qed.

(** For a positive number of slots the truncation keeps the most recent
    ones (all of them when the partition is shorter). *)
Lemma truncate_train_days (d : Z) (slots : Q) (a : ndarray) (n : Z) :
  Float.int_of_product slots d = Ok n -> 0 < n ->
  exists a', truncate_train (LengthDays d) slots a = Ok a' /\
             shape1 a' = shape1 a /\
             rows a' = lastn (Z.to_nat n) (rows a).
Proof.
  intros Hn Hk. unfold truncate_train. rewrite Hn, bind_Ok_l.
  eexists. split; [reflexivity|]. simpl.
  split; [reflexivity|]. apply py_slice_last, Hk.
Qed.

(** C7, on the code.  With [train_data_length = '0'] the slice
    [train_data[-0:]] is the whole array: the construction is the one of
    [train_data_length = 'all'], and no row of the train partition is
    dropped. *)
Theorem zero_days_keeps_whole_train_set (cfg : Config C) (ds : DataSet) :
  init (with_train_data_length cfg (LengthDays 0)) ds
  = init (with_train_data_length cfg LengthAll) ds.
Proof.
  destruct cfg. unfold init, with_train_data_length. simpl.
  destruct (resolve _ ds) as [r|]; [|reflexivity].
  rewrite !bind_Ok_l.
  destruct (external_features _ ds r) as [x|]; [|reflexivity].
  rewrite !bind_Ok_l.
  replace (split_partitions _ r x) with
    (split_partitions
       {| dataset := dataset0; data_range := data_range0;
          train_data_length := LengthAll; test_ratio := test_ratio0;
          closeness_len := closeness_len0; period_len := period_len0;
          trend_len := trend_len0; external_lstm_len := external_lstm_len0;
          target_length := target_length0; graph := graph0;
          threshold_distance := threshold_distance0;
          threshold_correlation := threshold_correlation0;
          threshold_interaction := threshold_interaction0;
          normalize := normalize0; workday_parser := workday_parser0;
          with_lm := with_lm0; with_tpe := with_tpe0;
          external_use := external_use0 |} r x).
  2:{ unfold split_partitions. cbn -[truncate_train].
      destruct (check_test_ratio _); [|reflexivity]. rewrite !bind_Ok_l.
      destruct (SplitData.split_array (r_traffic_data r) _) as [[tr te]|];
        [|reflexivity].
      rewrite !bind_Ok_l.
      destruct (SplitData.split_array (x_feature x) _) as [[etr ete]|];
        [|reflexivity].
      rewrite !bind_Ok_l, !truncate_train_zero_days. reflexivity. }
  reflexivity.
Qed.

(** ** External features without a recent-history window *)

Lemma reslice_opt_None (s : nat) (t : Z) : reslice_opt s t None = Raise TypeError.
Proof. reflexivity. Qed.

(** With external features present and [external_lstm_len <= 0], the
    re-slicing of [train_lstm_ef] is the first step that can raise
    [TypeError], and nothing lets the windows of the external features
    complete. *)
Lemma external_windows_without_lstm
    (cfg : Config C) (slots : Q) (n : Z) (x : External)
    (train_ef test_ef : ndarray) (s s' : nat) :
  (0 < len (x_feature x))%nat -> n <= 0 ->
  completes (external_windows cfg slots n x train_ef test_ef s s') = false /\
  (forall w, external_windows cfg slots 1 x train_ef test_ef s s' = Ok w ->
             external_windows cfg slots n x train_ef test_ef s s' = Raise TypeError).
Proof.
  intros Hx Hn. unfold external_windows.
  destruct (Nat.ltb_spec 0 (len (x_feature x))); [|lia].
  destruct (Z.ltb_spec 0 n); [lia|].
  destruct (ST_MoveSample.move_sample _ train_ef) as [[[[? ?] ?] ?]|];
    [|split; [reflexivity | discriminate]].
  rewrite !bind_Ok_l.
  destruct (ST_MoveSample.move_sample _ test_ef) as [[[[? ?] ?] ?]|];
    [|split; [reflexivity | discriminate]].
  rewrite !bind_Ok_l. cbv beta iota. rewrite reslice_opt_None.
  split; reflexivity.
Qed.

Lemma resolve_lstm (cfg : Config C) (ds : DataSet) (n m : Z) (r : Resolved) :
  resolve (with_external_lstm_len cfg (Some m)) ds = Ok r ->
  resolve (with_external_lstm_len cfg (Some n)) ds
  = Ok {| r_daily_slots := r_daily_slots r;
          r_external_lstm_len := n;
          r_range := r_range r;
          r_index := r_index r;
          r_traffic_data := r_traffic_data r |}.
Proof.
  destruct cfg. unfold resolve, with_external_lstm_len. simpl.
  destruct (compute_daily_slots ds); [|discriminate]. rewrite !bind_Ok_l.
  destruct (py_assert (0 <=? closeness_len0)); [|discriminate].
  destruct (py_assert (0 <=? period_len0)); [|discriminate].
  destruct (py_assert (0 <=? trend_len0)); [|discriminate].
  rewrite !bind_Ok_l.
  destruct (resolve_data_range _ _ _); [|discriminate].
  rewrite !bind_Ok_l. intros [= <-]. reflexivity.
Qed.

Lemma resolve_lstm_none (cfg : Config C) (ds : DataSet) (m : Z) (r : Resolved) :
  resolve (with_external_lstm_len cfg (Some m)) ds = Ok r ->
  resolve (with_external_lstm_len cfg None) ds = Raise TypeError.
Proof.
  destruct cfg. unfold resolve, with_external_lstm_len. simpl.
  destruct (compute_daily_slots ds); [|discriminate]. reflexivity.
Qed.

Lemma with_external_lstm_len_same (cfg : Config C) :
  with_external_lstm_len cfg (external_lstm_len cfg) = cfg.
Proof. destruct cfg; reflexivity. Qed.

(** Steps two runs of the constructor that agree on their next action. *)
Ltac step_both :=
  match goal with
  | |- completes (?A ≫= _) = false /\ (completes (?B ≫= _) = true -> _) =>
      change B with A;
      destruct A;
      [ rewrite !bind_Ok_l;
        repeat match goal with y : (_ * _)%type |- _ => destruct y end;
        cbv beta iota zeta
      | split; [reflexivity | discriminate] ]
  end.

Lemma init_without_lstm (cfg : Config C) (ds : DataSet) (n : Z)
                        (r : Resolved) (x : External) :
  resolve (with_external_lstm_len cfg (Some 1)) ds = Ok r ->
  external_features (with_external_lstm_len cfg (Some 1)) ds r = Ok x ->
  (0 < len (x_feature x))%nat ->
  n <= 0 ->
  completes (init (with_external_lstm_len cfg (Some n)) ds) = false /\
  (completes (init (with_external_lstm_len cfg (Some 1)) ds) = true ->
   init (with_external_lstm_len cfg (Some n)) ds = Raise TypeError).
Proof.
  intros Hr Hx Hlen Hn.
  pose proof (resolve_lstm cfg ds n 1 r Hr) as Hr'.
  assert (H1 : r_external_lstm_len r = 1).
  { apply resolve_inv in Hr as (_ & Hl & _).
    destruct cfg; simpl in Hl. congruence. }
  unfold init. rewrite Hr, Hr', !bind_Ok_l. cbv beta zeta. rewrite H1.
  match goal with
  | |- context [external_features ?c ds ?q] =>
      change (external_features c ds q)
        with (external_features (with_external_lstm_len cfg (Some 1)) ds r)
  end.
  rewrite Hx, !bind_Ok_l.
  do 5 step_both.
  match goal with
  | |- completes (external_windows ?c ?s _ _ ?a ?b ?k ?k' ≫= _) = false /\ _ =>
      destruct (external_windows_without_lstm c s n x a b k k' Hlen Hn)
        as [Hw Hw'];
      cbn [r_external_lstm_len];
      destruct (external_windows c s n x a b k k') eqn:Ew; [discriminate Hw|];
      split; [reflexivity|];
      change (external_windows _ _ _ x a b k k')
        with (external_windows c s 1 x a b k k');
      destruct (external_windows c s 1 x a b k k') eqn:Ew1; [|discriminate];
      intros _; rewrite bind_Raise_l; f_equal;
      specialize (Hw' _ eq_refl); congruence
  end.
Qed.

(** C9.  With external features present, a construction whose
    [external_lstm_len] is [None], zero or negative never completes; and
    whenever the same construction with [external_lstm_len = 1] completes,
    the failure is a [TypeError]. *)
Theorem external_features_need_lstm_len
    (cfg : Config C) (ds : DataSet) (r : Resolved) (x : External) :
  resolve (with_external_lstm_len cfg (Some 1)) ds = Ok r ->
  external_features (with_external_lstm_len cfg (Some 1)) ds r = Ok x ->
  (0 < len (x_feature x))%nat ->
  match external_lstm_len cfg with Some n => n <= 0 | None => True end ->
  completes (init cfg ds) = false /\
  (completes (init (with_external_lstm_len cfg (Some 1)) ds) = true ->
   init cfg ds = Raise TypeError).
Proof.
  intros Hr Hx Hlen Hn.
  rewrite <- (with_external_lstm_len_same cfg).
  destruct (external_lstm_len cfg) as [n|].
  - destruct (init_without_lstm cfg ds n r x Hr Hx Hlen Hn) as [H1 H2].
    split; [exact H1 | exact H2].
  - assert (Hi : init (with_external_lstm_len cfg None) ds = Raise TypeError).
    { unfold init. rewrite (resolve_lstm_none cfg ds 1 r Hr). reflexivity. }
    rewrite Hi. split; reflexivity.
Qed.

(** ** The guard on [test_ratio] *)

Lemma clean_Ok {A} (a : A) : clean (Ok a).
Proof. intros e. discriminate. Qed.

Lemma clean_Raise {A} (e : exn) : e <> ValueError "test_ratio " -> clean (@Raise A e).
Proof. intros He e' [= <-]. exact He. Qed.

Lemma clean_bind {A B} (m : result A) (f : A -> result B) :
  clean m -> (forall a, clean (f a)) -> clean (m ≫= f).
Proof.
  intros Hm Hf e. destruct m as [a|e']; simpl.
  - apply Hf.
  - intros [= <-]. apply Hm. reflexivity.
Qed.

Lemma clean_mapM {A B} (f : A -> result B) (l : list A) :
  (forall a, clean (f a)) -> clean (mapM f l).
Proof.
  intros Hf. induction l as [|a l IH]; simpl.
  - apply clean_Ok.
  - apply clean_bind; [apply Hf|]. intros b.
    apply clean_bind; [apply IH|]. intros k. apply clean_Ok.
Qed.

Lemma clean_for_each {S A} (xs : list A) (body : A -> S -> result S) (s : S) :
  (forall a s', clean (body a s')) -> clean (for_each xs body s).
Proof.
  intros Hb. revert s. induction xs as [|a xs IH]; intros s; simpl.
  - apply clean_Ok.
  - apply clean_bind; [apply Hb|]. intros s'. apply IH.
Qed.

Create HintDb clean.

(** Decomposes a block into its steps, down to the primitives. *)
Ltac clean_steps :=
  repeat first
    [ solve [auto with clean nocore]
    | apply clean_Ok
    | apply clean_Raise; discriminate
    | apply clean_bind; [|intros]
    | apply clean_mapM; intros
    | match goal with
      | |- clean (match ?x with _ => _ end) => destruct x
      end ].

Lemma clean_py_index {A} (l : list A) (i : Z) : clean (py_index l i).
Proof. unfold py_index. clean_steps. Qed.
#[local] Hint Resolve clean_py_index : clean.

Lemma clean_take_rows (idx : list Z) (a : ndarray) : clean (take_rows idx a).
Proof. unfold take_rows. clean_steps. Qed.
#[local] Hint Resolve clean_take_rows : clean.

Lemma clean_select_columns (idx : list Z) (a : ndarray) :
  clean (select_columns idx a).
Proof. unfold select_columns. clean_steps. Qed.
#[local] Hint Resolve clean_select_columns : clean.

Lemma clean_vstack (a b : ndarray) : clean (vstack a b).
Proof. unfold vstack. clean_steps. Qed.
#[local] Hint Resolve clean_vstack : clean.

Lemma clean_split_data {A} (data : list A) (ratios : list Q) :
  clean (SplitData.split_data data ratios).
Proof. unfold SplitData.split_data. clean_steps. Qed.
#[local] Hint Resolve clean_split_data : clean.

Lemma clean_split_array (a : ndarray) (ratios : list Q) :
  clean (SplitData.split_array a ratios).
Proof. unfold SplitData.split_array. clean_steps. Qed.
#[local] Hint Resolve clean_split_array : clean.

Lemma clean_checked (x : Q) : clean (Float.checked x).
Proof. unfold Float.checked. clean_steps. Qed.
#[local] Hint Resolve clean_checked : clean.

Lemma clean_mul_int (x : Q) (z : Z) : clean (Float.mul_int x z).
Proof. unfold Float.mul_int, Float.of_int. clean_steps. Qed.
#[local] Hint Resolve clean_mul_int : clean.

Lemma clean_int_of_product (x : Q) (z : Z) : clean (Float.int_of_product x z).
Proof. unfold Float.int_of_product, Float.to_int. clean_steps. Qed.
#[local] Hint Resolve clean_int_of_product : clean.

Lemma clean_truncate_train (tdl : train_data_length_t) (slots : Q) (a : ndarray) :
  clean (truncate_train tdl slots a).
Proof. unfold truncate_train. clean_steps. Qed.
#[local] Hint Resolve clean_truncate_train : clean.

Lemma clean_move_sample (s : ST_MoveSample.t) (a : ndarray) :
  clean (ST_MoveSample.move_sample s a).
Proof. unfold ST_MoveSample.move_sample. clean_steps. Qed.
#[local] Hint Resolve clean_move_sample : clean.

Lemma clean_expand_test (cfg : Config C) (slots : Q) (p : Parts) :
  clean (expand_test cfg slots p).
Proof. unfold expand_test, expand_start_index, expansion. clean_steps. Qed.
#[local] Hint Resolve clean_expand_test : clean.

Lemma clean_load_poi (cfg : Config C) (ds : DataSet) (idx : list nat) (s s' : nat) :
  clean (load_poi cfg ds idx s s').
Proof. unfold load_poi. clean_steps. Qed.
#[local] Hint Resolve clean_load_poi : clean.

Lemma clean_external_windows (cfg : Config C) (slots : Q) (n : Z) (x : External)
                             (a b : ndarray) (s s' : nat) :
  clean (external_windows cfg slots n x a b s s').
Proof.
  unfold external_windows, reslice_opt. clean_steps.
Qed.
#[local] Hint Resolve clean_external_windows : clean.

Lemma clean_py_range (a b c : Z) : clean (py_range a b c).
Proof. unfold py_range. clean_steps. Qed.
#[local] Hint Resolve clean_py_range : clean.

Lemma clean_concatenate_last (a b : windows) : clean (concatenate_last a b).
Proof. unfold concatenate_last. clean_steps. Qed.
#[local] Hint Resolve clean_concatenate_last : clean.

Lemma clean_time_position (cfg : Config C) (slots : Q) (idx : list nat)
                          (a b c d e f : windows) :
  clean (time_position cfg slots idx a b c d e f).
Proof.
  unfold time_position. clean_steps.
Qed.
#[local] Hint Resolve clean_time_position : clean.

Lemma clean_build_graph (l : Loader) (name : string) : clean (build_graph l name).
Proof.
  unfold build_graph. clean_steps.
Qed.
#[local] Hint Resolve clean_build_graph : clean.

Lemma clean_build_graphs (l : Loader) (names : list string) (am lm : list ndarray) :
  clean (build_graphs l names am lm).
Proof.
  revert am lm. induction names as [|n names IH]; intros am lm; simpl.
  - apply clean_Ok.
  - apply clean_bind; [apply clean_build_graph|].
    intros [a m]. apply IH.
Qed.
#[local] Hint Resolve clean_build_graphs : clean.

Lemma clean_attach_graphs (cfg : Config C) (l : Loader) : clean (attach_graphs cfg l).
Proof. unfold attach_graphs, np_array. clean_steps. Qed.
#[local] Hint Resolve clean_attach_graphs : clean.

Lemma check_test_ratio_spec (cfg : Config C) :
  (check_test_ratio cfg = Raise (ValueError "test_ratio ") <->
   (test_ratio cfg < 0 \/ 1 < test_ratio cfg)%Q) /\
  (check_test_ratio cfg = Ok tt <->
   ~ (test_ratio cfg < 0 \/ 1 < test_ratio cfg)%Q).
Proof.
  unfold check_test_ratio.
  destruct (Qltb 1 (test_ratio cfg)) eqn:H1;
    destruct (Qltb (test_ratio cfg) 0) eqn:H0; simpl;
    rewrite <- ?Qltb_lt, ?H0, ?H1;
    (split; split; [auto | intros; try discriminate; auto | | ]);
    intuition congruence.
Qed.

(** C8.  Once the configuration is resolved and the external features
    are assembled, the constructor raises [ValueError('test_ratio ')], an
    error whose message names the parameter, exactly when [test_ratio] lies
    outside [[0, 1]]; it does so in the guard that precedes the split, and
    returns no loader. *)
Theorem test_ratio_guard
    (cfg : Config C) (ds : DataSet) (r : Resolved) (x : External) :
  resolve cfg ds = Ok r ->
  external_features cfg ds r = Ok x ->
  (init cfg ds = Raise (ValueError "test_ratio ") <->
   (test_ratio cfg < 0 \/ 1 < test_ratio cfg)%Q) /\
  ((test_ratio cfg < 0 \/ 1 < test_ratio cfg)%Q ->
   check_test_ratio cfg = Raise (ValueError "test_ratio ") /\
   split_partitions cfg r x = Raise (ValueError "test_ratio ") /\
   completes (init cfg ds) = false) /\
  str_in "test_ratio" "test_ratio " = true.
Proof.
  intros Hr Hx.
  destruct (check_test_ratio_spec cfg) as [Hout Hin].
  assert (Hfail : (test_ratio cfg < 0 \/ 1 < test_ratio cfg)%Q ->
                  split_partitions cfg r x = Raise (ValueError "test_ratio ") /\
                  init cfg ds = Raise (ValueError "test_ratio ")).
  { intros Ho. apply Hout in Ho.
    assert (Hs : split_partitions cfg r x = Raise (ValueError "test_ratio "))
      by (unfold split_partitions; rewrite Ho; reflexivity).
    split; [exact Hs|].
    unfold init. rewrite Hr, bind_Ok_l, Hx, bind_Ok_l, Hs. reflexivity. }
  split; [split|split; [|reflexivity]].
  - intros Hi.
    destruct (check_test_ratio cfg) as [[]|e] eqn:Hg.
    + exfalso. revert Hi. unfold init.
      rewrite Hr, bind_Ok_l, Hx, bind_Ok_l.
      intros Hi. revert Hi.
      match goal with |- ?m = Raise ?e -> False =>
        assert (Hc : clean m); [|intros Hi; exact (Hc _ Hi eq_refl)]
      end.
      unfold split_partitions. rewrite Hg. clean_steps.
    + apply Hout. unfold check_test_ratio in *.
      destruct (_ || _); congruence.
  - intros Ho. apply Hfail, Ho.
  - intros Ho. destruct (Hfail Ho) as [Hs Hi].
    split; [apply Hout, Ho|]. split; [exact Hs|]. rewrite Hi. reflexivity.
Qed.

(** ** Partitions and their lengths *)

Lemma split_array_inv (a : ndarray) (r0 r1 : Q) (tr te : ndarray) :
  SplitData.split_array a [r0; r1] = Ok (tr, te) ->
  let k := Z.to_nat (py_round (inject_Z (Z.of_nat (len a)) * r0)%Q) in
  tr = mk_ndarray (shape1 a) (take k (rows a)) /\
  te = mk_ndarray (shape1 a) (drop k (rows a)).
Proof.
  unfold SplitData.split_array, SplitData.split_data. intros H.
  destruct (existsb _ _); [discriminate|].
  destruct (negb _); [discriminate|].
  destruct (_ <? _)%nat; [discriminate|].
  simpl in H. injection H as <- <-. split; reflexivity.
Qed.

Lemma len_min_max_normal (eps : Q) (nz : Normalizer.t) (a : ndarray) :
  len (Normalizer.min_max_normal eps nz a) = len a /\
  shape1 (Normalizer.min_max_normal eps nz a) = shape1 a.
Proof. unfold Normalizer.min_max_normal, len. simpl. rewrite length_fmap. auto. Qed.

Lemma truncate_train_inv (tdl : train_data_length_t) (slots : Q) (a a' : ndarray) :
  truncate_train tdl slots a = Ok a' ->
  shape1 a' = shape1 a /\
  exists start, rows a' = py_slice start None (rows a) /\
                forall b b', truncate_train tdl slots b = Ok b' ->
                             rows b' = py_slice start None (rows b).
Proof.
  destruct tdl as [|d|d]; simpl; intros H; [| |discriminate H].
  - injection H as <-. split; [reflexivity|].
    exists (Some 0). rewrite py_slice_from_zero. split; [reflexivity|].
    intros b b' [= <-]. rewrite py_slice_from_zero. reflexivity.
  - destruct (Float.int_of_product slots d) as [n|]; [|discriminate H].
    rewrite bind_Ok_l in H. injection H as <-. split; [reflexivity|].
    eexists. split; [reflexivity|]. intros b b' [= <-]. reflexivity.
Qed.

Lemma length_py_slice_eq {A B} (start stop : option Z) (l : list A) (k : list B) :
  length l = length k ->
  length (py_slice start stop l) = length (py_slice start stop k).
Proof. intros H. rewrite !length_py_slice, H. reflexivity. Qed.

(** The partitions keep the second dimension of what they are cut from,
    and partitions of arrays with as many rows have as many rows. *)
Lemma split_partitions_shapes (cfg : Config C) (r : Resolved) (x : External) (p : Parts) :
  split_partitions cfg r x = Ok p ->
  p_station_number p = shape1 (r_traffic_data r) /\
  shape1 (p_train_data p) = shape1 (r_traffic_data r) /\
  shape1 (p_test_data p) = shape1 (r_traffic_data r) /\
  shape1 (p_train_ef p) = shape1 (x_feature x) /\
  shape1 (p_test_ef p) = shape1 (x_feature x) /\
  (len (x_feature x) = len (r_traffic_data r) ->
   len (p_train_ef p) = len (p_train_data p) /\
   len (p_test_ef p) = len (p_test_data p)).
Proof.
  unfold split_partitions. intros H. inv_run H. injection H as <-. simpl.
  apply split_array_inv in E0 as [-> ->]. apply split_array_inv in E1 as [-> ->].
  destruct (truncate_train_inv _ _ _ _ E2) as (Hs2 & st & Hr2 & Hall).
  destruct (truncate_train_inv _ _ _ _ E3) as (Hs3 & _ & _ & _).
  pose proof (Hall _ _ E3) as Hr3.
  rewrite Hs2, Hs3.
  do 5 (split; [destruct (normalize cfg); reflexivity|]).
  intros Hlen. unfold len in *. rewrite Hr2, Hr3.
  destruct (normalize cfg); simpl;
    rewrite ?length_fmap, !length_drop, Hlen;
    (split; [|reflexivity]); apply length_py_slice_eq;
    rewrite ?length_fmap, !length_take, Hlen; reflexivity.
Qed.

Lemma expand_test_inv (cfg : Config C) (slots : Q) (p : Parts) (td te : ndarray) :
  expand_test cfg slots p = Ok (td, te) ->
  exists start,
    expand_start_index cfg slots p = Ok start /\
    shape1 td = shape1 (p_train_data p) /\
    shape1 te = shape1 (p_train_ef p) /\
    rows td = py_slice (Some start) None (rows (p_train_data p))
              ++ rows (p_test_data p) /\
    rows te = py_slice (Some start) None (rows (p_train_ef p))
              ++ rows (p_test_ef p).
Proof.
  unfold expand_test. intros H. inv_run H. injection H as -> ->.
  apply vstack_Ok in E0 as [-> ->]. apply vstack_Ok in E1 as [-> ->].
  exists a. simpl. auto.
Qed.

(** ** The lengths of the sampler's outputs *)

Lemma length_stack (n : Z) (data : ndarray) (cands : list Z) (slots : Z -> list Z) :
  length (ST_MoveSample.stack n data cands slots)
  = if n =? 0 then 0%nat else length cands.
Proof.
  unfold ST_MoveSample.stack. destruct (n =? 0); [reflexivity|].
  apply length_fmap.
Qed.

Lemma length_candidates (s : ST_MoveSample.t) (T : nat) :
  length (ST_MoveSample.candidates s T)
  = Z.to_nat (Z.of_nat T - ST_MoveSample.target_length s
              - ST_MoveSample.max_lookback s + 1).
Proof. unfold ST_MoveSample.candidates. apply length_seqZ. Qed.

Lemma move_sample_lengths (s : ST_MoveSample.t) (data : ndarray)
                          (c p t : windows) (y : targets) :
  ST_MoveSample.move_sample s data = Ok (c, p, t, y) ->
  sequence_len c p t = length (ST_MoveSample.candidates s (len data)) /\
  (0 < ST_MoveSample.target_length s ->
   length y = length (ST_MoveSample.candidates s (len data))).
Proof.
  unfold ST_MoveSample.move_sample, sequence_len. intros H.
  destruct (Z.eqb_spec (ST_MoveSample.closeness_len s) 0) as [Hc|Hc];
    destruct (Z.eqb_spec (ST_MoveSample.period_len s) 0) as [Hp|Hp];
    destruct (Z.eqb_spec (ST_MoveSample.trend_len s) 0) as [Ht|Ht];
    simpl in H; try discriminate H;
    injection H as <- <- <- <-;
    rewrite !length_stack;
    repeat match goal with
           | |- context [?a =? 0] => destruct (Z.eqb_spec a 0); [try lia|]
           end;
    (split; [lia|]);
    intros Hy; destruct (Z.ltb_spec 0 (ST_MoveSample.target_length s)); try lia;
    apply length_fmap.
Qed.

Lemma length_concatenate_last (a b c : windows) :
  concatenate_last a b = Ok c -> length c = length a.
Proof.
  unfold concatenate_last, same_dims, concat_channels.
  destruct (Nat.eqb_spec (length a) (length b)) as [Hab|]; [|discriminate].
  destruct (forallb _ _); [|discriminate].
  intros [= <-]. rewrite length_zip_with. lia.
Qed.

(** [a[-s - t : -t]] has [s] elements when [t >= 1] and the list has room
    for [s + t] of them, or when [s = 0]. *)
Lemma length_reslice {A} (s : nat) (t : Z) (l : list A) :
  1 <= t ->
  (Z.of_nat s + t <= Z.of_nat (length l) \/ s = 0%nat) ->
  length (reslice s t l) = s.
Proof.
  intros Ht Hs. unfold reslice. rewrite length_py_slice. unfold slice_bound.
  destruct (Z.ltb_spec (- t) 0); [|lia].
  destruct (Z.ltb_spec (- Z.of_nat s - t) 0); [|lia].
  lia.
Qed.

(** The number of samples of the traffic sampler over [T] slots. *)
Lemma traffic_candidates (cfg : Config C) (slots : Q) (T : nat) :
  length (ST_MoveSample.candidates (st_move_sample cfg slots) T)
  = Z.to_nat (Z.of_nat T
              - ST_MoveSample.max_lookback (st_move_sample cfg slots)).
Proof. rewrite length_candidates. simpl. f_equal. lia. Qed.

Lemma external_windows_inv (cfg : Config C) (slots : Q) (n : Z) (x : External)
                           (a b : ndarray) (s s' : nat) (w : ExternalWindows) :
  (0 < len (x_feature x))%nat ->
  external_windows cfg slots n x a b s s' = Ok w ->
  rows (w_train_ef w) = reslice s (target_length cfg) (rows a) /\
  rows (w_test_ef w) = reslice s' (target_length cfg) (rows b).
Proof.
  intros Hx. unfold external_windows.
  destruct (Nat.ltb_spec 0 (len (x_feature x))) as [_|?]; [|lia].
  intros Hw. inv_run Hw. injection Hw as <-. simpl. auto.
Qed.

(** C3, as the code has it.  In a completed construction with a
    non-empty external feature matrix that has one row per selected
    traffic slot, and with a
    [target_length] of at least one and at most the sampler's
    [max_lookback], the retained raw external features have exactly the
    traffic-derived sequence lengths, for the train and for the test set;
    these lengths are the largest of the lengths of the closeness, period
    and trend windows. *)
Theorem external_features_resliced
    (cfg : Config C) (ds : DataSet) (l : Loader) (r : Resolved) (x : External) :
  init cfg ds = Ok l ->
  resolve cfg ds = Ok r ->
  external_features cfg ds r = Ok x ->
  (0 < len (x_feature x))%nat ->
  len (x_feature x) = len (r_traffic_data r) ->
  1 <= target_length cfg
    <= ST_MoveSample.max_lookback (st_move_sample cfg (r_daily_slots r)) ->
  len (train_ef l) = train_sequence_len l /\
  len (test_ef l) = test_sequence_len l /\
  train_sequence_len l
  = sequence_len (train_closeness l) (train_period l) (train_trend l) /\
  test_sequence_len l
  = sequence_len (test_closeness l) (test_period l) (test_trend l).
Proof.
  intros Hinit Hr Hx Hne Halign [Ht1 Ht2].
  destruct (init_phases _ _ _ Hinit).
  rewrite Hr in ph_resolve. injection ph_resolve as <-.
  rewrite Hx in ph_external_features. injection ph_external_features as <-.
  destruct ph_train_windows as [[trc trp] trt].
  destruct ph_test_windows as [[tec tep] tet]. simpl in *.
  destruct (split_partitions_shapes _ _ _ _ ph_split) as (_ & _ & _ & _ & _ & Hal).
  destruct (Hal Halign) as [Htr Hte].
  destruct (expand_test_inv _ _ _ _ _ ph_expand) as (start & _ & _ & _ & Htd & Htef).
  destruct (move_sample_lengths _ _ _ _ _ _ ph_sample_train) as [Hs1 _].
  destruct (move_sample_lengths _ _ _ _ _ _ ph_sample_test) as [Hs2 _].
  rewrite traffic_candidates in Hs1, Hs2.
  destruct (external_windows_inv _ _ _ _ _ _ _ _ _ Hne ph_sample_external)
    as [Hw1 Hw2].
  set (L := ST_MoveSample.max_lookback (st_move_sample cfg (r_daily_slots r))) in *.
  assert (Hlen_te : length (rows ph_test_ef) = length (rows ph_test_data)).
  { rewrite Htd, Htef, !length_app. unfold len in *. rewrite Hte. f_equal.
    apply length_py_slice_eq. exact Htr. }
  split; [|split; [|split]].
  - rewrite ph_train_ef. unfold len at 1. rewrite Hw1.
    apply length_reslice; [exact Ht1|].
    rewrite ph_train_sequence_len, Hs1. unfold len in *. lia.
  - rewrite ph_test_ef_eq. unfold len at 1. rewrite Hw2.
    apply length_reslice; [exact Ht1|].
    rewrite ph_test_sequence_len, Hs2. unfold len in *. lia.
  - rewrite ph_train_sequence_len.
    destruct (with_tpe cfg).
    + destruct ph_tpe as [e He]. unfold time_position in He. inv_run He.
      injection He as _ H1 H2 H3 _ _ _. unfold sequence_len.
      rewrite <- H1, <- H2, <- H3.
      rewrite (length_concatenate_last _ _ _ E2),
              (length_concatenate_last _ _ _ E3),
              (length_concatenate_last _ _ _ E4). reflexivity.
    + destruct ph_tpe as [[= -> -> ->] _]. reflexivity.
  - rewrite ph_test_sequence_len.
    destruct (with_tpe cfg).
    + destruct ph_tpe as [e He]. unfold time_position in He. inv_run He.
      injection He as _ _ _ _ H1 H2 H3. unfold sequence_len.
      rewrite <- H1, <- H2, <- H3.
      rewrite (length_concatenate_last _ _ _ E5),
              (length_concatenate_last _ _ _ E6),
              (length_concatenate_last _ _ _ E7). reflexivity.
    + destruct ph_tpe as [_ [= -> -> ->]]. reflexivity.
Qed.

(** ** When the external features have one row per selected slot *)

Lemma length_mapM {A B} (f : A -> result B) (l : list A) (k : list B) :
  mapM f l = Ok k -> length k = length l.
Proof.
  revert k. induction l as [|a l IH]; intros k H; simpl in H.
  - injection H as <-. reflexivity.
  - inv_run H. injection H as <-. simpl. f_equal. apply IH. reflexivity.
Qed.

Lemma concat_columns_len (b : ndarray) (bs : list ndarray) (ef : ndarray) :
  concat_columns (b :: bs) = Ok ef ->
  len ef = len b /\ Forall (fun c => len c = len b) bs.
Proof.
  unfold concat_columns.
  destruct (forallb _ bs) eqn:Hall; [|discriminate].
  intros [= <-].
  assert (Hbs : Forall (fun c => len c = len b) bs).
  { apply Is_true_true, forallb_True in Hall.
    eapply Forall_impl; [exact Hall|].
    intros c Hc. apply Is_true_true, Nat.eqb_eq in Hc. exact Hc. }
  split; [|exact Hbs]. clear Hall.
  assert (Hgen : forall acc, len acc = len b ->
            len (foldl (fun acc c =>
                          mk_ndarray (shape1 acc + shape1 c)
                                     (zip_with app (rows acc) (rows c))) acc bs)
            = len b).
  { induction Hbs as [|c bs Hc _ IH]; intros acc Hacc; simpl; [exact Hacc|].
    apply IH. unfold len in *. simpl. rewrite length_zip_with. lia. }
  apply Hgen. reflexivity.
Qed.

Section Aligned.

Context {OH : OneHotRows C}.

(** For a dataset other than ["Metro"] whose weather matrix, if any,
    has a row for every slot of the traffic matrix, and a range that lies
    within the series, a non-empty external feature matrix has exactly
    one row per selected traffic slot. *)
Lemma external_features_aligned (cfg : Config C) (ds : DataSet)
                                (r : Resolved) (x : External) :
  resolve cfg ds = Ok r ->
  external_features cfg ds r = Ok x ->
  is_metro cfg = false ->
  0 <= fst (r_range r) <= snd (r_range r) ->
  snd (r_range r) <= Z.of_nat (len (node_traffic ds)) ->
  len (external_feature_weather ds) = 0%nat \/
  len (external_feature_weather ds) = len (node_traffic ds) ->
  (0 < len (x_feature x))%nat ->
  len (x_feature x) = len (r_traffic_data r).
Proof.
  intros Hr Hx Hm [Hlo Hle] Hhi Hw Hne.
  apply resolve_inv in Hr as (_ & _ & _ & _ & _ & _ & _ & Htd).
  set (n := Z.to_nat (snd (r_range r) - fst (r_range r))).
  assert (Hslice : forall A (l : list A),
            length l = len (node_traffic ds) ->
            length (py_slice (Some (fst (r_range r))) (Some (snd (r_range r))) l) = n).
  { intros A l Hl. rewrite length_py_slice, Hl. unfold slice_bound, n.
    destruct (Z.ltb_spec (fst (r_range r)) 0); [lia|].
    destruct (Z.ltb_spec (snd (r_range r)) 0); lia. }
  assert (Htraffic : len (r_traffic_data r) = n).
  { rewrite Htd. unfold compute_traffic_data, take_columns, len. simpl.
    rewrite length_fmap. apply Hslice. reflexivity. }
  assert (Hrange : forall lo, length (range lo (snd (r_range r) - fst (r_range r) + lo)) = n).
  { intros lo. unfold range. rewrite length_seqZ. unfold n. f_equal. lia. }
  unfold external_features in Hx. inv_run Hx.
  assert (Hwb : Forall (fun b => len b = n) (weather_blocks cfg ds r)).
  { unfold weather_blocks.
    destruct (_ && _) eqn:Hcond; [|constructor].
    apply andb_prop in Hcond as [Hpos%Nat.ltb_lt _].
    constructor; [|constructor]. unfold len. simpl. apply Hslice.
    destruct Hw as [Hw|Hw]; [lia | exact Hw]. }
  assert (Hhb : Forall (fun b => len b = n) a).
  { unfold holiday_blocks in E. rewrite Hm in E.
    destruct (str_in "holiday" (external_use cfg)).
    - inv_run E. injection E as <-. constructor; [|constructor].
      rewrite one_hot_len. unfold holiday_rows in E1.
      rewrite (length_mapM _ _ _ E1). apply Hrange.
    - injection E as <-. constructor. }
  assert (Htb : Forall (fun b => len b = n) a0).
  { unfold tp_blocks in E0. rewrite Hm in E0.
    destruct (str_in "tp" (external_use cfg)).
    - inv_run E0. injection E0 as <-.
      unfold hourofday_rows in E1. unfold dayofweek_rows in E2.
      constructor; [|constructor; [|constructor]]; rewrite one_hot_len.
      + rewrite (length_mapM _ _ _ E1). apply Hrange.
      + rewrite (length_mapM _ _ _ E2). apply Hrange.
    - injection E0 as <-. constructor. }
  pose proof (Forall_app_2 _ _ _ Hwb (Forall_app_2 _ _ _ Hhb Htb)) as Hall.
  destruct (weather_blocks cfg ds r ++ a ++ a0) as [|b bs] eqn:Hblocks.
  - simpl in Hx. injection Hx as <-. simpl in Hne. unfold len in Hne. simpl in Hne. lia.
  - simpl in Hx. fold (concat_columns (b :: bs)) in Hx. inv_run Hx.
    injection Hx as <-. simpl.
    apply concat_columns_len in E1 as [-> _].
    apply Forall_cons in Hall as [-> _]. symmetry. exact Htraffic.
Qed.

End Aligned.

(** ** Normalisation and the test partition *)

Lemma split_partitions_inv (cfg : Config C) (r : Resolved) (x : External) (p : Parts) :
  split_partitions cfg r x = Ok p ->
  exists tr te,
    SplitData.split_array (r_traffic_data r)
                          [((1 # 1) - test_ratio cfg)%Q; test_ratio cfg]
    = Ok (tr, te) /\
    p_normalizer p = (if normalize cfg then Some (Normalizer.fit tr) else None) /\
    (normalize cfg = true ->
     truncate_train (train_data_length cfg) (r_daily_slots r)
       (Normalizer.min_max_normal normalizer_eps (Normalizer.fit tr) tr)
     = Ok (p_train_data p) /\
     p_test_data p = Normalizer.min_max_normal normalizer_eps (Normalizer.fit tr) te) /\
    (normalize cfg = false ->
     truncate_train (train_data_length cfg) (r_daily_slots r) tr
     = Ok (p_train_data p) /\
     p_test_data p = te).
Proof.
  unfold split_partitions. intros H. inv_run H. injection H as <-. simpl.
  exists n, n0. split; [reflexivity|].
  destruct (normalize cfg); (split; [reflexivity|]); split; intros Hn;
    try discriminate Hn; auto.
Qed.

Lemma len_compute_traffic_data (ds : DataSet) (range : Z * Z) (idx : list nat) :
  rows (compute_traffic_data ds range idx)
  = (fun r => (fun j => entry r j) <$> idx)
      <$> take (slice_bound (len (node_traffic ds)) (snd range)
                - slice_bound (len (node_traffic ds)) (fst range))
               (drop (slice_bound (len (node_traffic ds)) (fst range))
                     (rows (node_traffic ds))).
Proof. reflexivity. Qed.

Lemma slice_bound_le (n : nat) (i : Z) : (slice_bound n i <= n)%nat.
Proof. unfold slice_bound. destruct (Z.ltb_spec i 0); lia. Qed.

(** The train partition reads the raw traffic only before the test
    partition. *)
Lemma train_rows_before_test (cfg : Config C) (ds : DataSet) (r : Resolved)
                             (tr te : ndarray) :
  resolve cfg ds = Ok r ->
  SplitData.split_array (r_traffic_data r)
                        [((1 # 1) - test_ratio cfg)%Q; test_ratio cfg]
  = Ok (tr, te) ->
  tr = mk_ndarray (length (r_index r))
         ((fun row => (fun j => entry row j) <$> r_index r)
            <$> take ((selected_hi cfg ds - selected_lo cfg ds)
                      `min` train_count cfg ds)
                     (drop (selected_lo cfg ds)
                           (take (selected_lo cfg ds + train_count cfg ds)
                                 (rows (node_traffic ds))))).
Proof.
  intros Hr Hs.
  apply resolve_inv in Hr as (Hd & _ & _ & _ & _ & Hrange & Hidx & Htd).
  apply compute_daily_slots_inv in Hd as [_ Hd].
  apply split_array_inv in Hs as [-> _].
  unfold selected_hi, selected_lo, train_count, selected_hi, selected_lo,
         selected_range, daily_slots_of.
  rewrite <- Hd, Hrange.
  set (a := slice_bound (len (node_traffic ds)) (fst (r_range r))).
  set (b := slice_bound (len (node_traffic ds)) (snd (r_range r))).
  assert (Hlen : len (r_traffic_data r) = (b - a)%nat).
  { unfold len. rewrite Htd, len_compute_traffic_data, length_fmap.
    rewrite length_take, length_drop. fold a b.
    pose proof (slice_bound_le (len (node_traffic ds)) (snd (r_range r))).
    unfold len in *. fold b in H. lia. }
  rewrite Hlen.
  set (k := Z.to_nat (py_round (inject_Z (Z.of_nat (b - a)) * (1 - test_ratio cfg))%Q)).
  rewrite Htd at 1 2. simpl. f_equal.
  rewrite <- fmap_take. f_equal. unfold py_slice. fold (len (node_traffic ds)) a b.
  rewrite take_take, <- take_drop_commute, take_take.
  f_equal. lia.
Qed.

Lemma same_outside_test_train (cfg : Config C) (ds1 ds2 : DataSet) :
  same_outside_test cfg ds1 ds2 ->
  selected_lo cfg ds1 = selected_lo cfg ds2 /\
  selected_hi cfg ds1 = selected_hi cfg ds2 /\
  train_count cfg ds1 = train_count cfg ds2 /\
  daily_slots_of ds1 = daily_slots_of ds2.
Proof.
  intros (Htf & _ & Hlen & _).
  assert (Hd : daily_slots_of ds1 = daily_slots_of ds2)
    by (unfold daily_slots_of; rewrite Htf; reflexivity).
  assert (Hrg : resolve_data_range (data_range cfg) (daily_slots_of ds1) ds1
                = resolve_data_range (data_range cfg) (daily_slots_of ds2) ds2).
  { rewrite Hd. unfold resolve_data_range. rewrite Hlen. reflexivity. }
  assert (Hlo : selected_lo cfg ds1 = selected_lo cfg ds2)
    by (unfold selected_lo, selected_range; rewrite Hrg, Hlen; reflexivity).
  assert (Hhi : selected_hi cfg ds1 = selected_hi cfg ds2)
    by (unfold selected_hi, selected_range; rewrite Hrg, Hlen; reflexivity).
  repeat split; try assumption.
  unfold train_count. rewrite Hlo, Hhi. reflexivity.
Qed.

(** C4, as the code has it.  With [normalize = True] the normalizer is
    fitted on the train partition of the split alone and the same fitted
    statistics normalise the train and the test partition.  For two
    datasets that differ only in the traffic values of the slots of the
    test partition, and whose activity filter keeps the same nodes, the
    normalised train data and the fitted statistics are the same. *)
Theorem train_data_independent_of_test_values
    (cfg : Config C) (ds1 ds2 : DataSet) (l1 l2 : Loader) :
  init cfg ds1 = Ok l1 ->
  init cfg ds2 = Ok l2 ->
  same_outside_test cfg ds1 ds2 ->
  traffic_data_index l1 = traffic_data_index l2 ->
  train_data l1 = train_data l2 /\
  normalizer l1 = normalizer l2 /\
  (normalize cfg = true ->
   exists tr te,
     SplitData.split_array (traffic_data l1)
                           [((1 # 1) - test_ratio cfg)%Q; test_ratio cfg]
     = Ok (tr, te) /\
     normalizer l1 = Some (Normalizer.fit tr) /\
     truncate_train (train_data_length cfg) (daily_slots l1)
       (Normalizer.min_max_normal normalizer_eps (Normalizer.fit tr) tr)
     = Ok (train_data l1) /\
     exists lookback,
       expansion cfg (daily_slots l1) = Ok lookback /\
       rows (test_data l1)
       = py_slice (Some (Z.of_nat (len (train_data l1)) - lookback)) None
                  (rows (train_data l1))
         ++ rows (Normalizer.min_max_normal normalizer_eps (Normalizer.fit tr) te)).
Proof.
  intros H1 H2 Hsame Hidx.
  destruct (init_resolved _ _ _ H1) as (r1' & Hr1' & Hds1 & Hix1 & Htd1 & _).
  destruct (init_phases _ _ _ H1) as
    [r1 x1 p1 td1 te1 ? ? ? ? Hr1 _ Hp1 Hex1 _ _ _ _ _ _ _ _ _ Htr1 Hted1 _ _ _ _ _ Hnz1 _ _].
  destruct (init_phases _ _ _ H2) as
    [r2 x2 p2 td2 te2 ? ? ? ? Hr2 _ Hp2 _ _ _ _ _ _ Hd2 Hi2 _ _ Htr2 _ _ _ _ _ _ Hnz2 _ _].
  rewrite Hr1 in Hr1'. injection Hr1' as <-.
  destruct (split_partitions_inv _ _ _ _ Hp1) as (tr1 & te1' & Hs1 & Hn1 & Ht1 & Hf1).
  destruct (split_partitions_inv _ _ _ _ Hp2) as (tr2 & te2' & Hs2 & Hn2 & Ht2 & Hf2).
  pose proof (train_rows_before_test _ _ _ _ _ Hr1 Hs1) as Etr1.
  pose proof (train_rows_before_test _ _ _ _ _ Hr2 Hs2) as Etr2.
  destruct (same_outside_test_train _ _ _ Hsame) as (Hlo & Hhi & Hk & Hslots).
  destruct Hsame as (_ & _ & _ & Htake & _).
  assert (Hidx' : r_index r1 = r_index r2) by congruence.
  assert (Hslots' : r_daily_slots r1 = r_daily_slots r2).
  { apply resolve_inv in Hr1 as (Hc1 & _). apply resolve_inv in Hr2 as (Hc2 & _).
    apply compute_daily_slots_inv in Hc1 as [_ ->].
    apply compute_daily_slots_inv in Hc2 as [_ ->]. exact Hslots. }
  assert (Htr : tr1 = tr2).
  { rewrite Etr1, Etr2, <- Hlo, <- Hhi, <- Hk, Htake, Hidx'. reflexivity. }
  assert (Hnz : p_normalizer p1 = p_normalizer p2) by (rewrite Hn1, Hn2, Htr; reflexivity).
  assert (Htrain : p_train_data p1 = p_train_data p2).
  { destruct (normalize cfg).
    - destruct (Ht1 eq_refl) as [Ha _]. destruct (Ht2 eq_refl) as [Hb _].
      rewrite Htr, Hslots' in Ha. congruence.
    - destruct (Hf1 eq_refl) as [Ha _]. destruct (Hf2 eq_refl) as [Hb _].
      rewrite Htr, Hslots' in Ha. congruence. }
  split; [congruence|]. split; [congruence|].
  intros Hnorm. exists tr1, te1'.
  destruct (Ht1 Hnorm) as [Ha Hb].
  destruct (expand_test_inv _ _ _ _ _ Hex1) as (start & Hstart & _ & _ & Hrows & _).
  unfold expand_start_index in Hstart. inv_run Hstart. injection Hstart as <-.
  rewrite Htd1, Hnz1, Hn1, Hnorm, Hds1, Htr1, Hted1.
  split; [assumption|]. split; [reflexivity|]. split; [assumption|].
  eexists. split; [eassumption|].
  rewrite Hrows, Hb. reflexivity.
Qed.

(** ** The shapes of the graphs *)

Lemma mapM_Ok {A B} (f : A -> result B) (l : list A) (k : list B) :
  mapM f l = Ok k -> Forall2 (fun a b => f a = Ok b) l k.
Proof.
  revert k. induction l as [|a l IH]; intros k H; simpl in H.
  - injection H as <-. constructor.
  - inv_run H. injection H as <-. constructor; auto.
Qed.

Lemma take_rows_shape (idx : list Z) (a b : ndarray) :
  take_rows idx a = Ok b -> len b = length idx /\ shape1 b = shape1 a.
Proof.
  unfold take_rows. intros H. inv_run H. injection H as <-.
  apply mapM_Ok, Forall2_length in E. unfold len. simpl. auto.
Qed.

Lemma select_columns_shape (idx : list Z) (a b : ndarray) :
  select_columns idx a = Ok b -> len b = len a /\ shape1 b = length idx.
Proof.
  unfold select_columns. intros H. inv_run H. injection H as <-.
  apply mapM_Ok, Forall2_length in E. unfold len. simpl. auto.
Qed.

Lemma is_square_mat_add (n : nat) (a b : ndarray) :
  is_square n a -> len b = n -> is_square n (mat_add a b).
Proof.
  unfold is_square, mat_add, len. simpl. intros [Ha Hs] Hb.
  rewrite length_zip_with. split; [lia | exact Hs].
Qed.

Lemma is_square_zeros (n : nat) : is_square n (zeros n n).
Proof. unfold is_square, zeros, len. simpl. rewrite length_replicate. auto. Qed.

Lemma is_square_sum_months (n : nat) (months : list ndarray) :
  Forall (is_square n) months -> is_square n (sum_months n months).
Proof.
  unfold sum_months. generalize (is_square_zeros n). generalize (zeros n n).
  induction months as [|m months IH]; intros acc Hacc Hm; simpl.
  - exact Hacc.
  - apply Forall_cons in Hm as [[Hm1 _] Hm2].
    apply IH; [apply is_square_mat_add; assumption | assumption].
Qed.

Lemma is_square_transpose (n : nat) (a : ndarray) : is_square n a -> is_square n (transpose a).
Proof.
  unfold is_square, transpose, len. simpl. intros [Ha Hs].
  rewrite length_fmap, length_seq. auto.
Qed.

Lemma Forall_py_slice {A} (P : A -> Prop) (start stop : option Z) (l : list A) :
  Forall P l -> Forall P (py_slice start stop l).
Proof. intros H. unfold py_slice. apply Forall_take, Forall_drop, H. Qed.

Lemma split_data_first {A} (P : A -> Prop) (data : list A) (ratios : list Q)
                       (first : list A) (others : list (list A)) :
  SplitData.split_data data ratios = Ok (first :: others) ->
  Forall P data -> Forall P first.
Proof.
  unfold SplitData.split_data.
  destruct (existsb _ _); [discriminate|].
  destruct (negb _); [discriminate|].
  destruct (_ <? _)%nat; [discriminate|].
  intros [= H] Hd. destruct ratios as [|r0 [|r1 rs]]; simpl in H.
  - discriminate H.
  - injection H as <- _. exact Hd.
  - injection H as <- _. apply Forall_take, Hd.
Qed.

Section Graphs.

Context {S : GraphBuilderShapes C}.

Lemma build_graph_shape (l : Loader) (graph_name : string)
                        (am : option ndarray) (lm : ndarray) :
  station_number l = length (traffic_data_index l) ->
  shape1 (train_data l) = station_number l ->
  build_graph l graph_name = Ok (am, Some lm) ->
  (over_kept_nodes graph_name = true -> is_square (station_number l) lm) /\
  (lower graph_name = "neighbor"%string ->
   lm = adjacent_to_laplacian (graph_neighbors (self_dataset l))) /\
  (lower graph_name = "transfer"%string ->
   lm = adjacent_to_laplacian (graph_transfer (self_dataset l))) /\
  (lower graph_name = "line"%string ->
   exists m,
     select_columns (Z.of_nat <$> traffic_data_index l)
                    (adjacent_to_laplacian (graph_lines (self_dataset l))) = Ok m /\
     take_rows (Z.of_nat <$> traffic_data_index l) m = Ok lm).
Proof.
  intros Hn Htd. unfold build_graph, over_kept_nodes. cbv zeta.
  set (name := lower graph_name).
  set (idx := Z.of_nat <$> traffic_data_index l).
  assert (Hidx : length idx = station_number l)
    by (unfold idx; rewrite length_fmap; auto).
  destruct (String.eqb_spec name "distance") as [->|_].
  { intros H. inv_run H. injection H as _ <-.
    apply take_rows_shape in E as [E _].
    destruct (distance_adjacent_shape a (self_threshold_distance l)) as [H1 H2].
    destruct (adjacent_to_laplacian_shape
                (distance_adjacent a (self_threshold_distance l))) as [H3 H4].
    repeat split; try discriminate. all: congruence. }
  destruct (String.eqb_spec name "interaction") as [->|_].
  { intros H. inv_run H.
    destruct a0 as [|monthly [|rest [|]]]; try discriminate H.
    injection H as _ <-.
    assert (Hall : Forall (is_square (station_number l)) a).
    { apply mapM_Ok in E. clear E0.
      induction E as [|m m' ms ms' Hm _ IH]; constructor; [|exact IH].
      inv_run Hm. apply take_rows_shape in E as [E1 E2].
      apply select_columns_shape in Hm as [E3 E4].
      split; congruence. }
    pose proof (split_data_first _ _ _ _ _ E0 Hall) as Hfirst.
    pose proof (is_square_sum_months _ _
                  (Forall_py_slice _ (Some (-12)) None _ Hfirst)) as Hsum.
    rewrite <- Hidx in Hsum at 2.
    pose proof (is_square_transpose _ _ Hsum) as [Ht _].
    pose proof (is_square_mat_add _ _ _ Hsum Ht) as [Hm1 Hm2].
    match goal with
    | |- context [adjacent_to_laplacian (interaction_adjacent ?c ?t)] =>
        destruct (interaction_adjacent_shape c t) as [H1 H2];
        destruct (adjacent_to_laplacian_shape (interaction_adjacent c t))
          as [H3 H4]
    end.
    repeat split; try discriminate. all: congruence. }
  destruct (String.eqb_spec name "correlation") as [->|_].
  { intros [= _ <-].
    match goal with
    | |- context [adjacent_to_laplacian (correlation_adjacent ?c ?t)] =>
        destruct (correlation_adjacent_shape c t) as [H1 H2];
        destruct (adjacent_to_laplacian_shape (correlation_adjacent c t))
          as [H3 H4]
    end.
    simpl in H1, H2.
    repeat split; try discriminate. all: congruence. }
  destruct (String.eqb_spec name "neighbor") as [->|Hnb].
  { intros [= _ <-]. repeat split; try discriminate. }
  destruct (String.eqb_spec name "line") as [->|Hln].
  { intros H. inv_run H. injection H as _ <-.
    pose proof (select_columns_shape _ _ _ E) as [_ E2].
    pose proof (take_rows_shape _ _ _ E0) as [E3 E4].
    repeat split; try discriminate; try congruence.
    intros _. exists a; auto. }
  destruct (String.eqb_spec name "transfer") as [->|Htr].
  { intros [= _ <-]. repeat split; try discriminate. }
  discriminate.
Qed.

Lemma build_graphs_inv (l : Loader) (names : list string) (am lm am' lm' : list ndarray) :
  build_graphs l names am lm = Ok (am', lm') ->
  exists new,
    lm' = lm ++ new /\
    Forall (fun m => exists name a,
                name ∈ names /\ build_graph l name = Ok (a, Some m)) new.
Proof.
  revert am lm. induction names as [|n names IH]; intros am lm H; simpl in H.
  - injection H as <- <-. exists []. rewrite app_nil_r. auto.
  - inv_run H. apply IH in H as (new & -> & Hnew).
    assert (Hnew' : Forall (fun m => exists name a,
                       name ∈ n :: names /\ build_graph l name = Ok (a, Some m)) new).
    { eapply Forall_impl; [exact Hnew|]. intros m (name & a & Hin & Hb).
      exists name, a. split; [right; exact Hin | exact Hb]. }
    destruct o0 as [m|].
    + exists (m :: new). rewrite <- app_assoc. split; [reflexivity|].
      constructor; [|exact Hnew'].
      exists n, o. split; [left | exact E].
    + exists new. split; [reflexivity | exact Hnew'].
Qed.

Lemma init_station_number (cfg : Config C) (ds : DataSet) (l : Loader) :
  init cfg ds = Ok l ->
  station_number l = length (traffic_data_index l) /\
  shape1 (train_data l) = station_number l /\
  shape1 (test_data l) = station_number l.
Proof.
  intros H. destruct (init_phases _ _ _ H).
  destruct (split_partitions_shapes _ _ _ _ ph_split) as (H1 & H2 & H3 & _).
  destruct (expand_test_inv _ _ _ _ _ ph_expand) as (start & _ & H4 & _).
  apply resolve_inv in ph_resolve as (_ & _ & _ & _ & _ & _ & _ & Htd).
  rewrite ph_station_number, ph_index, ph_train_data, ph_test_data_eq, H1, H4, H2.
  rewrite Htd. auto.
Qed.

(** C5, as the code has it.  Every Laplacian in [LM] was returned by
    [build_graph] for one of the names of [graph].  For the types
    Correlation, Distance, Interaction and Line it is square of shape
    [[station_number, station_number]], Line by re-indexing the columns
    and the rows of the Laplacian of the supplied line graph through
    [traffic_data_index]; for Neighbor and Transfer it is the Laplacian of
    the supplied adjacency matrix, passed through as it is. *)
Theorem laplacians_of_loader (cfg : Config C) (ds : DataSet) (l : Loader) :
  init cfg ds = Ok l ->
  Forall
    (fun lm =>
       exists graph_name am,
         graph_name ∈ split_dash (graph cfg) /\
         build_graph l graph_name = Ok (am, Some lm) /\
         (over_kept_nodes graph_name = true -> is_square (station_number l) lm) /\
         (lower graph_name = "neighbor"%string ->
          lm = adjacent_to_laplacian (graph_neighbors ds)) /\
         (lower graph_name = "transfer"%string ->
          lm = adjacent_to_laplacian (graph_transfer ds)) /\
         (lower graph_name = "line"%string ->
          exists m,
            select_columns (Z.of_nat <$> traffic_data_index l)
                           (adjacent_to_laplacian (graph_lines ds)) = Ok m /\
            take_rows (Z.of_nat <$> traffic_data_index l) m = Ok lm))
    (LM l).
Proof.
  intros H. destruct (init_station_number _ _ _ H) as (Hn & Htd & _).
  destruct (init_phases _ _ _ H). clear ph_tpe.
  destruct ph_fresh as [_ Hfresh].
  unfold attach_graphs in ph_graphs.
  destruct (with_lm cfg).
  - inv_run ph_graphs. injection ph_graphs as <-.
    apply np_array_inv in E0 as [-> _].
    apply build_graphs_inv in E as (new & -> & Hnew). simpl in *.
    eapply Forall_impl; [exact Hnew|].
    intros lm (name & a & Hin & Hb).
    exists name, a. split; [exact Hin|]. split; [exact Hb|].
    rewrite <- ph_dataset.
    exact (build_graph_shape (set_graphs ph_loader l0 new) name a lm Hn Htd Hb).
  - injection ph_graphs as <-. rewrite Hfresh. constructor.
Qed.

End Graphs.

(** ** [make_concat] *)

Lemma mapM_Ok_intro {A B} (f : A -> result B) (l : list A) (k : list B) :
  Forall2 (fun a b => f a = Ok b) l k -> mapM f l = Ok k.
Proof.
  induction 1 as [|a b l k Hab _ IH]; simpl; [reflexivity|].
  rewrite Hab, bind_Ok_l, IH. reflexivity.
Qed.

Lemma py_index_Ok {A} (l : list A) (i : Z) :
  - Z.of_nat (length l) <= i < Z.of_nat (length l) ->
  exists x, py_index l i = Ok x /\ l !! node_position (length l) i = Some x.
Proof.
  intros Hi. unfold py_index, node_position.
  set (j := if i <? 0 then i + Z.of_nat (length l) else i).
  assert (Hj : 0 <= j < Z.of_nat (length l))
    by (unfold j; destruct (Z.ltb_spec i 0); lia).
  destruct (Z.leb_spec 0 j); [|lia]. destruct (Z.ltb_spec j (Z.of_nat (length l))); [|lia].
  simpl. destruct (lookup_lt_is_Some_2 l (Z.to_nat j)) as [x Hx]; [lia|].
  rewrite Hx. eauto.
Qed.

Lemma py_index_last {A} (l : list A) :
  l <> [] -> exists x, py_index l (-1) = Ok x /\ last l = Some x.
Proof.
  intros Hl. destruct (py_index_Ok l (-1)) as (x & Hx & Hp).
  { destruct l; [congruence | simpl; lia]. }
  exists x. split; [exact Hx|]. rewrite last_lookup.
  rewrite <- Hp. f_equal. unfold node_position. simpl.
  destruct l; [congruence | simpl; lia].
Qed.

Lemma pick_spec (R N : nat) (K : Z) (w : windows) (n k : Z) :
  well_shaped R N K w -> 0 < K ->
  - Z.of_nat N <= n < Z.of_nat N -> 0 <= k < K ->
  exists v, pick w n k = Ok v /\ length v = R /\
            forall r, (r < R)%nat ->
              v !! r = last_channel w r (node_position N n) (Z.to_nat k).
Proof.
  intros [->|(_ & HR & Hw)] HK Hn Hk; [lia|].
  assert (Hrow : forall r row, w !! r = Some row ->
            exists x, (nd ← py_index row n; pos ← py_index nd k; py_index pos (-1)) = Ok x /\
                      (nd ← row !! node_position N n; e ← nd !! Z.to_nat k; last e) = Some x).
  { intros r row Hr. destruct (Hw r row Hr) as [HN Hnd].
    destruct (py_index_Ok row n) as (nd & E1 & L1); [lia|].
    rewrite HN in L1. destruct (Hnd _ _ L1) as [HKn He].
    destruct (py_index_Ok nd k) as (e & E2 & L2); [lia|].
    replace (node_position (length nd) k) with (Z.to_nat k) in L2
      by (unfold node_position; destruct (Z.ltb_spec k 0); lia).
    destruct (py_index_last e (He _ _ L2)) as (x & E3 & L3).
    exists x. rewrite E1, bind_Ok_l, E2, bind_Ok_l, E3, L1. simpl.
    rewrite L2. simpl. auto. }
  set (F := fun row : list (list (list Q)) =>
              nd ← row !! node_position N n; e ← nd !! Z.to_nat k; last e) in *.
  set (G := fun row : list (list (list Q)) =>
              nd ← py_index row n; pos ← py_index nd k; py_index pos (-1)) in *.
  exists (omap F w).
  assert (Homap : forall (u : windows),
            (forall r row, u !! r = Some row ->
               exists x, G row = Ok x /\ F row = Some x) ->
            mapM G u = Ok (omap F u) /\
            length (omap F u) = length u /\
            forall r, omap F u !! r
                      = last_channel u r (node_position N n) (Z.to_nat k)).
  { clear. induction u as [|row u IH]; intros Hu.
    - repeat split.
    - destruct (Hu 0%nat row eq_refl) as (x & E & L).
      destruct IH as (IH1 & IH2 & IH3).
      { intros r row' Hr. apply (Hu (Datatypes.S r) row' Hr). }
      change (omap F (row :: u))
        with (match F row with Some y => y :: omap F u | None => omap F u end).
      change (mapM G (row :: u))
        with (y ← G row; k ← mapM G u; Ok (y :: k)).
      rewrite E, bind_Ok_l, IH1, bind_Ok_l, L.
      split; [reflexivity|]. split; [simpl; congruence|].
      intros [|r].
      + unfold last_channel, cell. simpl. rewrite <- L. unfold F.
        destruct (row !! node_position N n) as [nd|]; simpl; [|reflexivity].
        destruct (nd !! Z.to_nat k); reflexivity.
      + simpl. rewrite IH3. reflexivity. }
  destruct (Homap w Hrow) as (H1 & H2 & H3).
  split; [exact H1|]. split; [congruence|]. intros r _. apply H3.
Qed.

Lemma assign_spec (R M W : nat) (h : list (list (list Q))) (i k : nat) (v : list Q) :
  shaped3 R M W h -> length v = R -> (i < M)%nat -> (k < W)%nat ->
  exists h', assign h i k v = Ok h' /\ shaped3 R M W h' /\
             forall r i' k', (r < R)%nat ->
               get3 h' r i' k'
               = if decide (i' = i /\ k' = k) then v !! r else get3 h r i' k'.
Proof.
  intros [HR Hh] Hv Hi Hk. unfold assign.
  destruct (Nat.eqb_spec (length v) (length h)) as [_|Hne]; [|congruence].
  eexists. split; [reflexivity|]. split.
  - split; [rewrite length_imap; exact HR|].
    intros r row'. rewrite list_lookup_imap.
    destruct (h !! r) as [row|] eqn:Hr; [|discriminate]. simpl. intros [= <-].
    destruct (Hh r row Hr) as [HM Hnd].
    split; [rewrite length_alter; exact HM|].
    intros i' nd'. rewrite list_lookup_alter.
    destruct (decide (i = i')) as [<-|_]; [|apply Hnd].
    destruct (row !! i) as [nd|] eqn:Hi'; [|discriminate]. simpl.
    intros [= <-]. rewrite length_insert. apply (Hnd _ _ Hi').
  - intros r i' k' Hr. unfold get3. rewrite list_lookup_imap.
    destruct (lookup_lt_is_Some_2 h r) as [row Hrow]; [lia|].
    rewrite Hrow. simpl. destruct (Hh r row Hrow) as [HM Hnd].
    rewrite list_lookup_alter.
    destruct (decide (i = i')) as [<-|Hii].
    + destruct (lookup_lt_is_Some_2 row i) as [nd Hnd']; [lia|].
      rewrite Hnd'. simpl. rewrite list_lookup_insert.
      rewrite (Hnd _ _ Hnd').
      destruct (lookup_lt_is_Some_2 v r) as [x Hx]; [lia|].
      unfold entry. rewrite Hx. simpl.
      repeat case_decide; try reflexivity; exfalso; intuition (try lia; congruence).
    + destruct (decide (i' = i /\ k' = k)) as [[? _]|_]; [congruence|].
      reflexivity.
Qed.

Lemma for_each_app {S A} (xs ys : list A) (body : A -> S -> result S) (s : S) :
  for_each (xs ++ ys) body s = (s' ← for_each xs body s; for_each ys body s').
Proof.
  revert s. induction xs as [|x xs IH]; intros s; simpl; [reflexivity|].
  destruct (body x s) as [s'|e]; simpl; [apply IH | reflexivity].
Qed.

(** One inner loop of [make_concat] fills the entries [offset ..
    offset + n - 1] of node [i] with the last channel of the window, and
    leaves the others as they were. *)
Lemma copy_window_spec (R M W N : nat) (K : Z) (w : windows) (node_i : Z)
                       (i : nat) (offset : Z) (h : list (list (list Q))) :
  shaped3 R M W h -> well_shaped R N K w -> 0 <= K -> 0 <= offset ->
  - Z.of_nat N <= node_i < Z.of_nat N ->
  (i < M)%nat -> offset + K <= Z.of_nat W ->
  exists h', copy_window w node_i i offset K h = Ok h' /\ shaped3 R M W h' /\
             forall r i' k', (r < R)%nat ->
               get3 h' r i' k'
               = if decide (i' = i /\ Z.to_nat offset <= k' < Z.to_nat (offset + K))%nat
                 then last_channel w r (node_position N node_i) (k' - Z.to_nat offset)
                 else get3 h r i' k'.
Proof.
  intros Hh Hw HK Hoff Hn Hi HW. unfold copy_window, range.
  rewrite Z.sub_0_r.
  assert (Hgen : forall m, (m <= Z.to_nat K)%nat ->
    exists h', for_each (seqZ 0 (Z.of_nat m))
                 (fun k h0 => v ← pick w node_i k; assign h0 i (Z.to_nat (offset + k)) v) h
               = Ok h' /\ shaped3 R M W h' /\
               forall r i' k', (r < R)%nat ->
                 get3 h' r i' k'
                 = if decide (i' = i /\ Z.to_nat offset <= k' < Z.to_nat offset + m)%nat
                   then last_channel w r (node_position N node_i) (k' - Z.to_nat offset)
                   else get3 h r i' k').
  { induction m as [|m IH]; intros Hm.
    - exists h. split; [reflexivity|]. split; [exact Hh|].
      intros r i' k' _. destruct (decide _) as [[_ ?]|_]; [lia | reflexivity].
    - destruct IH as (h1 & E1 & Hs1 & G1); [lia|].
      replace (Z.of_nat (Datatypes.S m)) with (Z.of_nat m + 1) by lia.
      rewrite seqZ_app by lia. rewrite for_each_app, E1, bind_Ok_l.
      replace (seqZ (0 + Z.of_nat m) 1) with [Z.of_nat m]
        by (rewrite Z.add_0_l; reflexivity).
      cbn [for_each].
      destruct (pick_spec R N K w node_i (Z.of_nat m) Hw) as (v & Ev & Lv & Gv);
        [lia | exact Hn | lia |].
      rewrite Ev, bind_Ok_l.
      destruct (assign_spec R M W h1 i (Z.to_nat (offset + Z.of_nat m)) v Hs1 Lv Hi)
        as (h2 & E2 & Hs2 & G2); [lia|].
      rewrite E2, !bind_Ok_l. exists h2. split; [reflexivity|]. split; [exact Hs2|].
      intros r i' k' Hr. rewrite (G2 r i' k' Hr), (G1 r i' k' Hr).
      rewrite (Gv r Hr), Nat2Z.id.
      repeat case_decide; try reflexivity;
        try (f_equal; lia); exfalso; intuition lia. }
  destruct (Hgen (Z.to_nat K)) as (h' & E & Hs & G); [lia|].
  rewrite Z2Nat.id in E by lia.
  exists h'. split; [exact E|]. split; [exact Hs|].
  intros r i' k' Hr. rewrite (G r i' k' Hr).
  replace (Z.to_nat (offset + K)) with (Z.to_nat offset + Z.to_nat K)%nat by lia.
  reflexivity.
Qed.

Lemma shaped3_zeros (R M W : nat) :
  shaped3 R M W (replicate R (replicate M (replicate W (0 # 1)%Q))).
Proof.
  split; [apply length_replicate|].
  intros r row [-> _]%lookup_replicate.
  split; [apply length_replicate|].
  intros i nd [-> _]%lookup_replicate. apply length_replicate.
Qed.

(** The loop over the selected nodes. *)
Lemma fill_spec (R W N : nat) (c p t : Z) (closeness period trend : windows)
                (nodes : list Z) (h : list (list (list Q))) :
  0 <= c -> 0 <= p -> 0 <= t -> W = Z.to_nat (c + p + t) ->
  well_shaped R N c closeness -> well_shaped R N p period ->
  well_shaped R N t trend ->
  Forall (fun n => - Z.of_nat N <= n < Z.of_nat N) nodes ->
  shaped3 R (length nodes) W h ->
  exists h',
    for_each (seq 0 (length nodes))
      (fun i h0 =>
         node_i ← py_index nodes (Z.of_nat i);
         h1 ← copy_window closeness node_i i 0 c h0;
         h2 ← copy_window period node_i i c p h1;
         copy_window trend node_i i (c + p) t h2) h = Ok h' /\
    shaped3 R (length nodes) W h' /\
    forall r i k, (r < R)%nat -> (i < length nodes)%nat -> (k < W)%nat ->
      get3 h' r i k
      = layout closeness period trend (Z.to_nat c) (Z.to_nat p) (Z.to_nat t)
               (node_position N <$> nodes) r i k.
Proof.
  intros Hc Hp Ht HW Wc Wp Wt Hnodes Hh.
  set (M := length nodes) in *.
  assert (Hgen : forall m, (m <= M)%nat ->
    exists h',
      for_each (seq 0 m)
        (fun i h0 =>
           node_i ← py_index nodes (Z.of_nat i);
           h1 ← copy_window closeness node_i i 0 c h0;
           h2 ← copy_window period node_i i c p h1;
           copy_window trend node_i i (c + p) t h2) h = Ok h' /\
      shaped3 R M W h' /\
      forall r i k, (r < R)%nat -> (k < W)%nat ->
        get3 h' r i k
        = if decide (i < m)%nat
          then layout closeness period trend (Z.to_nat c) (Z.to_nat p) (Z.to_nat t)
                      (node_position N <$> nodes) r i k
          else get3 h r i k).
  { induction m as [|m IH]; intros Hm.
    - exists h. split; [reflexivity|]. split; [exact Hh|].
      intros r i k _ _. destruct (decide (i < 0)%nat); [lia | reflexivity].
    - destruct IH as (h0 & E0 & Hs0 & G0); [lia|].
      rewrite seq_S, for_each_app, E0, bind_Ok_l. cbn [for_each Nat.add].
      destruct (py_index_Ok nodes (Z.of_nat m)) as (node_i & En & Ln);
        [fold M; lia|].
      replace (node_position (length nodes) (Z.of_nat m)) with m in Ln
        by (unfold node_position; destruct (Z.ltb_spec (Z.of_nat m) 0); lia).
      pose proof (proj1 (Forall_lookup _ _) Hnodes m node_i Ln) as Hvalid.
      rewrite En, bind_Ok_l.
      destruct (copy_window_spec R M W N c closeness node_i m 0 h0)
        as (h1 & E1 & Hs1 & G1); try assumption; try lia.
      rewrite E1, bind_Ok_l.
      destruct (copy_window_spec R M W N p period node_i m c h1)
        as (h2 & E2 & Hs2 & G2); try assumption; try lia.
      rewrite E2, bind_Ok_l.
      destruct (copy_window_spec R M W N t trend node_i m (c + p) h2)
        as (h3 & E3 & Hs3 & G3); try assumption; try lia.
      rewrite E3, bind_Ok_l. exists h3.
      split; [reflexivity|]. split; [exact Hs3|].
      intros r i k Hr Hk.
      rewrite (G3 r i k Hr), (G2 r i k Hr), (G1 r i k Hr), (G0 r i k Hr Hk).
      unfold layout. rewrite list_lookup_fmap.
      destruct (decide (i = m)) as [->|Hne].
      + rewrite Ln. simpl.
        replace (Z.to_nat (c + p + t)) with (Z.to_nat c + Z.to_nat p + Z.to_nat t)%nat
          by lia.
        replace (Z.to_nat (c + p)) with (Z.to_nat c + Z.to_nat p)%nat by lia.
        replace (Z.to_nat (0 + c)) with (Z.to_nat c) by lia.
        change (Z.to_nat 0) with 0%nat.
        repeat case_decide; try reflexivity; try (f_equal; lia);
          exfalso; intuition lia.
      + repeat case_decide; try reflexivity; exfalso; intuition lia. }
  destruct (Hgen M) as (h' & E & Hs & G); [lia|].
  exists h'. split; [exact E|]. split; [exact Hs|].
  intros r i k Hr Hi Hk. rewrite (G r i k Hr Hk).
  destruct (decide (i < M)%nat); [reflexivity | lia].
Qed.

Lemma cell_expand_dims (h : list (list (list Q))) (r i k : nat) :
  cell (expand_dims h) r i k = (fun x => [x]) <$> get3 h r i k.
Proof.
  unfold cell, get3, expand_dims.
  set (G := fun nd : list Q => (fun x => [x]) <$> nd).
  set (F := fun row : list (list Q) => G <$> row).
  rewrite list_lookup_fmap.
  destruct (h !! r) as [row|]; simpl; [|reflexivity].
  unfold F at 1. rewrite list_lookup_fmap.
  destruct (row !! i) as [nd|]; simpl; [|reflexivity].
  unfold G. apply list_lookup_fmap.
Qed.

Lemma selected_nodes_positions (N : nat) (node : node_t) :
  selected_nodes N node
  = node_position N <$> match node with
                        | NodeAll => Z.of_nat <$> seq 0 N
                        | NodeIndex n => [n]
                        end.
Proof.
  destruct node as [|n]; [|reflexivity]. simpl.
  rewrite <- list_fmap_compose. symmetry.
  rewrite <- (list_fmap_id (seq 0 N)) at 2. apply list_fmap_ext.
  intros _ i _. simpl. unfold node_position.
  destruct (Z.ltb_spec (Z.of_nat i) 0); lia.
Qed.

Lemma shaped3_expand_dims (R M W : nat) (h : list (list (list Q))) :
  shaped3 R M W h ->
  length (expand_dims h) = R /\
  forall r row, expand_dims h !! r = Some row ->
    length row = M /\
    forall i nd, row !! i = Some nd ->
      length nd = W /\ forall k e, nd !! k = Some e -> length e = 1%nat.
Proof.
  intros [HR Hh]. unfold expand_dims.
  set (G := fun nd : list Q => (fun x => [x]) <$> nd).
  set (F := fun row : list (list Q) => G <$> row).
  split; [rewrite length_fmap; exact HR|].
  intros r row'. rewrite list_lookup_fmap.
  destruct (h !! r) as [row|] eqn:Hr; [|discriminate]. simpl. intros [= <-].
  destruct (Hh r row Hr) as [HM Hnd]. unfold F.
  split; [rewrite length_fmap; exact HM|].
  intros i nd'. rewrite list_lookup_fmap.
  destruct (row !! i) as [nd|] eqn:Hi; [|discriminate]. simpl. intros [= <-].
  unfold G.
  split; [rewrite length_fmap; exact (Hnd i nd Hi)|].
  intros k e. rewrite list_lookup_fmap.
  destruct (nd !! k); [|discriminate]. simpl. intros [= <-]. reflexivity.
Qed.

(** [make_concat] on a loader whose windows have the shapes the sampler
    gives them. *)
Lemma make_concat_spec (l : Loader) (node : node_t) (is_train : bool) :
  let y := if is_train then train_y l else test_y l in
  let closeness := if is_train then train_closeness l else test_closeness l in
  let period := if is_train then train_period l else test_period l in
  let trend := if is_train then train_trend l else test_trend l in
  let N := station_number l in
  let c := self_closeness_len l in
  let p := self_period_len l in
  let t := self_trend_len l in
  0 <= c -> 0 <= p -> 0 <= t ->
  well_shaped (length y) N c closeness ->
  well_shaped (length y) N p period ->
  well_shaped (length y) N t trend ->
  valid_node N node ->
  exists h,
    make_concat l node is_train = Ok h /\
    (length h = length y /\
     forall r row, h !! r = Some row ->
       length row = length (selected_nodes N node) /\
       forall i nd, row !! i = Some nd ->
         length nd = Z.to_nat (c + p + t) /\
         forall k e, nd !! k = Some e -> length e = 1%nat) /\
    forall r i k,
      (r < length y)%nat -> (i < length (selected_nodes N node))%nat ->
      (k < Z.to_nat (c + p + t))%nat ->
      cell h r i k
      = (fun x => [x]) <$> layout closeness period trend
                             (Z.to_nat c) (Z.to_nat p) (Z.to_nat t)
                             (selected_nodes N node) r i k.
Proof.
  intros y closeness period trend N c p t Hc Hp Ht Wc Wp Wt Hnode.
  set (nodes := match node with
                | NodeAll => Z.of_nat <$> seq 0 N
                | NodeIndex n => [n]
                end).
  assert (Hvalid : Forall (fun n => - Z.of_nat N <= n < Z.of_nat N) nodes).
  { unfold nodes. destruct node as [|n]; simpl in Hnode.
    - apply Forall_fmap, Forall_forall. intros i Hi%elem_of_seq. simpl. lia.
    - constructor; [exact Hnode | constructor]. }
  assert (Hsel : selected_nodes N node = node_position N <$> nodes)
    by apply selected_nodes_positions.
  assert (Hlen : length (selected_nodes N node) = length nodes)
    by (rewrite Hsel; apply length_fmap).
  destruct (fill_spec (length y) (Z.to_nat (c + p + t)) N c p t
              closeness period trend nodes
              (replicate (length y)
                 (replicate (length nodes)
                    (replicate (Z.to_nat (c + p + t)) (0 # 1)%Q))))
    as (h & E & Hs & G); try assumption; try reflexivity.
  { apply shaped3_zeros. }
  exists (expand_dims h). split.
  - unfold make_concat. fold N c p t nodes.
    unfold y, closeness, period, trend in E.
    destruct is_train; cbv zeta iota beta; rewrite E; reflexivity.
  - rewrite Hlen. split; [apply shaped3_expand_dims, Hs|].
    intros r i k Hr Hi Hk. rewrite cell_expand_dims, Hsel. f_equal.
    apply G; assumption.
Qed.

(** ** The shapes of the windows of a constructed loader *)

Lemma stack_well_shaped (n : Z) (data : ndarray) (cands : list Z)
                        (slots : Z -> list Z) :
  0 <= n -> (forall i, length (slots i) = Z.to_nat n) ->
  well_shaped (length cands) (shape1 data) n
              (ST_MoveSample.stack n data cands slots).
Proof.
  intros Hn Hslots. unfold well_shaped, ST_MoveSample.stack.
  destruct (Z.eqb_spec n 0) as [->|Hne]; [left; reflexivity|].
  right. split; [lia|]. split; [apply length_fmap|].
  intros r row. rewrite list_lookup_fmap.
  destruct (cands !! r) as [i|]; [|discriminate]. simpl. intros [= <-].
  unfold ST_MoveSample.window_at.
  split; [rewrite length_fmap, length_seq; reflexivity|].
  intros m nd. rewrite list_lookup_fmap.
  destruct (seq 0 (shape1 data) !! m) as [j|]; [|discriminate]. simpl.
  intros [= <-].
  split; [rewrite length_fmap; apply Hslots|].
  intros k e. rewrite list_lookup_fmap.
  destruct (slots i !! k); [|discriminate]. simpl. intros [= <-]. discriminate.
Qed.

Lemma length_lookback_slots (i n stride : Z) :
  length (ST_MoveSample.lookback_slots i n stride) = Z.to_nat n.
Proof. unfold ST_MoveSample.lookback_slots. rewrite length_fmap. apply length_seqZ. Qed.

Lemma move_sample_well_shaped (s : ST_MoveSample.t) (data : ndarray)
                              (c p t : windows) (y : targets) :
  0 <= ST_MoveSample.closeness_len s -> 0 <= ST_MoveSample.period_len s ->
  0 <= ST_MoveSample.trend_len s -> 0 < ST_MoveSample.target_length s ->
  ST_MoveSample.move_sample s data = Ok (c, p, t, y) ->
  well_shaped (length y) (shape1 data) (ST_MoveSample.closeness_len s) c /\
  well_shaped (length y) (shape1 data) (ST_MoveSample.period_len s) p /\
  well_shaped (length y) (shape1 data) (ST_MoveSample.trend_len s) t.
Proof.
  intros Hc Hp Ht Hy H.
  pose proof (move_sample_lengths _ _ _ _ _ _ H) as [_ Hlen].
  rewrite (Hlen Hy). clear Hlen.
  unfold ST_MoveSample.move_sample in H.
  destruct (_ && _); [discriminate|]. injection H as <- <- <- _.
  split; [|split]; apply stack_well_shaped; try assumption; intros i.
  - apply length_seqZ.
  - apply length_lookback_slots.
  - apply length_lookback_slots.
Qed.

Lemma same_dims_lookup (a b : windows) (r : nat) (x y : list (list (list Q))) :
  same_dims a b = true -> a !! r = Some x -> b !! r = Some y ->
  length x = length y /\
  forall i u v, x !! i = Some u -> y !! i = Some v -> length u = length v.
Proof.
  unfold same_dims. intros [_ H]%andb_prop Hx Hy.
  apply Is_true_true, forallb_True in H.
  rewrite Forall_lookup in H.
  assert (Hz : zip a b !! r = Some (x, y)).
  { rewrite lookup_zip_with, Hx. simpl. rewrite Hy. reflexivity. }
  specialize (H r (x, y) Hz). simpl in H.
  apply andb_prop_elim in H as [H1 H2].
  apply Is_true_true, Nat.eqb_eq in H1. split; [exact H1|].
  intros i u v Hu Hv. apply forallb_True in H2. rewrite Forall_lookup in H2.
  assert (Hz' : zip x y !! i = Some (u, v)).
  { rewrite lookup_zip_with, Hu. simpl. rewrite Hv. reflexivity. }
  specialize (H2 i (u, v) Hz'). simpl in H2.
  apply Is_true_true, Nat.eqb_eq in H2. exact H2.
Qed.

Lemma concatenate_last_well_shaped (R N : nat) (K : Z) (a b c : windows) :
  concatenate_last a b = Ok c -> well_shaped R N K a -> well_shaped R N K c.
Proof.
  intros H [->|(HK & HR & Ha)]; [left; reflexivity|]. right.
  split; [exact HK|]. split; [rewrite (length_concatenate_last _ _ _ H); exact HR|].
  unfold concatenate_last in H.
  destruct (same_dims a b) eqn:Hd; [|discriminate]. injection H as <-.
  unfold concat_channels.
  intros r row. rewrite lookup_zip_with.
  destruct (a !! r) as [x|] eqn:Hx; [|discriminate]. simpl.
  destruct (b !! r) as [y|] eqn:Hy; [|discriminate]. simpl. intros [= <-].
  destruct (same_dims_lookup _ _ _ _ _ Hd Hx Hy) as [Hxy Huv].
  destruct (Ha r x Hx) as [HN Hnd].
  split; [rewrite length_zip_with; lia|].
  intros n nd. rewrite lookup_zip_with.
  destruct (x !! n) as [u|] eqn:Hu; [|discriminate]. simpl.
  destruct (y !! n) as [v|] eqn:Hv; [|discriminate]. simpl. intros [= <-].
  destruct (Hnd n u Hu) as [HKu He].
  pose proof (Huv n u v Hu Hv) as Hlen.
  split; [rewrite length_zip_with; lia|].
  intros k e. rewrite lookup_zip_with.
  destruct (u !! k) as [e1|] eqn:He1; [|discriminate]. simpl.
  destruct (v !! k) as [e2|]; [|discriminate]. simpl. intros [= <-].
  specialize (He k e1 He1). destruct e1; [congruence | discriminate].
Qed.

Lemma init_well_shaped (cfg : Config C) (ds : DataSet) (l : Loader) :
  init cfg ds = Ok l ->
  (0 <= self_closeness_len l /\ 0 <= self_period_len l /\ 0 <= self_trend_len l) /\
  (well_shaped (length (train_y l)) (station_number l)
               (self_closeness_len l) (train_closeness l) /\
   well_shaped (length (train_y l)) (station_number l)
               (self_period_len l) (train_period l) /\
   well_shaped (length (train_y l)) (station_number l)
               (self_trend_len l) (train_trend l)) /\
  (well_shaped (length (test_y l)) (station_number l)
               (self_closeness_len l) (test_closeness l) /\
   well_shaped (length (test_y l)) (station_number l)
               (self_period_len l) (test_period l) /\
   well_shaped (length (test_y l)) (station_number l)
               (self_trend_len l) (test_trend l)).
Proof.
  intros H. destruct (init_station_number _ _ _ H) as (_ & Htr & Hte).
  destruct (init_phases _ _ _ H).
  destruct ph_lengths as (-> & -> & ->).
  pose proof (resolve_inv _ _ _ ph_resolve) as (_ & _ & Hc & Hp & Ht & _).
  destruct ph_train_windows as [[trc trp] trt].
  destruct ph_test_windows as [[tec tep] tet].
  rewrite ph_train_data in Htr. rewrite ph_test_data_eq in Hte.
  assert (H1 : 0 < ST_MoveSample.target_length
                    (st_move_sample cfg (r_daily_slots ph_resolved)))
    by (simpl; lia).
  destruct (move_sample_well_shaped
              (st_move_sample cfg (r_daily_slots ph_resolved))
              _ _ _ _ _ Hc Hp Ht H1 ph_sample_train)
    as (W1 & W2 & W3).
  destruct (move_sample_well_shaped
              (st_move_sample cfg (r_daily_slots ph_resolved))
              _ _ _ _ _ Hc Hp Ht H1 ph_sample_test)
    as (W4 & W5 & W6).
  rewrite Htr in W1, W2, W3. rewrite Hte in W4, W5, W6.
  simpl in W1, W2, W3, W4, W5, W6.
  split; [auto|].
  destruct (with_tpe cfg).
  - destruct ph_tpe as [e He]. unfold time_position in He. simpl in He.
    inv_run He. injection He as _ <- <- <- <- <- <-.
    repeat split; eapply concatenate_last_well_shaped; eassumption.
  - simpl in ph_tpe. destruct ph_tpe as [[= -> -> ->] [= -> -> ->]].
    repeat split; assumption.
Qed.

(** C6.  On a constructed loader, for the selection of all nodes or of
    one valid node and for the train or the test windows, [make_concat]
    returns an array of shape [[len(y), number of selected nodes,
    closeness_len + period_len + trend_len, 1]]; along the history axis
    it holds the closeness entries in their order, then the period
    entries, then the trend entries, each the last channel of the
    corresponding window at the same row and node. *)
Theorem make_concat_layout
    (cfg : Config C) (ds : DataSet) (l : Loader)
    (node : node_t) (is_train : bool) :
  init cfg ds = Ok l ->
  valid_node (station_number l) node ->
  let y := if is_train then train_y l else test_y l in
  let closeness := if is_train then train_closeness l else test_closeness l in
  let period := if is_train then train_period l else test_period l in
  let trend := if is_train then train_trend l else test_trend l in
  let sel := selected_nodes (station_number l) node in
  let c := Z.to_nat (closeness_len cfg) in
  let p := Z.to_nat (period_len cfg) in
  let t := Z.to_nat (trend_len cfg) in
  exists h,
    make_concat l node is_train = Ok h /\
    (length h = length y /\
     forall r row, h !! r = Some row ->
       length row = length sel /\
       forall i nd, row !! i = Some nd ->
         length nd = (c + p + t)%nat /\
         forall k e, nd !! k = Some e -> length e = 1%nat) /\
    forall r i n k,
      (r < length y)%nat -> sel !! i = Some n ->
      ((k < c)%nat ->
       cell h r i k = (fun v => [v]) <$> last_channel closeness r n k) /\
      ((k < p)%nat ->
       cell h r i (c + k) = (fun v => [v]) <$> last_channel period r n k) /\
      ((k < t)%nat ->
       cell h r i (c + p + k) = (fun v => [v]) <$> last_channel trend r n k).
Proof.
  intros H Hnode y closeness period trend sel c p t.
  destruct (init_well_shaped _ _ _ H) as ((Hc & Hp & Ht) & Wtr & Wte).
  destruct (init_phases _ _ _ H) as
    [? ? ? ? ? ? ? ? ? _ _ _ _ _ _ _ _ _ _ _ _ (Ec & Ep & Et) _ _ _ _ _ _ _ _ _ _].
  assert (Hw : well_shaped (length y) (station_number l) (self_closeness_len l) closeness /\
               well_shaped (length y) (station_number l) (self_period_len l) period /\
               well_shaped (length y) (station_number l) (self_trend_len l) trend)
    by (unfold y, closeness, period, trend; destruct is_train; assumption).
  destruct Hw as (W1 & W2 & W3).
  destruct (make_concat_spec l node is_train Hc Hp Ht W1 W2 W3 Hnode)
    as (h & E & Hshape & G).
  rewrite Ec, Ep, Et in *.
  replace (Z.to_nat (closeness_len cfg + period_len cfg + trend_len cfg))
    with (c + p + t)%nat in * by (unfold c, p, t; lia).
  exists h. split; [exact E|]. split; [exact Hshape|].
  intros r i n k Hr Hi.
  assert (Hi' : (i < length sel)%nat) by (eapply lookup_lt_Some; exact Hi).
  fold y closeness period trend sel c p t in G.
  split; [|split]; intros Hk.
  - rewrite (G r i k Hr Hi') by lia. unfold layout. rewrite Hi. simpl.
    repeat case_decide; try reflexivity; lia.
  - rewrite (G r i (c + k)%nat Hr Hi') by lia. unfold layout. rewrite Hi. simpl.
    repeat case_decide; try lia. do 2 f_equal. lia.
  - rewrite (G r i (c + p + k)%nat Hr Hi') by lia. unfold layout. rewrite Hi. simpl.
    repeat case_decide; try lia. do 2 f_equal. lia.
Qed.

(** ** The truncation, for a positive number of days *)

(** X1.  With [train_data_length] a string holding [d] days and
    [k = int(d * daily_slots) >= 1], the product being that of binary64,
    the train traffic partition (normalised when [normalize] is set) and
    the train external-feature partition are cut down to their most
    recent [k] rows, all of them when they are shorter; with ['all'] both
    are kept whole.  The test partitions are not touched. *)
Theorem train_data_length_truncates
    (cfg : Config C) (r : Resolved) (x : External) (p : Parts) :
  split_partitions cfg r x = Ok p ->
  exists tr te etr ete,
    SplitData.split_array (r_traffic_data r)
                          [((1 # 1) - test_ratio cfg)%Q; test_ratio cfg]
    = Ok (tr, te) /\
    SplitData.split_array (x_feature x)
                          [((1 # 1) - test_ratio cfg)%Q; test_ratio cfg]
    = Ok (etr, ete) /\
    p_test_ef p = ete /\
    let norm a := if normalize cfg
                  then Normalizer.min_max_normal normalizer_eps (Normalizer.fit tr) a
                  else a in
    p_test_data p = norm te /\
    (train_data_length cfg = LengthAll ->
     p_train_data p = norm tr /\ p_train_ef p = etr) /\
    (forall d, train_data_length cfg = LengthDays d ->
       exists k,
         Float.int_of_product (r_daily_slots r) d = Ok k /\
         (0 < k ->
          rows (p_train_data p) = lastn (Z.to_nat k) (rows (norm tr)) /\
          rows (p_train_ef p) = lastn (Z.to_nat k) (rows etr))).
Proof.
  unfold split_partitions. intros H. inv_run H. injection H as <-. simpl.
  exists n, n0, n1, n2. split; [reflexivity|]. split; [reflexivity|].
  split; [reflexivity|]. split; [destruct (normalize cfg); reflexivity|].
  split.
  - intros Hall. rewrite Hall in E2, E3. simpl in E2, E3.
    injection E2 as <-. injection E3 as <-.
    destruct (normalize cfg); auto.
  - intros d Hd. rewrite Hd in E2, E3.
    destruct (Float.int_of_product (r_daily_slots r) d) as [k|] eqn:Ek;
      [|unfold truncate_train in E3; rewrite Ek in E3; discriminate E3].
    exists k. split; [reflexivity|]. intros Hk.
    destruct (truncate_train_days d (r_daily_slots r) n1 k Ek Hk) as (b' & Eb & _ & Hb).
    rewrite Eb in E3. injection E3 as <-.
    destruct (normalize cfg).
    + destruct (truncate_train_days d (r_daily_slots r)
                  (Normalizer.min_max_normal normalizer_eps (Normalizer.fit n) n)
                  k Ek Hk)
        as (a' & Ea & _ & Ha).
      rewrite Ea in E2. injection E2 as <-. auto.
    + destruct (truncate_train_days d (r_daily_slots r) n k Ek Hk) as (a' & Ea & _ & Ha).
      rewrite Ea in E2. injection E2 as <-. auto.
Qed.

End Properties.

(** ** The theorems on a sample dataset *)

(** The value a sample run returns. *)
Ltac returned m :=
  let v := eval vm_compute in m in
  lazymatch v with
  | Ok ?a => a
  end.

(** Names the loader a sample construction returns. *)
Ltac run_init cfg ds l E :=
  let v := returned (init cfg ds) in
  pose (l := v);
  assert (E : init cfg ds = Ok l) by (vm_compute; reflexivity).

(** ** The node filter and the selected range *)

(** C10.  [traffic_data_index] is computed from the whole raw traffic
    series: two completed constructions over one dataset keep the same
    nodes and have the same [station_number], whatever their
    [data_range], [test_ratio] or other arguments; and the filter reads
    slots outside the selected range and slots of the test partition: a
    change confined to such a slot changes the kept nodes. *)
Theorem node_filter_ignores_range_and_ratio :
  (forall (C : Collaborators) (cfg1 cfg2 : Config C) (ds : DataSet) (l1 l2 : Loader),
     init cfg1 ds = Ok l1 -> init cfg2 ds = Ok l2 ->
     traffic_data_index l1 = compute_traffic_data_index ds (daily_slots_of ds) /\
     traffic_data_index l1 = traffic_data_index l2 /\
     station_number l1 = station_number l2) /\
  (exists l l',
     init Sample.config_three_days Sample.data = Ok l /\
     init Sample.config_three_days Sample.data_late = Ok l' /\
     take (selected_hi Sample.config_three_days Sample.data)
          (rows (node_traffic Sample.data))
     = take (selected_hi Sample.config_three_days Sample.data)
            (rows (node_traffic Sample.data_late)) /\
     traffic_data_index l <> traffic_data_index l') /\
  (exists l l',
     init Sample.config Sample.data = Ok l /\
     init Sample.config Sample.data_late = Ok l' /\
     same_outside_test Sample.config Sample.data Sample.data_late /\
     traffic_data_index l <> traffic_data_index l').
Proof.
  split; [|split].
  - intros C cfg1 cfg2 ds l1 l2 H1 H2.
    apply init_resolved in H1 as (r1 & Hr1 & _ & -> & _ & ->).
    apply init_resolved in H2 as (r2 & Hr2 & _ & -> & _ & ->).
    apply resolve_inv in Hr1 as (Hs1 & _ & _ & _ & _ & _ & Hi1 & Ht1).
    apply resolve_inv in Hr2 as (Hs2 & _ & _ & _ & _ & _ & Hi2 & Ht2).
    apply compute_daily_slots_inv in Hs1 as [_ Hs1].
    apply compute_daily_slots_inv in Hs2 as [_ Hs2].
    rewrite Ht1, Ht2, Hi1, Hi2, Hs1, Hs2. auto.
  - run_init Sample.config_three_days Sample.data l E.
    run_init Sample.config_three_days Sample.data_late l' E'.
    exists l, l'. split; [exact E|]. split; [exact E'|].
    split; [vm_compute; reflexivity|]. discriminate.
  - run_init Sample.config Sample.data l E.
    run_init Sample.config Sample.data_late l' E'.
    exists l, l'. split; [exact E|]. split; [exact E'|].
    split; [repeat split; vm_compute; reflexivity|]. discriminate.
Qed.

(** The stand-ins of [Sample] meet the shape contract of [GraphBuilder]. *)
Lemma sample_graph_shapes : GraphBuilderShapes Sample.collaborators.
Proof.
  split; simpl.
  - intros coords thr. unfold Sample.planar_adjacent, Sample.square, len. simpl.
    rewrite length_fmap, length_seq. auto.
  - intros series thr. unfold Sample.covariance_adjacent, Sample.square, len. simpl.
    rewrite length_fmap, length_seq. auto.
  - intros counts thr. unfold Sample.threshold_adjacent, len. simpl.
    rewrite length_fmap. auto.
  - intros am. unfold Sample.degree_laplacian, len. simpl.
    rewrite length_imap. auto.
Qed.


Lemma expand_test_sample :
  exists l, init Sample.config Sample.data = Ok l /\
            len (test_data l) = 5%nat /\
            expansion Sample.config (daily_slots l) = Ok 2 /\
            ST_MoveSample.max_lookback
              (st_move_sample Sample.config (daily_slots l)) = 2.
Proof.
  run_init Sample.config Sample.data l E.
  exists l. split; [exact E|].
  let r := returned (resolve Sample.config Sample.data) in
  let x := returned (external_features Sample.config Sample.data r) in
  let p := returned (split_partitions Sample.config r x) in
  destruct (expand_test_borrows_lookback Sample.config Sample.data l r x p E)
    as (lookback & te & Hlook & _ & Hrows & Hmax);
    [ vm_compute; reflexivity | vm_compute; reflexivity | vm_compute; reflexivity | ].
  vm_compute in Hlook. injection Hlook as <-.
  destruct Hrows as (_ & Hlen & _); [vm_compute; discriminate|].
  split; [apply Nat2Z.inj; rewrite Hlen; vm_compute; reflexivity|].
  split; vm_compute; reflexivity.
Defined.

Lemma external_features_resliced_sample :
  exists l, init Sample.config Sample.data = Ok l /\
            len (train_ef l) = train_sequence_len l /\
            train_sequence_len l = 7%nat /\
            len (test_ef l) = test_sequence_len l /\
            test_sequence_len l = 3%nat.
Proof.
  run_init Sample.config Sample.data l E.
  exists l. split; [exact E|].
  let r := returned (resolve Sample.config Sample.data) in
  let x := returned (external_features Sample.config Sample.data r) in
  destruct (external_features_resliced Sample.config Sample.data l r x E)
    as (H1 & H2 & _ & _);
    [ vm_compute; reflexivity | vm_compute; reflexivity | vm_compute; lia
    | vm_compute; reflexivity | vm_compute; split; discriminate | ].
  split; [exact H1|]. split; [reflexivity|]. split; [exact H2 | reflexivity].
Defined.

(** C4, as stated, fails: the two sample datasets differ in one traffic
    value of the last slot, a slot of the test partition, and the
    normalised train data are not the same. *)
Lemma test_values_reach_train_data :
  exists l1 l2,
    init Sample.config Sample.data = Ok l1 /\
    init Sample.config Sample.data_late = Ok l2 /\
    normalize Sample.config = true /\
    same_outside_test Sample.config Sample.data Sample.data_late /\
    train_data l1 <> train_data l2.
Proof.
  run_init Sample.config Sample.data l E.
  run_init Sample.config Sample.data_late l' E'.
  exists l, l'. split; [exact E|]. split; [exact E'|].
  split; [reflexivity|].
  split; [repeat split; vm_compute; reflexivity|]. discriminate.
Qed.

Lemma train_data_independent_of_test_values_sample :
  exists l1 l2,
    init Sample.config Sample.data = Ok l1 /\
    init Sample.config Sample.data_busy = Ok l2 /\
    test_data l1 <> test_data l2 /\
    train_data l1 = train_data l2 /\
    normalizer l1 = normalizer l2.
Proof.
  run_init Sample.config Sample.data l E.
  run_init Sample.config Sample.data_busy l' E'.
  exists l, l'. split; [exact E|]. split; [exact E'|].
  destruct (train_data_independent_of_test_values
              Sample.config Sample.data Sample.data_busy l l' E E')
    as (H1 & H2 & _).
  - repeat split; vm_compute; reflexivity.
  - reflexivity.
  - split; [discriminate | split; assumption].
Defined.

(** C5, as stated, fails: with the graph ['Neighbor'] the Laplacian in
    [LM] has the shape of the supplied adjacency matrix, here [[3, 3]],
    while two stations are kept. *)
Lemma neighbor_laplacian_keeps_raw_shape :
  exists l lm,
    init Sample.config_neighbor Sample.data = Ok l /\
    LM l = [lm] /\
    station_number l = 2%nat /\
    len lm = 3%nat /\ shape1 lm = 3%nat.
Proof.
  run_init Sample.config_neighbor Sample.data l E.
  exists l. eexists. split; [exact E|]. repeat split.
Qed.

Lemma laplacians_of_loader_sample :
  exists l, init Sample.config Sample.data = Ok l /\
            length (LM l) = 2%nat /\
            Forall (is_square (station_number l)) (LM l).
Proof.
  run_init Sample.config Sample.data l E.
  exists l. split; [exact E|].
  pose proof (@laplacians_of_loader Sample.collaborators sample_graph_shapes
                Sample.config Sample.data l E) as H.
  assert (Hg : forall name, name ∈ split_dash (graph Sample.config) ->
                            over_kept_nodes name = true).
  { intros name Hin. vm_compute in Hin.
    apply elem_of_cons in Hin as [->|Hin]; [reflexivity|].
    apply elem_of_cons in Hin as [->|Hin]; [reflexivity|].
    inversion Hin. }
  split; [reflexivity|].
  eapply Forall_impl; [exact H|].
  intros lm (name & am & Hin & _ & Hsq & _). apply Hsq, Hg, Hin.
Defined.

Lemma make_concat_layout_sample :
  exists l h,
    init Sample.config Sample.data = Ok l /\
    make_concat l NodeAll true = Ok h /\
    length h = length (train_y l) /\
    cell h 0 1 2 = (fun v => [v]) <$> last_channel (train_period l) 0 1 0.
Proof.
  run_init Sample.config Sample.data l E.
  destruct (make_concat_layout Sample.config Sample.data l NodeAll true E I)
    as (h & Eh & (Hlen & _) & Hcells).
  exists l, h. split; [exact E|]. split; [exact Eh|].
  split; [exact Hlen|].
  destruct (Hcells 0%nat 1%nat 1%nat 0%nat) as (_ & Hp & _);
    [vm_compute; lia | reflexivity |].
  apply Hp. vm_compute. reflexivity.
Defined.

Lemma test_ratio_guard_sample :
  init Sample.config_ratio_above_one Sample.data
  = Raise (ValueError "test_ratio ").
Proof.
  let r := returned (resolve Sample.config_ratio_above_one Sample.data) in
  let x := returned (external_features Sample.config_ratio_above_one Sample.data r) in
  destruct (test_ratio_guard Sample.config_ratio_above_one Sample.data r x)
    as ([_ H] & _ & _);
    [ vm_compute; reflexivity | vm_compute; reflexivity | ].
  apply H. right. vm_compute. reflexivity.
Defined.

Lemma external_features_need_lstm_len_sample :
  completes (init Sample.config Sample.data) = true /\
  init Sample.config_no_lstm Sample.data = Raise TypeError.
Proof.
  split; [vm_compute; reflexivity|].
  let r := returned (resolve (with_external_lstm_len Sample.config_no_lstm (Some 1))
                             Sample.data) in
  let x := returned (external_features
                       (with_external_lstm_len Sample.config_no_lstm (Some 1))
                       Sample.data r) in
  destruct (external_features_need_lstm_len Sample.config_no_lstm Sample.data r x)
    as [_ H];
    [ vm_compute; reflexivity | vm_compute; reflexivity | vm_compute; lia
    | simpl; lia | ].
  apply H. vm_compute. reflexivity.
Defined.

(** The construction with [train_data_length = '0'] on the sample
    dataset: all nine rows of the train partition are kept. *)
Lemma zero_days_sample :
  exists l,
    init (with_train_data_length Sample.config (LengthDays 0)) Sample.data = Ok l /\
    len (train_data l) = 9%nat.
Proof.
  run_init (with_train_data_length Sample.config (LengthDays 0)) Sample.data l E.
  exists l. split; [exact E | reflexivity].
Qed.

Lemma train_data_length_truncates_sample :
  exists l, init (with_train_data_length Sample.config (LengthDays 2)) Sample.data = Ok l /\
            len (train_data l) = 4%nat /\ len (train_ef l) = 2%nat.
Proof.
  run_init (with_train_data_length Sample.config (LengthDays 2)) Sample.data l E.
  exists l. split; [exact E|].
  let r := returned (resolve (with_train_data_length Sample.config (LengthDays 2))
                             Sample.data) in
  let x := returned (external_features
                       (with_train_data_length Sample.config (LengthDays 2))
                       Sample.data r) in
  let p := returned (split_partitions
                       (with_train_data_length Sample.config (LengthDays 2)) r x) in
  destruct (train_data_length_truncates
              (with_train_data_length Sample.config (LengthDays 2)) r x p)
    as (tr & te & etr & ete & _ & _ & _ & _ & _ & Hd);
    [vm_compute; reflexivity|].
  destruct (Hd 2 eq_refl) as (k & Hk & _).
  split; reflexivity.
Defined.

(** C1, as stated, fails: with slots of eighteen hours and three weeks
    of trend, [daily_slots * 7 * trend_len] is 28 and the train partition
    has 30 rows, but the float product [1.3333333333333333 * 7 * 3] is
    [27.999999999999996], so the test partition borrows 27 rows; the
    sampler, which strides by whole slots, looks back 21. *)
Lemma lookback_differs_from_max_lookback :
  exists l,
    init SampleLookback.config SampleLookback.data = Ok l /\
    len (train_data l) = 30%nat /\
    ((1440 # 1080) * (7 # 1) * inject_Z (trend_len SampleLookback.config) == 28 # 1)%Q /\
    expansion SampleLookback.config (daily_slots l) = Ok 27 /\
    len (test_data l) = (10 + 27)%nat /\
    ST_MoveSample.max_lookback (st_move_sample SampleLookback.config (daily_slots l))
    = 21.
Proof.
  run_init SampleLookback.config SampleLookback.data l E.
  exists l. split; [exact E|].
  repeat (split; [vm_compute; reflexivity|]). vm_compute. reflexivity.
Qed.

(** C3, as stated, fails: with a weather table two slots shorter than
    the traffic series the construction completes, and the test set
    retains two rows of external features for three samples. *)
Lemma short_weather_table_breaks_reslice :
  exists l,
    init SampleLookback.config_weather SampleLookback.data_short_weather = Ok l /\
    (0 < external_dim l)%nat /\
    len (test_ef l) = 2%nat /\
    test_sequence_len l = 3%nat /\
    test_sequence_len l
    = sequence_len (test_closeness l) (test_period l) (test_trend l).
Proof.
  run_init SampleLookback.config_weather SampleLookback.data_short_weather l E.
  exists l. split; [exact E|].
  split; [vm_compute; lia|].
  repeat (split; [vm_compute; reflexivity|]). vm_compute. reflexivity.
Qed.

(** The node filter follows the floats: a station with eleven rides in
    288 slots of 55 minutes has a mean of [11 / 288] rides a slot, which
    times [1440 / 55] slots a day is one exactly, but in binary64 the
    product is [1.0000000000000002] and the station is kept. *)
Lemma node_at_the_threshold_is_kept :
  (Sample.column_mean SampleLookback.traffic_threshold 0 * (1440 # 55) == 1)%Q /\
  exists slots,
    compute_daily_slots SampleLookback.data_threshold = Ok slots /\
    @compute_traffic_data_index Sample.collaborators
      SampleLookback.data_threshold slots = [0%nat].
Proof.
  split; [vm_compute; reflexivity|].
  eexists. split; [vm_compute; reflexivity|]. vm_compute. reflexivity.
Qed.

(** * Further properties of the loader *)

Section LoaderAttributes.

Context {C : Collaborators}.

(** ** The POI feature *)

Lemma py_index_nat {A} (l : list A) (n : nat) (x : A) :
  py_index l (Z.of_nat n) = Ok x -> l !! n = Some x.
Proof.
  unfold py_index. destruct (Z.ltb_spec (Z.of_nat n) 0); [lia|].
  destruct (_ && _); [|discriminate].
  rewrite Nat2Z.id. destruct (l !! n); [|discriminate]. congruence.
Qed.

Lemma take_rows_lookup (idx : list nat) (a b : ndarray) (j n : nat) :
  take_rows (Z.of_nat <$> idx) a = Ok b -> idx !! j = Some n ->
  exists row, rows b !! j = Some row /\ rows a !! n = Some row.
Proof.
  unfold take_rows. intros H Hj. inv_run H. injection H as <-. simpl.
  apply mapM_Ok in E.
  destruct (Forall2_lookup_l _ _ _ j (Z.of_nat n) E) as (row & Hrow & Hix).
  { rewrite list_lookup_fmap, Hj. reflexivity. }
  exists row. split; [exact Hrow | apply py_index_nat, Hix].
Qed.

(** X2.  When ["poi"] occurs in [external_use], a completed construction
    has read the POI table, kept the rows of the kept nodes in the order
    of [traffic_data_index], and repeated the result once per train
    sample and once per test sample; [poi_dim] is the width of the table.
    Otherwise the three POI attributes are [None]. *)
Theorem poi_feature_reindexed (cfg : Config C) (ds : DataSet) (l : Loader) :
  init cfg ds = Ok l ->
  if str_in "poi" (external_use cfg) then
    exists raw poi,
      poi_pickle ds = Some raw /\
      take_rows (Z.of_nat <$> traffic_data_index l) raw = Ok poi /\
      poi_feature_train l = Some (replicate (train_sequence_len l) poi) /\
      poi_feature_test l = Some (replicate (test_sequence_len l) poi) /\
      poi_dim l = Some (shape1 raw) /\
      len poi = length (traffic_data_index l) /\
      forall j n, traffic_data_index l !! j = Some n ->
        exists row, rows poi !! j = Some row /\ rows raw !! n = Some row
  else
    poi_feature_train l = None /\ poi_feature_test l = None /\ poi_dim l = None.
Proof.
  unfold init. intros H. inv_run H.
  apply attach_graphs_inv in H as (am & lm & ->). simpl.
  unfold load_poi in E5.
  destruct (str_in "poi" (external_use cfg)).
  - destruct (poi_pickle ds) as [raw|]; [|discriminate].
    rewrite bind_Ok_l in E5.
    destruct (take_rows (Z.of_nat <$> r_index a) raw) as [poi|] eqn:Ep;
      [|discriminate].
    rewrite bind_Ok_l in E5. injection E5 as <-. simpl.
    exists raw, poi. split; [reflexivity|]. split; [exact Ep|].
    split; [reflexivity|]. split; [reflexivity|].
    pose proof (take_rows_shape _ _ _ Ep) as [Hlen Hs].
    rewrite length_fmap in Hlen.
    split; [congruence|]. split; [exact Hlen|].
    intros j k Hj. eapply take_rows_lookup; eassumption.
  - injection E5 as <-. simpl. auto.
Qed.

(** ** The graphs *)

Lemma build_graph_outputs (l : Loader) (graph_name : string)
                          (am lm : option ndarray) :
  build_graph l graph_name = Ok (am, lm) ->
  (if has_laplacian graph_name then is_Some lm else lm = None) /\
  (if has_adjacency graph_name then is_Some am else am = None).
Proof.
  unfold build_graph, has_laplacian, has_adjacency. cbv zeta.
  set (name := lower graph_name).
  destruct (String.eqb_spec name "distance") as [->|_].
  { intros H. inv_run H. injection H as <- <-. simpl. eauto. }
  destruct (String.eqb_spec name "interaction") as [->|_].
  { intros H. inv_run H.
    destruct a0 as [|monthly [|rest [|]]]; try discriminate H.
    injection H as <- <-. simpl. eauto. }
  destruct (String.eqb_spec name "correlation") as [->|_].
  { intros [= <- <-]. simpl. eauto. }
  destruct (String.eqb_spec name "neighbor") as [->|_].
  { intros [= <- <-]. simpl. eauto. }
  destruct (String.eqb_spec name "line") as [->|_].
  { intros H. inv_run H. injection H as <- <-. simpl. eauto. }
  destruct (String.eqb_spec name "transfer") as [->|_].
  { intros [= <- <-]. simpl. eauto. }
  intros [= <- <-]. simpl. auto.
Qed.

Lemma build_graphs_follow (l : Loader) (names : list string)
                          (am lm am' lm' : list ndarray) :
  build_graphs l names am lm = Ok (am', lm') ->
  exists new_am new_lm,
    am' = am ++ new_am /\ lm' = lm ++ new_lm /\
    Forall2 (fun name m => exists a, build_graph l name = Ok (a, Some m))
            (filter (fun name => has_laplacian name = true) names) new_lm /\
    Forall2 (fun name a => exists m, build_graph l name = Ok (Some a, m))
            (filter (fun name => has_adjacency name = true) names) new_am.
Proof.
  revert am lm. induction names as [|name names IH]; intros am lm H; simpl in H.
  - injection H as <- <-. exists [], []. rewrite !app_nil_r.
    repeat split; constructor.
  - inv_run H. apply IH in H as (na & nl & -> & -> & Hl & Ha).
    destruct (build_graph_outputs _ _ _ _ E) as [Hlm Ham].
    rewrite !filter_cons.
    exists (match o with Some a => a :: na | None => na end),
           (match o0 with Some m => m :: nl | None => nl end).
    split; [destruct o; [rewrite <- app_assoc|]; reflexivity|].
    split; [destruct o0; [rewrite <- app_assoc|]; reflexivity|].
    split.
    + destruct (has_laplacian name).
      * destruct Hlm as [m ->]. rewrite decide_True by reflexivity.
        constructor; [eauto | exact Hl].
      * subst o0. rewrite decide_False by discriminate. exact Hl.
    + destruct (has_adjacency name).
      * destruct Ham as [a' ->]. rewrite decide_True by reflexivity.
        constructor; [eauto | exact Ha].
      * subst o. rewrite decide_False by discriminate. exact Ha.
Qed.

(** X5.  With [with_lm] set, [LM] holds one Laplacian for every name of
    [graph] that is, in lower case, one of the six graph types, in the
    order of the names, each the one [build_graph] returns for its name;
    [AM] holds the adjacency matrices of the names Distance, Interaction
    and Correlation in the same way.  Any other name adds nothing to
    either list.  The Laplacians are stacked in one array (line 375), so
    that in a completed construction they all have the same shape. *)
Theorem graphs_follow_names (cfg : Config C) (ds : DataSet) (l : Loader) :
  init cfg ds = Ok l -> with_lm cfg = true ->
  Forall2 (fun name m => exists a, build_graph l name = Ok (a, Some m))
          (filter (fun name => has_laplacian name = true) (split_dash (graph cfg)))
          (LM l) /\
  Forall2 (fun name a => exists m, build_graph l name = Ok (Some a, m))
          (filter (fun name => has_adjacency name = true) (split_dash (graph cfg)))
          (AM l) /\
  length (LM l)
  = length (filter (fun name => has_laplacian name = true) (split_dash (graph cfg))) /\
  (forall m m', m ∈ LM l -> m' ∈ LM l -> len m = len m' /\ shape1 m = shape1 m').
Proof.
  intros H Hlm. destruct (init_phases _ _ _ H). clear ph_tpe.
  destruct ph_fresh as [Ham0 Hlm0].
  unfold attach_graphs in ph_graphs. rewrite Hlm in ph_graphs.
  inv_run ph_graphs. injection ph_graphs as <-.
  apply np_array_inv in E0 as [-> Hshape].
  apply build_graphs_follow in E as (na & nl & -> & -> & Hl & Ha). simpl.
  assert (G : Forall2 (fun name m => exists a, build_graph ph_loader name = Ok (a, Some m))
                (filter (fun name => has_laplacian name = true) (split_dash (graph cfg)))
                nl) by exact Hl.
  split; [exact Hl|]. split; [exact Ha|].
  split; [symmetry; eapply Forall2_length; exact G|].
  exact Hshape.
Qed.

(** ** The width of the external features *)

Lemma concat_columns_shape (blocks : list ndarray) (ef : ndarray) :
  concat_columns blocks = Ok ef -> shape1 ef = sum_list (shape1 <$> blocks).
Proof.
  destruct blocks as [|b bs]; [discriminate|]. unfold concat_columns.
  destruct (forallb _ bs); [|discriminate]. intros [= <-]. simpl.
  clear. revert b. induction bs as [|c bs IH]; intros b; simpl; [lia|].
  rewrite IH. simpl. lia.
Qed.

Lemma sum_list_append (l k : list nat) :
  sum_list (l ++ k) = (sum_list l + sum_list k)%nat.
Proof. induction l as [|a l IH]; simpl; [reflexivity | rewrite IH; lia]. Qed.

Lemma sum_onehot_dims (wb hb tb : list ndarray) :
  sum_list (onehot_dims wb hb tb) = sum_list (shape1 <$> (wb ++ hb ++ tb)).
Proof.
  unfold onehot_dims. rewrite !fmap_app, !sum_list_append.
  destruct tb; simpl; lia.
Qed.

Lemma external_features_dims (cfg : Config C) (ds : DataSet)
                             (r : Resolved) (x : External) :
  external_features cfg ds r = Ok x ->
  shape1 (x_feature x) = x_dim x /\
  match x_onehot_dim x with
  | Some dims => x_dim x = sum_list dims
  | None => x_dim x = 0%nat
  end.
Proof.
  unfold external_features. intros H. inv_run H.
  destruct (0 <? length _)%nat.
  - inv_run H. injection H as <-. simpl. split; [reflexivity|].
    rewrite sum_onehot_dims. apply concat_columns_shape. assumption.
  - injection H as <-. simpl. auto.
Qed.

Lemma no_blocks_iff (cfg : Config C) (ds : DataSet) (r : Resolved)
                     (hb tb : list ndarray) :
  holiday_blocks cfg ds r = Ok hb -> tp_blocks cfg ds r = Ok tb ->
  (weather_blocks cfg ds r ++ hb ++ tb = [] <->
   (0 <? len (external_feature_weather ds))%nat
     && str_in "weather" (external_use cfg) = false /\
   str_in "holiday" (external_use cfg) = false /\
   str_in "tp" (external_use cfg) = false).
Proof.
  unfold weather_blocks, holiday_blocks, tp_blocks. intros Hh Ht.
  destruct (_ && _);
    destruct (str_in "holiday" (external_use cfg));
    destruct (str_in "tp" (external_use cfg));
    repeat match type of Hh with
           | (if ?b then _ else _) = _ => destruct b
           end;
    repeat match type of Ht with
           | (if ?b then _ else _) = _ => destruct b
           end;
    inv_run Hh; inv_run Ht;
    try (injection Hh as <-); try (injection Ht as <-);
    simpl; split; try discriminate; try tauto;
    intros (? & ? & ?); discriminate.
Qed.

(** X6.  The matrix of external features that lines 134-215 assemble
    has [external_dim] columns.  When a feature is in use, the entries of
    [external_onehot_dim] (one for the weather block, one for the holiday
    block, one for the hour and weekday blocks together) add up to
    [external_dim]; [external_onehot_dim] is left unset exactly when no
    weather table is in use and neither ['holiday'] nor ['tp'] occurs in
    [external_use], and then the matrix is empty and [external_dim] is
    zero.  A completed construction has these values as its attributes,
    and its [train_ef] and [test_ef] have [external_dim] columns. *)
Theorem external_dim_is_sum (cfg : Config C) (ds : DataSet)
                            (r : Resolved) (x : External) :
  external_features cfg ds r = Ok x ->
  shape1 (x_feature x) = x_dim x /\
  match x_onehot_dim x with
  | Some dims => x_dim x = sum_list dims
  | None => x_dim x = 0%nat /\ x_feature x = empty_array
  end /\
  (x_onehot_dim x = None <->
   (0 <? len (external_feature_weather ds))%nat
     && str_in "weather" (external_use cfg) = false /\
   str_in "holiday" (external_use cfg) = false /\
   str_in "tp" (external_use cfg) = false) /\
  forall l,
    resolve cfg ds = Ok r -> init cfg ds = Ok l ->
    external_dim l = x_dim x /\ external_onehot_dim l = x_onehot_dim x /\
    shape1 (train_ef l) = x_dim x /\ shape1 (test_ef l) = x_dim x.
Proof.
  intros Hx.
  destruct (external_features_dims _ _ _ _ Hx) as [Hd Hs].
  split; [exact Hd|]. split; [|split].
  - unfold external_features in Hx. inv_run Hx.
    destruct (0 <? length _)%nat.
    + inv_run Hx. injection Hx as <-. simpl.
      rewrite sum_onehot_dims. apply concat_columns_shape. assumption.
    + injection Hx as <-. simpl. auto.
  - pose proof Hx as Hx'. unfold external_features in Hx'. inv_run Hx'.
    pose proof (no_blocks_iff cfg ds r _ _ E E0) as Hiff.
    rewrite <- Hiff.
    destruct (weather_blocks cfg ds r ++ a ++ a0) as [|b bs]; simpl in Hx'.
    + injection Hx' as <-. simpl. tauto.
    + fold (concat_columns (b :: bs)) in Hx'. inv_run Hx'.
      injection Hx' as <-. simpl. split; discriminate.
  - intros l Hr H. destruct (init_phases _ _ _ H). clear ph_tpe.
    rewrite Hr in ph_resolve. injection ph_resolve as <-.
    rewrite Hx in ph_external_features. injection ph_external_features as <-.
    destruct (split_partitions_shapes _ _ _ _ ph_split) as (_ & _ & _ & H1 & H2 & _).
    destruct (expand_test_inv _ _ _ _ _ ph_expand) as (start & _ & _ & H3 & _).
    assert (Hw : shape1 (w_train_ef ph_external_windows) = shape1 (p_train_ef ph_parts) /\
                 shape1 (w_test_ef ph_external_windows) = shape1 ph_test_ef).
    { unfold external_windows in ph_sample_external.
      destruct (0 <? len _)%nat.
      - inv_run ph_sample_external. injection ph_sample_external as <-. simpl. auto.
      - injection ph_sample_external as <-. simpl. auto. }
    destruct Hw as [Hw1 Hw2].
    assert (Hl : external_dim l = x_dim x /\
                 external_onehot_dim l = x_onehot_dim x).
    { clear -H Hx Hr. unfold init in H.
      rewrite Hr, bind_Ok_l, Hx, bind_Ok_l in H.
      inv_run H. apply attach_graphs_inv in H as (am & lm & ->). simpl. auto. }
    destruct Hl as [-> ->].
    rewrite ph_train_ef, ph_test_ef_eq, Hw1, Hw2, H3, H1.
    repeat split; assumption.
Qed.

(** ** A train set shorter than the lookback *)

Lemma py_slice_from_negative {A} (l : list A) (i : Z) :
  i < 0 -> py_slice (Some i) None l = lastn (Z.to_nat (- i)) l.
Proof.
  intros Hi. replace i with (- - i) at 1 by lia. apply py_slice_last. lia.
Qed.

(** X7.  When the train partition, after its truncation, has fewer rows
    than the lookback [max(int(daily_slots * period_len),
    int(daily_slots * 7 * trend_len), closeness_len)], whose products are
    those of binary64, the start index of the expansion is negative and
    counts from the end: the test set is preceded by the last
    [lookback - len(train_data)] train rows only (by all of them when
    there are not so many), so it grows by fewer rows than the lookback. *)
Theorem expand_test_short_train
    (cfg : Config C) (ds : DataSet) (l : Loader)
    (r : Resolved) (x : External) (p : Parts) (lookback : Z) :
  init cfg ds = Ok l ->
  resolve cfg ds = Ok r ->
  external_features cfg ds r = Ok x ->
  split_partitions cfg r x = Ok p ->
  expansion cfg (r_daily_slots r) = Ok lookback ->
  Z.of_nat (len (p_train_data p)) < lookback ->
  let missing := lookback - Z.of_nat (len (p_train_data p)) in
  rows (test_data l)
  = lastn (Z.to_nat missing) (rows (p_train_data p)) ++ rows (p_test_data p) /\
  Z.of_nat (len (test_data l))
  = Z.min missing (Z.of_nat (len (p_train_data p))) + Z.of_nat (len (p_test_data p)) /\
  Z.of_nat (len (test_data l))
  < Z.of_nat (len (p_test_data p)) + lookback.
Proof.
  intros H Hr Hx Hp Hlook Hshort missing.
  destruct (init_phases _ _ _ H). clear ph_tpe.
  rewrite Hr in ph_resolve. injection ph_resolve as <-.
  rewrite Hx in ph_external_features. injection ph_external_features as <-.
  rewrite Hp in ph_split. injection ph_split as <-.
  destruct (expand_test_inv _ _ _ _ _ ph_expand) as (start & Hstart & _ & _ & Htd & _).
  unfold expand_start_index in Hstart. rewrite Hlook, bind_Ok_l in Hstart.
  injection Hstart as <-.
  rewrite py_slice_from_negative in Htd by lia.
  replace (- (Z.of_nat (len (p_train_data p)) - lookback))
    with missing in Htd by (unfold missing; lia).
  rewrite ph_test_data_eq.
  assert (Hlen : Z.of_nat (len ph_test_data)
                 = Z.min missing (Z.of_nat (len (p_train_data p)))
                   + Z.of_nat (len (p_test_data p))).
  { unfold len at 1. rewrite Htd, length_app, length_lastn. unfold len. lia. }
  split; [exact Htd|]. split; [exact Hlen|]. unfold missing in *. lia.
Qed.

(** ** The time position embeddings *)

Lemma py_int_daily_slots (ds : DataSet) (slots : Q) :
  compute_daily_slots ds = Ok slots -> 0 < time_fitness ds -> 0 <= py_int slots.
Proof.
  intros [_ ->]%compute_daily_slots_inv Htf.
  assert (Hq : (0 <= Float.double ((1440 # 1) / inject_Z (time_fitness ds)))%Q).
  { apply double_nonneg.
    apply Qle_shift_div_l; [|rewrite Qmult_0_l; discriminate].
    unfold Qlt. simpl. lia. }
  unfold py_int. unfold Qle in Hq. simpl in Hq.
  apply Z.quot_pos; lia.
Qed.

Lemma py_range_positions (n d start stop : Z) :
  0 <= n -> 0 < d -> start = d -> stop = n * d + 1 ->
  exists v, py_range start stop d = Ok v /\ inject_Z <$> v = positions n d.
Proof.
  intros Hn Hd -> ->. unfold py_range.
  destruct (Z.eqb_spec d 0); [lia|]. destruct (Z.ltb_spec 0 d); [|lia].
  eexists. split; [reflexivity|].
  replace ((n * d + 1 - d + d - 1) / d) with n
    by (replace (n * d + 1 - d + d - 1) with (n * d) by lia;
        symmetry; apply Z.div_mul; lia).
  unfold positions. rewrite <- list_fmap_compose.
  apply list_fmap_ext. intros _ k _. simpl. f_equal. lia.
Qed.

Lemma cell_concat_channels (a b : windows) (r n k : nat) (ch : list Q) :
  cell (concat_channels a b) r n k = Some ch ->
  exists ch0 ch1, cell a r n k = Some ch0 /\ cell b r n k = Some ch1 /\
                  ch = ch0 ++ ch1.
Proof.
  unfold cell, concat_channels. rewrite lookup_zip_with.
  destruct (a !! r) as [ra|]; [|discriminate]. simpl.
  destruct (b !! r) as [rb|]; [|discriminate]. simpl.
  rewrite lookup_zip_with.
  destruct (ra !! n) as [na|]; [|discriminate]. simpl.
  destruct (rb !! n) as [nb|]; [|discriminate]. simpl.
  rewrite lookup_zip_with.
  destruct (na !! k) as [ch0|]; [|discriminate]. simpl.
  destruct (nb !! k) as [ch1|]; [|discriminate]. simpl.
  intros [= <-]. eauto.
Qed.

Lemma cell_tile (v : list Q) (R N r n k : nat) (ch : list Q) :
  cell (tile v R N) r n k = Some ch -> exists x, v !! k = Some x /\ ch = [x].
Proof.
  unfold cell, tile.
  destruct (replicate R _ !! r) as [row|] eqn:Hr; [|discriminate].
  apply lookup_replicate in Hr as [-> _]. simpl.
  destruct (replicate N _ !! n) as [nd|] eqn:Hn; [|discriminate].
  apply lookup_replicate in Hn as [-> _]. simpl.
  rewrite list_lookup_fmap. destruct (v !! k) as [x|]; [|discriminate].
  simpl. intros [= <-]. eauto.
Qed.

Lemma concatenate_last_tile (a w : windows) (v : list Q) (R N : nat) :
  concatenate_last a (tile v R N) = Ok w -> with_position v a w.
Proof.
  unfold concatenate_last. destruct (same_dims _ _); [|discriminate].
  intros [= <-] r n k ch Hch.
  apply cell_concat_channels in Hch as (ch0 & ch1 & H0 & H1 & ->).
  apply cell_tile in H1 as (x & Hx & ->). eauto.
Qed.

(** What a completed construction with [with_tpe] says about the
    windows: those of the sampler, and those of the loader. *)
Lemma init_tpe (cfg : Config C) (ds : DataSet) (l : Loader) :
  init cfg ds = Ok l -> with_tpe cfg = true ->
  exists trc trp trt tec tep tet e,
    compute_daily_slots ds = Ok (daily_slots l) /\
    ST_MoveSample.move_sample (st_move_sample cfg (daily_slots l)) (train_data l)
    = Ok (trc, trp, trt, train_y l) /\
    ST_MoveSample.move_sample (st_move_sample cfg (daily_slots l)) (test_data l)
    = Ok (tec, tep, tet, test_y l) /\
    time_position cfg (daily_slots l) (traffic_data_index l)
                  trc trp trt tec tep tet
    = Ok (e, (train_closeness l, train_period l, train_trend l),
             (test_closeness l, test_period l, test_trend l)) /\
    tpe l = Some e /\ tpe_dim l = Some 1%nat.
Proof.
  unfold init. intros H Htpe. inv_run H. rewrite Htpe in E7. inv_run E7.
  inversion E7; subst; clear E7.
  apply attach_graphs_inv in H as (am & lm & ->). simpl.
  apply resolve_inv in E as (Hs & _).
  do 7 eexists. repeat split; eassumption.
Qed.

(** The embeddings [time_position] computes, for at least one slot a
    day. *)
Lemma time_position_inv (cfg : Config C) (slots : Q) (idx : list nat)
                        (trc trp trt tec tep tet : windows) (e : TPE)
                        (tr te : windows * windows * windows) :
  0 <= closeness_len cfg -> 0 <= period_len cfg -> 0 <= trend_len cfg ->
  0 <= py_int slots ->
  time_position cfg slots idx trc trp trt tec tep tet = Ok (e, tr, te) ->
  1 <= py_int slots /\
  closeness_tpe e = positions (closeness_len cfg) 1 /\
  period_tpe e = positions (period_len cfg) (py_int slots) /\
  trend_tpe e = positions (trend_len cfg) (7 * py_int slots) /\
  (with_position (closeness_tpe e) trc tr.1.1 /\
   with_position (period_tpe e) trp tr.1.2 /\
   with_position (trend_tpe e) trt tr.2) /\
  (with_position (closeness_tpe e) tec te.1.1 /\
   with_position (period_tpe e) tep te.1.2 /\
   with_position (trend_tpe e) tet te.2).
Proof.
  intros Hc Hp Ht Hd0. unfold time_position. cbv zeta.
  set (d := py_int slots) in *.
  destruct (Z.eq_dec d 0) as [Hz|Hnz].
  { rewrite Hz. unfold py_range at 2. simpl.
    destruct (py_range 1 (closeness_len cfg + 1) 1); discriminate. }
  assert (Hd : 0 < d) by lia.
  destruct (py_range_positions (closeness_len cfg) 1 1 (closeness_len cfg + 1))
    as (vc & Ec & Hvc); try lia.
  destruct (py_range_positions (period_len cfg) d (1 * d) (period_len cfg * d + 1))
    as (vp & Ep & Hvp); try lia.
  destruct (py_range_positions (trend_len cfg) (d * 7) (1 * d * 7)
                               (trend_len cfg * d * 7 + 1))
    as (vt & Et & Hvt); try lia.
  replace (d * 7) with (7 * d) in Hvt by lia.
  rewrite Ec, bind_Ok_l, Ep, bind_Ok_l, Et, bind_Ok_l. cbn [closeness_tpe
    period_tpe trend_tpe train_closeness_tpe train_period_tpe train_trend_tpe
    test_closeness_tpe test_period_tpe test_trend_tpe].
  rewrite Hvc, Hvp, Hvt.
  intros H. inv_run H. injection H as <- <- <-. simpl.
  split; [lia|]. do 3 (split; [reflexivity|]).
  split; (split; [|split]); eapply concatenate_last_tile; eassumption.
Qed.

(** X3.  In a completed construction with [with_tpe] set and a positive
    [time_fitness], a day has at least one whole slot ([d =
    int(daily_slots) >= 1]); the embeddings are [1 .. closeness_len],
    [d, 2d, .. period_len * d] and [7d, 14d, .. trend_len * 7d];
    [tpe_dim] is one; and every cell of the six windowed arrays is the
    cell of the sampler followed by one more channel, the time position
    of the cell. *)
Theorem time_position_embeddings (cfg : Config C) (ds : DataSet) (l : Loader) :
  init cfg ds = Ok l -> with_tpe cfg = true -> 0 < time_fitness ds ->
  let d := py_int (daily_slots l) in
  1 <= d /\
  exists e trc trp trt tec tep tet,
    tpe l = Some e /\ tpe_dim l = Some 1%nat /\
    closeness_tpe e = positions (closeness_len cfg) 1 /\
    period_tpe e = positions (period_len cfg) d /\
    trend_tpe e = positions (trend_len cfg) (7 * d) /\
    ST_MoveSample.move_sample (st_move_sample cfg (daily_slots l)) (train_data l)
    = Ok (trc, trp, trt, train_y l) /\
    ST_MoveSample.move_sample (st_move_sample cfg (daily_slots l)) (test_data l)
    = Ok (tec, tep, tet, test_y l) /\
    (with_position (closeness_tpe e) trc (train_closeness l) /\
     with_position (period_tpe e) trp (train_period l) /\
     with_position (trend_tpe e) trt (train_trend l)) /\
    (with_position (closeness_tpe e) tec (test_closeness l) /\
     with_position (period_tpe e) tep (test_period l) /\
     with_position (trend_tpe e) tet (test_trend l)).
Proof.
  intros H Htpe Htf d.
  destruct (init_tpe _ _ _ H Htpe)
    as (trc & trp & trt & tec & tep & tet & e & Hs & Htr & Hte & Hpos & He & Hdim).
  destruct (init_resolved _ _ _ H) as (r & Hr & _).
  apply resolve_inv in Hr as (_ & _ & Hc & Hp & Ht & _).
  pose proof (py_int_daily_slots _ _ Hs Htf) as Hd.
  destruct (time_position_inv _ _ _ _ _ _ _ _ _ _ _ _ Hc Hp Ht Hd Hpos)
    as (Hd1 & Ec & Ep & Et & Wtr & Wte).
  split; [exact Hd1|].
  exists e, trc, trp, trt, tec, tep, tet. simpl in Wtr, Wte. auto 12.
Qed.

(** ** [make_concat] on windows that carry their time position *)

Lemma last_channel_position (R N : nat) (K : Z) (v : list Q) (a w : windows)
                            (r n k : nat) :
  well_shaped R N K w -> with_position v a w ->
  (r < R)%nat -> (n < N)%nat -> (k < Z.to_nat K)%nat ->
  last_channel w r n k = v !! k.
Proof.
  intros [->|(_ & HR & Hw)] Hv Hr Hn Hk; [simpl in Hk; lia|].
  destruct (lookup_lt_is_Some_2 w r) as [row Hrow]; [lia|].
  destruct (Hw r row Hrow) as [HN Hnd].
  destruct (lookup_lt_is_Some_2 row n) as [nd Hnd']; [lia|].
  destruct (Hnd n nd Hnd') as [HK _].
  destruct (lookup_lt_is_Some_2 nd k) as [ch Hch]; [lia|].
  assert (Hcell : cell w r n k = Some ch).
  { unfold cell. rewrite Hrow. simpl. rewrite Hnd'. simpl. exact Hch. }
  destruct (Hv r n k ch Hcell) as (ch0 & x & _ & Hx & ->).
  unfold last_channel. rewrite Hcell. simpl. rewrite last_snoc. congruence.
Qed.

Lemma length_positions (n stride : Z) : length (positions n stride) = Z.to_nat n.
Proof. unfold positions. rewrite length_fmap. apply length_seqZ. Qed.

Lemma selected_nodes_lt (N : nat) (node : node_t) (i n : nat) :
  valid_node N node -> selected_nodes N node !! i = Some n -> (n < N)%nat.
Proof.
  destruct node as [|m]; simpl.
  - intros _ [-> ?]%lookup_seq. lia.
  - intros Hm. destruct i; [|discriminate]. intros [= <-].
    unfold node_position. destruct (Z.ltb_spec m 0); lia.
Qed.

(** X4.  On a loader constructed with [with_tpe] set (and a positive
    [time_fitness]), [make_concat] reads the last channel of the windows,
    which is their time position: for every row and every selected node
    the history it returns is [1 .. closeness_len], then [d, 2d, ..
    period_len * d], then [7d, .. trend_len * 7d], with [d =
    int(daily_slots)], and none of the traffic values. *)
Theorem make_concat_returns_positions
    (cfg : Config C) (ds : DataSet) (l : Loader)
    (node : node_t) (is_train : bool) :
  init cfg ds = Ok l -> with_tpe cfg = true -> 0 < time_fitness ds ->
  valid_node (station_number l) node ->
  exists h,
    make_concat l node is_train = Ok h /\
    forall r i k,
      (r < length (if is_train then train_y l else test_y l))%nat ->
      (i < length (selected_nodes (station_number l) node))%nat ->
      (k < Z.to_nat (closeness_len cfg + period_len cfg + trend_len cfg))%nat ->
      cell h r i k
      = (fun x => [x])
          <$> history_positions (closeness_len cfg) (period_len cfg)
                                (trend_len cfg) (py_int (daily_slots l)) !! k.
Proof.
  intros H Htpe Htf Hnode.
  destruct (init_well_shaped _ _ _ H) as ((Hc & Hp & Ht) & Wtr & Wte).
  destruct (init_phases _ _ _ H) as
    [? ? ? ? ? ? ? ? ? _ _ _ _ _ _ _ _ _ _ _ _ (Ec & Ep & Et) _ _ _ _ _ _ _ _ _ _].
  destruct (init_tpe _ _ _ H Htpe)
    as (trc & trp & trt & tec & tep & tet & e & Hs & _ & _ & Hpos & _ & _).
  pose proof (py_int_daily_slots _ _ Hs Htf) as Hd.
  rewrite Ec, Ep, Et in *.
  destruct (time_position_inv _ _ _ _ _ _ _ _ _ _ _ _ Hc Hp Ht Hd Hpos)
    as (_ & Vc & Vp & Vt & Ptr & Pte). simpl in Ptr, Pte.
  rewrite Vc, Vp, Vt in Ptr, Pte.
  set (y := if is_train then train_y l else test_y l).
  set (closeness := if is_train then train_closeness l else test_closeness l).
  set (period := if is_train then train_period l else test_period l).
  set (trend := if is_train then train_trend l else test_trend l).
  set (d := py_int (daily_slots l)) in *.
  assert (Hw : (well_shaped (length y) (station_number l) (closeness_len cfg) closeness /\
                well_shaped (length y) (station_number l) (period_len cfg) period /\
                well_shaped (length y) (station_number l) (trend_len cfg) trend) /\
               exists a b c,
                 with_position (positions (closeness_len cfg) 1) a closeness /\
                 with_position (positions (period_len cfg) d) b period /\
                 with_position (positions (trend_len cfg) (7 * d)) c trend).
  { unfold y, closeness, period, trend. destruct is_train; (split; [assumption|]).
    - exists trc, trp, trt. exact Ptr.
    - exists tec, tep, tet. exact Pte. }
  destruct Hw as ((W1 & W2 & W3) & a & b & c & P1 & P2 & P3).
  destruct (make_concat_spec l node is_train) as (h & E & _ & G);
    rewrite ?Ec, ?Ep, ?Et; try assumption.
  exists h. split; [exact E|].
  intros r i k Hr Hi Hk.
  rewrite Ec, Ep, Et in G. fold y closeness period trend in G.
  rewrite (G r i k Hr Hi Hk). f_equal.
  destruct (lookup_lt_is_Some_2 _ i Hi) as [n Hn].
  pose proof (selected_nodes_lt _ _ _ _ Hnode Hn) as HnN.
  unfold layout. rewrite Hn. simpl. unfold history_positions.
  repeat case_decide.
  - rewrite lookup_app_l by (rewrite length_positions; lia).
    eapply last_channel_position; eauto.
  - rewrite lookup_app_r by (rewrite length_positions; lia).
    rewrite lookup_app_l by (rewrite !length_positions; lia).
    rewrite length_positions.
    eapply last_channel_position; eauto. lia.
  - rewrite lookup_app_r by (rewrite length_positions; lia).
    rewrite lookup_app_r by (rewrite !length_positions; lia).
    rewrite !length_positions.
    eapply last_channel_position; eauto. lia.
  - lia.
Qed.

End LoaderAttributes.

(** ** The errors of the argument checks *)

Create HintDb avoids.

Section ArgumentErrors.

Context {C : Collaborators}.

(** The two errors of the argument checks of lines 104-115. *)
Variable e0 : exn.
Hypothesis argument_error : e0 = ZeroDivisionError \/ e0 = AssertionError.

Lemma avoids_Ok {A} (a : A) : avoids e0 (Ok a).
Proof. intros e. discriminate. Qed.

Lemma avoids_Raise {A} (e : exn) : e <> e0 -> avoids e0 (@Raise A e).
Proof. intros He e' [= <-]. exact He. Qed.

Lemma avoids_bind {A B} (m : result A) (f : A -> result B) :
  avoids e0 m -> (forall a, avoids e0 (f a)) -> avoids e0 (m ≫= f).
Proof.
  intros Hm Hf e. destruct m as [a|e']; simpl.
  - apply Hf.
  - intros [= <-]. apply Hm. reflexivity.
Qed.

Lemma avoids_mapM {A B} (f : A -> result B) (l : list A) :
  (forall a, avoids e0 (f a)) -> avoids e0 (mapM f l).
Proof.
  intros Hf. induction l as [|a l IH]; simpl.
  - apply avoids_Ok.
  - apply avoids_bind; [apply Hf|]. intros b.
    apply avoids_bind; [apply IH|]. intros k. apply avoids_Ok.
Qed.

Lemma avoids_for_each {S A} (xs : list A) (body : A -> S -> result S) (s : S) :
  (forall a s', avoids e0 (body a s')) -> avoids e0 (for_each xs body s).
Proof.
  intros Hb. revert s. induction xs as [|a xs IH]; intros s; simpl.
  - apply avoids_Ok.
  - apply avoids_bind; [apply Hb|]. intros s'. apply IH.
Qed.

(** Decomposes a block into its steps, down to the primitives. *)
Ltac avoid_steps :=
  repeat first
    [ solve [auto with avoids nocore]
    | apply avoids_Ok
    | apply avoids_Raise; destruct argument_error; subst e0; discriminate
    | apply avoids_bind; [|intros]
    | apply avoids_mapM; intros
    | match goal with
      | |- avoids _ (match ?x with _ => _ end) => destruct x
      end ].

Lemma avoids_py_index {A} (l : list A) (i : Z) : avoids e0 (py_index l i).
Proof. unfold py_index. avoid_steps. Qed.
#[local] Hint Resolve avoids_py_index : avoids.

Lemma avoids_take_rows (idx : list Z) (a : ndarray) : avoids e0 (take_rows idx a).
Proof. unfold take_rows. avoid_steps. Qed.
#[local] Hint Resolve avoids_take_rows : avoids.

Lemma avoids_select_columns (idx : list Z) (a : ndarray) :
  avoids e0 (select_columns idx a).
Proof. unfold select_columns. avoid_steps. Qed.
#[local] Hint Resolve avoids_select_columns : avoids.

Lemma avoids_vstack (a b : ndarray) : avoids e0 (vstack a b).
Proof. unfold vstack. avoid_steps. Qed.
#[local] Hint Resolve avoids_vstack : avoids.

Lemma avoids_concat_columns (blocks : list ndarray) :
  avoids e0 (concat_columns blocks).
Proof. unfold concat_columns. avoid_steps. Qed.
#[local] Hint Resolve avoids_concat_columns : avoids.

Lemma avoids_split_data {A} (data : list A) (ratios : list Q) :
  avoids e0 (SplitData.split_data data ratios).
Proof. unfold SplitData.split_data. avoid_steps. Qed.
#[local] Hint Resolve avoids_split_data : avoids.

Lemma avoids_split_array (a : ndarray) (ratios : list Q) :
  avoids e0 (SplitData.split_array a ratios).
Proof. unfold SplitData.split_array. avoid_steps. Qed.
#[local] Hint Resolve avoids_split_array : avoids.

Lemma avoids_checked (x : Q) : avoids e0 (Float.checked x).
Proof. unfold Float.checked. avoid_steps. Qed.
#[local] Hint Resolve avoids_checked : avoids.

Lemma avoids_mul_int (x : Q) (z : Z) : avoids e0 (Float.mul_int x z).
Proof. unfold Float.mul_int, Float.of_int. avoid_steps. Qed.
#[local] Hint Resolve avoids_mul_int : avoids.

Lemma avoids_int_of_product (x : Q) (z : Z) :
  avoids e0 (Float.int_of_product x z).
Proof. unfold Float.int_of_product, Float.to_int. avoid_steps. Qed.
#[local] Hint Resolve avoids_int_of_product : avoids.

Lemma avoids_slot_hours (ds : DataSet) (e : Z) : avoids e0 (slot_hours ds e).
Proof. unfold slot_hours, Float.true_div. avoid_steps. Qed.
#[local] Hint Resolve avoids_slot_hours : avoids.

Lemma avoids_truncate_train (tdl : train_data_length_t) (slots : Q) (a : ndarray) :
  avoids e0 (truncate_train tdl slots a).
Proof. unfold truncate_train. avoid_steps. Qed.
#[local] Hint Resolve avoids_truncate_train : avoids.

Lemma avoids_move_sample (s : ST_MoveSample.t) (a : ndarray) :
  avoids e0 (ST_MoveSample.move_sample s a).
Proof. unfold ST_MoveSample.move_sample. avoid_steps. Qed.
#[local] Hint Resolve avoids_move_sample : avoids.

Lemma avoids_slot_time (ds : DataSet) (h : Q) : avoids e0 (slot_time ds h).
Proof. unfold slot_time. avoid_steps. Qed.
#[local] Hint Resolve avoids_slot_time : avoids.

Lemma avoids_holiday_blocks (cfg : Config C) (ds : DataSet) (r : Resolved) :
  avoids e0 (holiday_blocks cfg ds r).
Proof.
  unfold holiday_blocks, holiday_rows. avoid_steps.
Qed.
#[local] Hint Resolve avoids_holiday_blocks : avoids.

Lemma avoids_tp_blocks (cfg : Config C) (ds : DataSet) (r : Resolved) :
  avoids e0 (tp_blocks cfg ds r).
Proof.
  unfold tp_blocks, hourofday_rows, dayofweek_rows. avoid_steps.
Qed.
#[local] Hint Resolve avoids_tp_blocks : avoids.

Lemma avoids_external_features (cfg : Config C) (ds : DataSet) (r : Resolved) :
  avoids e0 (external_features cfg ds r).
Proof. unfold external_features. avoid_steps. Qed.
#[local] Hint Resolve avoids_external_features : avoids.

Lemma avoids_split_partitions (cfg : Config C) (r : Resolved) (x : External) :
  avoids e0 (split_partitions cfg r x).
Proof. unfold split_partitions, check_test_ratio. avoid_steps. Qed.
#[local] Hint Resolve avoids_split_partitions : avoids.

Lemma avoids_expand_test (cfg : Config C) (slots : Q) (p : Parts) :
  avoids e0 (expand_test cfg slots p).
Proof. unfold expand_test. avoid_steps. Qed.
#[local] Hint Resolve avoids_expand_test : avoids.

Lemma avoids_load_poi (cfg : Config C) (ds : DataSet) (idx : list nat) (s s' : nat) :
  avoids e0 (load_poi cfg ds idx s s').
Proof. unfold load_poi. avoid_steps. Qed.
#[local] Hint Resolve avoids_load_poi : avoids.

Lemma avoids_external_windows (cfg : Config C) (slots : Q) (n : Z) (x : External)
                              (a b : ndarray) (s s' : nat) :
  avoids e0 (external_windows cfg slots n x a b s s').
Proof. unfold external_windows, reslice_opt. avoid_steps. Qed.
#[local] Hint Resolve avoids_external_windows : avoids.

Lemma avoids_py_range (a b c : Z) : avoids e0 (py_range a b c).
Proof. unfold py_range. avoid_steps. Qed.
#[local] Hint Resolve avoids_py_range : avoids.

Lemma avoids_concatenate_last (a b : windows) : avoids e0 (concatenate_last a b).
Proof. unfold concatenate_last. avoid_steps. Qed.
#[local] Hint Resolve avoids_concatenate_last : avoids.

Lemma avoids_time_position (cfg : Config C) (slots : Q) (idx : list nat)
                           (a b c d e f : windows) :
  avoids e0 (time_position cfg slots idx a b c d e f).
Proof. unfold time_position. avoid_steps. Qed.
#[local] Hint Resolve avoids_time_position : avoids.

Lemma avoids_build_graph (l : Loader) (name : string) :
  avoids e0 (build_graph l name).
Proof. unfold build_graph. avoid_steps. Qed.
#[local] Hint Resolve avoids_build_graph : avoids.

Lemma avoids_build_graphs (l : Loader) (names : list string) (am lm : list ndarray) :
  avoids e0 (build_graphs l names am lm).
Proof.
  revert am lm. induction names as [|n names IH]; intros am lm; simpl.
  - apply avoids_Ok.
  - apply avoids_bind; [apply avoids_build_graph|].
    intros [a m]. apply IH.
Qed.
#[local] Hint Resolve avoids_build_graphs : avoids.

Lemma avoids_attach_graphs (cfg : Config C) (l : Loader) :
  avoids e0 (attach_graphs cfg l).
Proof. unfold attach_graphs, np_array. avoid_steps. Qed.
#[local] Hint Resolve avoids_attach_graphs : avoids.

(** Past the argument checks, neither error is raised any more. *)
Lemma init_resolved_avoids (cfg : Config C) (ds : DataSet) (r : Resolved) :
  resolve cfg ds = Ok r -> init cfg ds <> Raise e0.
Proof.
  intros Hr Hi. revert Hi. unfold init. rewrite Hr, bind_Ok_l.
  match goal with |- ?m = Raise _ -> False =>
    assert (Hc : avoids e0 m); [|intros Hi; exact (Hc _ Hi eq_refl)]
  end.
  avoid_steps.
Qed.

End ArgumentErrors.

Section ArgumentChecks.

Context {C : Collaborators}.

(** The products of the range raise nothing but [OverflowError]. *)
Lemma int_of_product_raises (x : Q) (z : Z) (e : exn) :
  Float.int_of_product x z = Raise e -> e = OverflowError.
Proof.
  unfold Float.int_of_product, Float.mul_int, Float.of_int, Float.to_int,
         Float.checked.
  destruct (Float.is_finite (Float.double (inject_Z z))); simpl;
    [|intros [= <-]; reflexivity].
  destruct (Float.is_finite _); simpl; [discriminate|].
  intros [= <-]. reflexivity.
Qed.

Lemma resolve_data_range_raises (dr : data_range_t) (slots : Q) (ds : DataSet)
                                (e : exn) :
  resolve_data_range dr slots ds = Raise e -> e = OverflowError.
Proof.
  destruct dr as [|f|a b]; simpl; [discriminate| |].
  - destruct (Float.int_of_product _ _) eqn:E; simpl; [discriminate|].
    intros [= <-]. eapply int_of_product_raises, E.
  - destruct (Float.int_of_product slots a) eqn:E; simpl;
      [|intros [= <-]; eapply int_of_product_raises, E].
    destruct (Float.int_of_product slots b) eqn:E'; simpl; [discriminate|].
    intros [= <-]. eapply int_of_product_raises, E'.
Qed.

(** The five ways through lines 104-124. *)
Lemma resolve_cases (cfg : Config C) (ds : DataSet) :
  (time_fitness ds = 0 /\ resolve cfg ds = Raise ZeroDivisionError) \/
  (time_fitness ds <> 0 /\ external_lstm_len cfg = None /\
   resolve cfg ds = Raise TypeError) \/
  (time_fitness ds <> 0 /\ external_lstm_len cfg <> None /\
   (closeness_len cfg < 0 \/ period_len cfg < 0 \/ trend_len cfg < 0) /\
   resolve cfg ds = Raise AssertionError) \/
  (time_fitness ds <> 0 /\ external_lstm_len cfg <> None /\
   0 <= closeness_len cfg /\ 0 <= period_len cfg /\ 0 <= trend_len cfg /\
   resolve cfg ds = Raise OverflowError) \/
  (time_fitness ds <> 0 /\ external_lstm_len cfg <> None /\
   0 <= closeness_len cfg /\ 0 <= period_len cfg /\ 0 <= trend_len cfg /\
   exists r, resolve cfg ds = Ok r).
Proof.
  unfold resolve, compute_daily_slots.
  destruct (Z.eqb_spec (time_fitness ds) 0) as [Hz|Hnz]; [left; auto|].
  right. rewrite bind_Ok_l.
  destruct (external_lstm_len cfg) as [n|]; [|left; auto].
  right. rewrite bind_Ok_l. unfold py_assert.
  destruct (Z.leb_spec 0 (closeness_len cfg));
    [|left; repeat split; try discriminate; auto].
  rewrite bind_Ok_l.
  destruct (Z.leb_spec 0 (period_len cfg));
    [|left; repeat split; try discriminate; auto].
  rewrite bind_Ok_l.
  destruct (Z.leb_spec 0 (trend_len cfg));
    [|left; repeat split; try discriminate; auto].
  rewrite bind_Ok_l.
  right.
  destruct (resolve_data_range _ _ ds) as [range|e] eqn:Erange.
  - right. rewrite bind_Ok_l. repeat split; try discriminate; eauto.
  - left. apply resolve_data_range_raises in Erange as ->.
    repeat split; try discriminate; auto.
Qed.

(** X8.  The constructor raises [ZeroDivisionError] exactly when
    [time_fitness] is zero, and [AssertionError] exactly when
    [time_fitness] is not zero, [external_lstm_len] is not [None] and one
    of [closeness_len], [period_len] and [trend_len] is negative; no later
    step of the construction raises either of them. *)
Theorem init_argument_errors (cfg : Config C) (ds : DataSet) :
  (init cfg ds = Raise ZeroDivisionError <-> time_fitness ds = 0) /\
  (init cfg ds = Raise AssertionError <->
   time_fitness ds <> 0 /\ external_lstm_len cfg <> None /\
   (closeness_len cfg < 0 \/ period_len cfg < 0 \/ trend_len cfg < 0)).
Proof.
  assert (Hraise : forall e, resolve cfg ds = Raise e -> init cfg ds = Raise e)
    by (intros e He; unfold init; rewrite He; reflexivity).
  destruct (resolve_cases cfg ds)
    as [(Hz & Hr)|[(Hnz & Hl & Hr)|[(Hnz & Hl & Hneg & Hr)
       |[(Hnz & Hl & Hc & Hp & Ht & Hr)|(Hnz & Hl & Hc & Hp & Ht & r & Hr)]]]].
  - rewrite (Hraise _ Hr). split; split; try tauto; try discriminate.
  - rewrite (Hraise _ Hr). split; split; try tauto; try discriminate.
  - rewrite (Hraise _ Hr). split; split; try tauto; try discriminate.
  - rewrite (Hraise _ Hr). split; split; try tauto; try discriminate.
    intros (_ & _ & Hneg). lia.
  - split; split.
    + intros Hi. exfalso.
      exact (init_resolved_avoids ZeroDivisionError (or_introl eq_refl) _ _ _ Hr Hi).
    + tauto.
    + intros Hi. exfalso.
      exact (init_resolved_avoids AssertionError (or_intror eq_refl) _ _ _ Hr Hi).
    + intros (_ & _ & Hneg). lia.
Qed.

End ArgumentChecks.

(** * Properties of [TransferDataLoader] *)

(** ** Loops *)

(** A property of the state that depends on the elements a loop has
    gone through. *)
Lemma for_each_prefix_ind {S A} (I : list A -> S -> Prop)
                          (xs : list A) (body : A -> S -> result S) (s s' : S) :
  I [] s ->
  (forall done x rest s1 s2,
     xs = done ++ x :: rest -> I done s1 -> body x s1 = Ok s2 -> I (done ++ [x]) s2) ->
  for_each xs body s = Ok s' -> I xs s'.
Proof.
  intros H0 Hstep.
  assert (Hgen : forall todo done s1,
            xs = done ++ todo -> I done s1 ->
            for_each todo body s1 = Ok s' -> I xs s').
  { induction todo as [|x todo IH]; intros done s1 Hxs HI Hrun; simpl in Hrun.
    - injection Hrun as <-. rewrite app_nil_r in Hxs. subst. exact HI.
    - inv_run Hrun. apply (IH (done ++ [x]) a).
      + rewrite <- app_assoc. exact Hxs.
      + eapply Hstep; eassumption.
      + exact Hrun. }
  apply (Hgen xs [] s); auto.
Qed.

Lemma item_Some {A} (l : list A) (i : nat) (x : A) :
  l !! i = Some x -> item l i = Ok x.
Proof.
  intros H. unfold item, py_index.
  pose proof (lookup_lt_Some _ _ _ H) as Hi.
  destruct (Z.ltb_spec (Z.of_nat i) 0); [lia|].
  destruct (Z.leb_spec 0 (Z.of_nat i)); [|lia].
  destruct (Z.ltb_spec (Z.of_nat i) (Z.of_nat (length l))); [|lia].
  simpl. rewrite Nat2Z.id, H. reflexivity.
Qed.

Lemma item_Ok {A} (l : list A) (i : nat) (x : A) :
  item l i = Ok x -> l !! i = Some x.
Proof. apply py_index_nat. Qed.

Section TransferProperties.

Context {C : Collaborators} {Sim : Similarity}.

Import TransferDataLoader.

(** ** The records of one window *)

Lemma first_records_inv (ms : list Q) (mi : list nat) (i stop : Z)
                        (recs : list Similar) :
  first_records ms mi i stop = Ok recs ->
  length recs = length ms /\
  forall e r, recs !! e = Some r ->
    ms !! e = Some (similarity r) /\ mi !! e = Some (source_node r) /\
    window_start r = i /\ window_stop r = stop.
Proof.
  unfold first_records. intros H. apply mapM_Ok in H.
  split; [rewrite <- (Forall2_length _ _ _ H); apply length_seq|].
  intros e r Hr.
  destruct (Forall2_lookup_r _ _ _ e r H Hr) as (x & Hx & Hf).
  apply lookup_seq in Hx as [-> _]. simpl in Hf.
  inv_run Hf. injection Hf as <-. simpl.
  apply item_Ok in E, E0. auto.
Qed.

(** What the inner loop does to the record of every node: it stays when
    the window does not do strictly better, and is replaced otherwise. *)
Lemma replace_records_inv (ms : list Q) (mi : list nat) (i stop : Z)
                          (recs recs' : list Similar) :
  replace_records ms mi i stop recs = Ok recs' ->
  length recs' = length recs /\
  forall e r, recs !! e = Some r ->
    exists m, ms !! e = Some m /\
      ((Qltb (similarity r) m = false /\ recs' !! e = Some r) \/
       (Qltb (similarity r) m = true /\
        exists a, mi !! e = Some a /\ recs' !! e = Some (mk_similar m a i stop))).
Proof.
  unfold replace_records.
  set (body := fun (index : nat) (rs : list Similar) =>
                 r ← item rs index;
                 m ← item ms index;
                 if Qltb (similarity r) m then
                   m0 ← item ms index;
                   a ← item mi index;
                   Ok (<[index := mk_similar m0 a i stop]> rs)
                 else Ok rs).
  assert (Hgen : forall n j rs,
            length rs = (j + n)%nat ->
            for_each (seq j n) body rs = Ok recs' ->
            length recs' = length rs /\
            (forall e, (e < j)%nat -> recs' !! e = rs !! e) /\
            forall e r, (j <= e)%nat -> rs !! e = Some r ->
              exists m, ms !! e = Some m /\
                ((Qltb (similarity r) m = false /\ recs' !! e = Some r) \/
                 (Qltb (similarity r) m = true /\
                  exists a, mi !! e = Some a /\
                            recs' !! e = Some (mk_similar m a i stop)))).
  { induction n as [|n IH]; intros j rs Hlen Hrun; simpl in Hrun.
    - injection Hrun as <-. split; [reflexivity|]. split; [reflexivity|].
      intros e r He Hr. apply lookup_lt_Some in Hr. lia.
    - destruct (body j rs) as [rs1|] eqn:Hb; [|discriminate].
      rewrite bind_Ok_l in Hrun.
      unfold body in Hb.
      destruct (item rs j) as [r0|] eqn:Er0; [|discriminate].
      rewrite bind_Ok_l in Hb.
      destruct (item ms j) as [m|] eqn:Em; [|discriminate].
      rewrite bind_Ok_l in Hb.
      apply item_Ok in Er0. pose proof (item_Ok _ _ _ Em) as Em'.
      assert (Hrs1 : length rs1 = length rs /\
                     (forall e, e <> j -> rs1 !! e = rs !! e) /\
                     ((Qltb (similarity r0) m = false /\ rs1 !! j = Some r0) \/
                      (Qltb (similarity r0) m = true /\
                       exists a, mi !! j = Some a /\
                                 rs1 !! j = Some (mk_similar m a i stop)))).
      { destruct (Qltb (similarity r0) m).
        - rewrite bind_Ok_l in Hb.
          destruct (item mi j) as [a|] eqn:Ea; [|discriminate].
          rewrite bind_Ok_l in Hb. injection Hb as <-.
          split; [apply length_insert|].
          split; [intros e He; apply list_lookup_insert_ne; congruence|].
          right. split; [reflexivity|]. exists a.
          split; [apply item_Ok, Ea|].
          apply list_lookup_insert_eq. eapply lookup_lt_Some; eassumption.
        - injection Hb as <-. auto. }
      destruct Hrs1 as (Hl1 & Hother & Hj).
      destruct (IH (Datatypes.S j) rs1) as (Hl2 & Hlow & Hhigh);
        [lia | exact Hrun |].
      split; [congruence|]. split.
      + intros e He. rewrite Hlow by lia. apply Hother. lia.
      + intros e r He Hr.
        destruct (decide (e = j)) as [->|Hne].
        * rewrite Er0 in Hr. injection Hr as <-.
          exists m. split; [exact Em'|]. rewrite Hlow by lia. exact Hj.
        * apply Hhigh; [lia|]. rewrite Hother by exact Hne. exact Hr. }
  intros H. destruct (Hgen (length recs) 0%nat recs eq_refl H) as (H1 & _ & H2).
  split; [exact H1|]. intros e r Hr. apply H2; [lia | exact Hr].
Qed.

(** ** The starts of the windows *)

Lemma py_range_from_zero (L d : Z) (starts : list Z) :
  0 < d -> py_range 0 L d = Ok starts ->
  forall j i, starts !! j = Some i <->
              i = Z.of_nat j * d /\ Z.of_nat j * d < L.
Proof.
  intros Hd. unfold py_range.
  destruct (Z.eqb_spec d 0); [lia|]. destruct (Z.ltb_spec 0 d); [|lia].
  intros [= <-] j i. rewrite list_lookup_fmap.
  replace (L - 0 + d - 1) with (L + d - 1) by lia.
  split.
  - destruct (seqZ 0 _ !! j) as [k|] eqn:Hk; [|discriminate].
    apply lookup_seqZ in Hk as [-> Hlt]. simpl. intros [= <-].
    split; [lia|].
    assert (Z.of_nat j + 1 <= (L + d - 1) / d) by lia.
    pose proof (Z.mul_div_le (L + d - 1) d Hd). nia.
  - intros [-> Hlt].
    assert (Hj : Z.of_nat j < (L + d - 1) / d).
    { apply Z.lt_le_trans with (Z.of_nat j + 1); [lia|].
      apply Z.div_le_lower_bound; [lia | nia]. }
    rewrite (proj2 (lookup_seqZ 0 _ j (0 + Z.of_nat j))) by (split; [reflexivity | exact Hj]).
    simpl. f_equal; lia.
Qed.

Lemma starts_increase (L d : Z) (starts done rest : list Z) (x i : Z) :
  0 < d -> py_range 0 L d = Ok starts -> starts = done ++ x :: rest ->
  i ∈ done -> i < x.
Proof.
  intros Hd Hr Hs Hi.
  apply list_elem_of_lookup in Hi as [j Hj].
  pose proof (lookup_lt_Some _ _ _ Hj) as Hlt.
  assert (H1 : starts !! j = Some i)
    by (rewrite Hs, lookup_app_l by exact Hlt; exact Hj).
  assert (H2 : starts !! length done = Some x)
    by (rewrite Hs, list_lookup_middle; reflexivity).
  apply (py_range_from_zero _ _ _ Hd Hr) in H1 as [-> _].
  apply (py_range_from_zero _ _ _ Hd Hr) in H2 as [-> _]. nia.
Qed.

Lemma starts_head (L d : Z) (starts done rest : list Z) (x : Z) :
  0 < d -> py_range 0 L d = Ok starts -> starts = done ++ x :: rest ->
  exists k, 0 <= k /\ x = k * d /\ x < L /\ (done <> [] -> 0 < k).
Proof.
  intros Hd Hr Hs.
  assert (H2 : starts !! length done = Some x)
    by (rewrite Hs, list_lookup_middle; reflexivity).
  apply (py_range_from_zero _ _ _ Hd Hr) in H2 as [-> Hlt].
  exists (Z.of_nat (length done)). split; [lia|]. split; [reflexivity|].
  split; [exact Hlt|]. destruct done; [congruence | simpl; lia].
Qed.

(** ** The windows of the records *)

(** Every record of [similar_windows] names a window that starts at a
    multiple of the slots of a day and ends before the end of the source
    train data; a record of the first window has the length of the
    compared train data, a replaced one the length [replaced]. *)
Lemma similar_windows_inv (sd td : Loader) (replaced : nat) (recs : list Similar) :
  similar_windows sd td replaced = Ok recs ->
  0 < py_int (daily_slots sd) ->
  let d := py_int (daily_slots sd) in
  let n := Z.of_nat (len (train_data td)) in
  let L := Z.of_nat (len (train_data sd)) in
  Qeq_bool (daily_slots sd) (daily_slots td) = true /\
  (L <= n -> recs = []) /\
  Forall (fun r =>
            exists k, 0 <= k /\ window_start r = k * d /\
                      window_start r + n < L /\
                      (window_stop r = window_start r + n \/
                       (0 < k /\ window_stop r = window_start r + Z.of_nat replaced)))
         recs.
Proof.
  intros H Hd d n L. unfold similar_windows in H. fold d n L in H.
  destruct (Qeq_bool _ _); [|discriminate]. simpl in H.
  destruct (py_range 0 (L - n) d) as [starts|] eqn:Hr; [|discriminate].
  rewrite bind_Ok_l in H. split; [reflexivity|]. split.
  - intros Hshort.
    assert (Hnil : starts = []).
    { destruct starts as [|i starts]; [reflexivity|].
      pose proof (proj1 (py_range_from_zero _ _ _ Hd Hr 0%nat i) eq_refl). lia. }
    subst starts. simpl in H. congruence.
  - refine (proj2 (_ : (recs <> [] -> starts <> []) /\ _)).
    revert H. apply for_each_prefix_ind with
      (I := fun (done : list Z) (rs : list Similar) =>
              (rs <> [] -> done <> []) /\
              Forall (fun r =>
                exists k, 0 <= k /\ window_start r = k * d /\
                          window_start r + n < L /\
                          (window_stop r = window_start r + n \/
                           (0 < k /\ window_stop r
                                     = window_start r + Z.of_nat replaced))) rs).
    + split; [congruence | constructor].
    + intros done x rest s1 s2 Hs [Hne HI] Hbody.
      destruct (starts_head _ _ _ _ _ _ Hd Hr Hs) as (k & Hk0 & Hx & HxL & Hkpos).
      split; [intros _; destruct done; discriminate|].
      destruct (window_scores sd td x) as [[ms mi]|]; [|discriminate].
      rewrite bind_Ok_l in Hbody.
      destruct (Nat.eqb_spec (length s1) 0) as [Hz|Hnz].
      * apply first_records_inv in Hbody as [_ Hrec].
        apply Forall_lookup. intros e r Hr'.
        destruct (Hrec e r Hr') as (_ & _ & Hst & Hsp).
        exists k. rewrite Hst, Hsp. repeat split; lia.
      * assert (Hdone : done <> []) by (apply Hne; destruct s1; [simpl in Hnz; lia | discriminate]).
        apply replace_records_inv in Hbody as [Hlen Hrec].
        apply Forall_lookup. intros e r' Hr'.
        destruct (lookup_lt_is_Some_2 s1 e) as [r Hr0];
          [rewrite <- Hlen; eapply lookup_lt_Some; exact Hr'|].
        destruct (Hrec e r Hr0) as (m & _ & [[_ Hkeep]|(_ & a & _ & Hnew)]).
        -- rewrite Hkeep in Hr'. injection Hr' as <-.
           exact (proj1 (Forall_lookup _ _) HI e r Hr0).
        -- rewrite Hnew in Hr'. injection Hr' as <-. simpl.
           exists k. specialize (Hkpos Hdone). repeat split; lia.
Qed.

(** X9.  Every record [traffic_sim] returns names a window of the source
    train data: it starts at a multiple of [int(daily_slots)], has the
    length of the target train data and ends before the last source slot
    (the window that ends with the source train data is never compared).
    No record is returned when the source train data are not longer than
    the target train data. *)
Theorem traffic_sim_windows (self : t) (recs : list Similar) :
  traffic_sim self = Ok recs ->
  0 < py_int (daily_slots (sd_loader self)) ->
  let d := py_int (daily_slots (sd_loader self)) in
  let n := Z.of_nat (len (train_data (td_loader self))) in
  let L := Z.of_nat (len (train_data (sd_loader self))) in
  (L <= n -> recs = []) /\
  Forall (fun r =>
            exists k, 0 <= k /\ window_start r = k * d /\
                      window_stop r = window_start r + n /\
                      window_stop r < L)
         recs.
Proof.
  intros H Hd d n L.
  destruct (similar_windows_inv _ _ _ _ H Hd) as (_ & Hnil & Hall).
  split; [exact Hnil|].
  eapply Forall_impl; [exact Hall|]. simpl.
  intros r (k & Hk & Hs & Hl & Hstop). exists k. fold n in Hstop. lia.
Qed.

(** X10.  [traffic_sim_fake] compares windows that have the length of
    the train data of [fake_td_loader]; a record written for the first
    window (the one that starts at slot zero) ends that many slots after
    its start, but a record that replaces an earlier one ends
    [len(td_loader.train_data)] slots after its start. *)
Theorem traffic_sim_fake_windows (self : t) (recs : list Similar) :
  traffic_sim_fake self = Ok recs ->
  0 < py_int (daily_slots (sd_loader self)) ->
  let d := py_int (daily_slots (sd_loader self)) in
  let compared := Z.of_nat (len (train_data (fake_td_loader self))) in
  let n := Z.of_nat (len (train_data (td_loader self))) in
  let L := Z.of_nat (len (train_data (sd_loader self))) in
  Forall (fun r =>
            exists k, 0 <= k /\ window_start r = k * d /\
                      window_start r + compared < L /\
                      (window_stop r = window_start r + compared \/
                       (0 < k /\ window_stop r = window_start r + n)))
         recs.
Proof.
  intros H Hd d compared n L.
  destruct (similar_windows_inv _ _ _ _ H Hd) as (_ & _ & Hall). exact Hall.
Qed.

(** ** The best window *)

Lemma Qltb_false (x y : Q) : Qltb x y = false -> (y <= x)%Q.
Proof.
  intros H. apply Qnot_lt_le. intros Hlt. apply Qltb_lt in Hlt. congruence.
Qed.

Lemma similar_windows_best (sd td : Loader) (replaced : nat) (recs : list Similar) :
  similar_windows sd td replaced = Ok recs ->
  0 < py_int (daily_slots sd) ->
  let d := py_int (daily_slots sd) in
  let n := Z.of_nat (len (train_data td)) in
  let L := Z.of_nat (len (train_data sd)) in
  forall e r, recs !! e = Some r ->
    exists ms mi,
      window_scores sd td (window_start r) = Ok (ms, mi) /\
      ms !! e = Some (similarity r) /\ mi !! e = Some (source_node r) /\
      forall k ms' mi' m,
        0 <= k -> k * d < L - n ->
        window_scores sd td (k * d) = Ok (ms', mi') -> ms' !! e = Some m ->
        (m <= similarity r)%Q /\
        (k * d < window_start r -> (m < similarity r)%Q).
Proof.
  intros H Hd d n L. unfold similar_windows in H. fold d n L in H.
  destruct (Qeq_bool _ _); [|discriminate]. simpl in H.
  destruct (py_range 0 (L - n) d) as [starts|] eqn:Hr; [|discriminate].
  rewrite bind_Ok_l in H.
  set (I := fun (done : list Z) (rs : list Similar) =>
              (rs = [] -> forall i ms' mi',
                 i ∈ done -> window_scores sd td i = Ok (ms', mi') -> ms' = []) /\
              forall e r, rs !! e = Some r ->
                window_start r ∈ done /\
                exists ms mi,
                  window_scores sd td (window_start r) = Ok (ms, mi) /\
                  ms !! e = Some (similarity r) /\ mi !! e = Some (source_node r) /\
                  forall i ms' mi' m,
                    i ∈ done -> window_scores sd td i = Ok (ms', mi') ->
                    ms' !! e = Some m ->
                    (m <= similarity r)%Q /\
                    (i < window_start r -> (m < similarity r)%Q)).
  assert (HI : I starts recs).
  { revert H. apply for_each_prefix_ind.
    - split.
      + intros _ i ms' mi' Hi. inversion Hi.
      + intros e r Hr'. discriminate.
    - intros done x rest s1 s2 Hs [Hempty Hrec] Hbody.
      destruct (window_scores sd td x) as [[ms mi]|] eqn:Hscore; [|discriminate].
      rewrite bind_Ok_l in Hbody.
      destruct (Nat.eqb_spec (length s1) 0) as [Hz|Hnz].
      + assert (Hs1 : s1 = []) by (destruct s1; [reflexivity | discriminate]).
        apply first_records_inv in Hbody as [Hlen Hnew].
        split.
        * intros -> i ms' mi' [Hi|Hi%list_elem_of_singleton]%elem_of_app Hsc.
          -- eapply Hempty; eassumption.
          -- subst i. rewrite Hscore in Hsc. injection Hsc as <- <-.
             destruct ms; [reflexivity | discriminate].
        * intros e r Hr'. destruct (Hnew e r Hr') as (Hm & Ha & Hst & _).
          rewrite Hst. split; [apply elem_of_app; right; constructor|].
          exists ms, mi. split; [exact Hscore|]. split; [exact Hm|].
          split; [exact Ha|].
          intros i ms' mi' m [Hi|Hi%list_elem_of_singleton]%elem_of_app Hsc Hm'.
          -- rewrite (Hempty Hs1 i ms' mi' Hi Hsc) in Hm'. discriminate.
          -- subst i. rewrite Hscore in Hsc. injection Hsc as <- <-.
             rewrite Hm in Hm'. injection Hm' as <-.
             split; [apply Qle_refl | lia].
      + apply replace_records_inv in Hbody as [Hlen Hnew].
        split.
        * intros ->. destruct s1; [simpl in Hnz; lia | discriminate].
        * intros e r' Hr'.
          destruct (lookup_lt_is_Some_2 s1 e) as [r Hr0];
            [rewrite <- Hlen; eapply lookup_lt_Some; exact Hr'|].
          destruct (Hrec e r Hr0) as (Hin & ms0 & mi0 & Hsc0 & Hm0 & Ha0 & Hbest).
          pose proof (starts_increase _ _ _ _ _ _ _ Hd Hr Hs Hin) as Hlt.
          destruct (Hnew e r Hr0) as (m1 & Hm1 & [[Hcmp Hkeep]|(Hcmp & a & Ha & Hrepl)]).
          -- rewrite Hkeep in Hr'. injection Hr' as <-.
             split; [apply elem_of_app; left; exact Hin|].
             exists ms0, mi0. split; [exact Hsc0|]. split; [exact Hm0|].
             split; [exact Ha0|].
             intros i ms' mi' m [Hi|Hi%list_elem_of_singleton]%elem_of_app Hsc Hm'.
             ++ eapply Hbest; eassumption.
             ++ subst i. rewrite Hscore in Hsc. injection Hsc as <- <-.
                rewrite Hm1 in Hm'. injection Hm' as <-.
                split; [apply Qltb_false, Hcmp | lia].
          -- rewrite Hrepl in Hr'. injection Hr' as <-. simpl.
             split; [apply elem_of_app; right; constructor|].
             exists ms, mi. split; [exact Hscore|]. split; [exact Hm1|].
             split; [exact Ha|].
             apply Qltb_lt in Hcmp.
             intros i ms' mi' m [Hi|Hi%list_elem_of_singleton]%elem_of_app Hsc Hm'.
             ++ destruct (Hbest i ms' mi' m Hi Hsc Hm') as [Hle _].
                assert (m < m1)%Q by (eapply Qle_lt_trans; eassumption).
                split; [apply Qlt_le_weak; assumption | auto].
             ++ subst i. rewrite Hscore in Hsc. injection Hsc as <- <-.
                rewrite Hm1 in Hm'. injection Hm' as <-.
                split; [apply Qle_refl | lia]. }
  destruct HI as [_ HI]. intros e r Hr'.
  destruct (HI e r Hr') as (_ & ms & mi & Hsc & Hm & Ha & Hbest).
  exists ms, mi. split; [exact Hsc|]. split; [exact Hm|]. split; [exact Ha|].
  intros k ms' mi' m Hk Hlt. apply Hbest.
  apply list_elem_of_lookup. exists (Z.to_nat k).
  apply (py_range_from_zero _ _ _ Hd Hr). rewrite Z2Nat.id by lia. auto.
Qed.

(** X11.  For every node [e] of the target city the record [traffic_sim]
    returns holds the best similarity any compared window reaches for
    [e], the source node that reaches it and the window where it is
    reached; every other compared window does no better, and every
    earlier one does strictly worse. *)
Theorem traffic_sim_best_window (self : t) (recs : list Similar)
                                (e : nat) (r : Similar) :
  traffic_sim self = Ok recs ->
  0 < py_int (daily_slots (sd_loader self)) ->
  recs !! e = Some r ->
  let sd := sd_loader self in
  let td := td_loader self in
  let d := py_int (daily_slots sd) in
  exists ms mi,
    window_scores sd td (window_start r) = Ok (ms, mi) /\
    ms !! e = Some (similarity r) /\ mi !! e = Some (source_node r) /\
    forall k ms' mi' m,
      0 <= k ->
      k * d < Z.of_nat (len (train_data sd)) - Z.of_nat (len (train_data td)) ->
      window_scores sd td (k * d) = Ok (ms', mi') -> ms' !! e = Some m ->
      (m <= similarity r)%Q /\
      (k * d < window_start r -> (m < similarity r)%Q).
Proof.
  intros H Hd Hr. exact (similar_windows_best _ _ _ _ H Hd e r Hr).
Qed.

End TransferProperties.

(** ** The three loaders *)

Section TransferConstruction.

Context {C : Collaborators}.

(** X12.  A constructed [TransferDataLoader] holds the loader of the
    source city, the loader of the target city (with [td_data_length] as
    its [train_data_length] when that argument is given and true) and a
    third loader of the target city whose [train_data_length] is ['180'],
    whatever [td_data_length] is.  The dictionary [td_params] of the
    caller is left with ['180'] as its [train_data_length].  The two
    loaders of the target city keep the same nodes and have the same
    number of slots a day. *)
Theorem transfer_loaders
    (sd_params td_params : Config C) (sd_dataset td_dataset : DataSet)
    (td_data_length : option train_data_length_t)
    (self : TransferDataLoader.t) (td_params' : Config C) :
  TransferDataLoader.init sd_params td_params sd_dataset td_dataset td_data_length
  = Ok (self, td_params') ->
  init sd_params sd_dataset = Ok (TransferDataLoader.sd_loader self) /\
  init (if TransferDataLoader.truthy td_data_length
        then TransferDataLoader.update_train_data_length td_params td_data_length
        else td_params) td_dataset
  = Ok (TransferDataLoader.td_loader self) /\
  init (with_train_data_length td_params (LengthDays 180)) td_dataset
  = Ok (TransferDataLoader.fake_td_loader self) /\
  td_params' = with_train_data_length td_params (LengthDays 180) /\
  traffic_data_index (TransferDataLoader.fake_td_loader self)
  = traffic_data_index (TransferDataLoader.td_loader self) /\
  station_number (TransferDataLoader.fake_td_loader self)
  = station_number (TransferDataLoader.td_loader self) /\
  daily_slots (TransferDataLoader.fake_td_loader self)
  = daily_slots (TransferDataLoader.td_loader self).
Proof.
  unfold TransferDataLoader.init. intros H. inv_run H.
  injection H as <- <-. simpl.
  assert (Hsame : forall cfg v, with_train_data_length (with_train_data_length cfg v)
                                  (LengthDays 180)
                                = with_train_data_length cfg (LengthDays 180))
    by reflexivity.
  assert (Hfake : init (with_train_data_length td_params (LengthDays 180)) td_dataset
                  = Ok a1).
  { rewrite <- E1. destruct (TransferDataLoader.truthy td_data_length); [|reflexivity].
    destruct td_data_length as [v|]; reflexivity. }
  split; [reflexivity|]. split; [reflexivity|]. split; [exact Hfake|].
  split.
  { destruct (TransferDataLoader.truthy td_data_length); [|reflexivity].
    destruct td_data_length as [v|]; reflexivity. }
  pose proof (init_resolved _ _ _ E0) as (r0 & Hr0 & Hd0 & Hi0 & _ & Hn0).
  pose proof (init_resolved _ _ _ Hfake) as (r1 & Hr1 & Hd1 & Hi1 & _ & Hn1).
  apply resolve_inv in Hr0 as (Hs0 & _ & _ & _ & _ & _ & Hx0 & Ht0).
  apply resolve_inv in Hr1 as (Hs1 & _ & _ & _ & _ & _ & Hx1 & Ht1).
  apply compute_daily_slots_inv in Hs0 as [_ Hs0].
  apply compute_daily_slots_inv in Hs1 as [_ Hs1].
  rewrite Hd0, Hd1, Hi0, Hi1, Hn0, Hn1, Ht0, Ht1, Hx0, Hx1, Hs0, Hs1. auto.
Qed.

End TransferConstruction.

(** * Properties of [STMeta] *)

Section ModelProperties.

Context {L : STMeta.Library}.

Import STMeta.

(** ** Runs of [build] *)

Lemma run_bind {A B} (m : M A) (f : A -> M B) (s : t) :
  (m ≫= f) s = match m s with
               | (Done a, s') => f a s'
               | (Fail e, s') => (Fail e, s')
               end.
Proof. reflexivity. Qed.

Lemma run_bind_Done {A B} (m : M A) (f : A -> M B) (s s' : t) (a : A) :
  m s = (Done a, s') -> (m ≫= f) s = f a s'.
Proof. intros H. rewrite run_bind, H. reflexivity. Qed.

Lemma run_bind_Fail {A B} (m : M A) (f : A -> M B) (s s' : t) (e : error) :
  m s = (Fail e, s') -> (m ≫= f) s = (Fail e, s').
Proof. intros H. rewrite run_bind, H. reflexivity. Qed.

Lemma run_bind_inv {A B} (m : M A) (f : A -> M B) (s s' : t) (b : B) :
  (m ≫= f) s = (Done b, s') ->
  exists a s1, m s = (Done a, s1) /\ f a s1 = (Done b, s').
Proof.
  rewrite run_bind. destruct (m s) as [[a|e] s1]; [eauto | discriminate].
Qed.

Lemma fails_raise {A} (e : error) : fails (@raise L A e).
Proof. intros s. exists e, s. reflexivity. Qed.

Lemma fails_bind_l {A B} (m : M A) (f : A -> M B) : fails m -> fails (m ≫= f).
Proof.
  intros Hm s. destruct (Hm s) as (e & s' & H).
  exists e, s'. apply run_bind_Fail, H.
Qed.

Lemma fails_bind_r {A B} (m : M A) (f : A -> M B) :
  (forall a, fails (f a)) -> fails (m ≫= f).
Proof.
  intros Hf s. rewrite run_bind. destruct (m s) as [[a|e] s1]; [apply Hf | eauto].
Qed.

Lemma run_attribute {A B} (x : Attributes -> A) (f : A -> M B) (s : t) :
  (attribute x ≫= f) s = f (x (attributes s)) s.
Proof. reflexivity. Qed.

Lemma run_call {A B} (o : outcome A) (f : A -> M B) (s : t) :
  (call o ≫= f) s = match o with
                    | Done a => f a s
                    | Fail e => (Fail e, s)
                    end.
Proof. rewrite run_bind. destruct o; reflexivity. Qed.

Lemma run_ret {A B} (a : A) (f : A -> M B) (s : t) : (mret a ≫= f) s = f a s.
Proof. reflexivity. Qed.

(** ** The inputs *)

Lemma history_input_positive (length : Z) (feature : string) (s : t) :
  0 < length ->
  history_input length feature s
  = match placeholder [VNone; VNone; VInt length; VInt 1] (Some feature) with
    | Done ph => (Done (Some ph), (set_input feature (tensor_name ph) s).2)
    | Fail e => (Fail e, s)
    end.
Proof.
  intros H. unfold history_input.
  destruct (Z.ltb_spec 0 length); [|lia].
  rewrite run_bind. unfold call.
  destruct (placeholder _ _); reflexivity.
Qed.

Lemma history_input_none (length : Z) (feature : string) (s : t) :
  length <= 0 -> history_input length feature s = (Done None, s).
Proof.
  intros H. unfold history_input.
  destruct (Z.ltb_spec 0 length); [lia | reflexivity].
Qed.

(** X13.  When none of [closeness_len], [period_len] and [trend_len] is
    positive, [build] raises [ValueError('closeness_len, period_len,
    trend_len cannot all be zero')], whatever [weather_len] is: without a
    weather history the object is left as it was, with one the
    placeholder of the weather history has been created and recorded in
    [_input] before. *)
Theorem build_needs_history
    (base_build : bool -> Z -> M unit) (init_vars : bool) (max_to_keep : Z)
    (s : t) :
  _closeness_len (attributes s) <= 0 ->
  _period_len (attributes s) <= 0 ->
  _trend_len (attributes s) <= 0 ->
  let missing :=
    ValueError "closeness_len, period_len, trend_len cannot all be zero" in
  let w := _weather_len (attributes s) in
  build base_build init_vars max_to_keep s
  = if 0 <? w then
      match placeholder [VNone; VNone; VInt w; VInt 1] (Some "weather_feature") with
      | Done ph => (Fail missing,
                    (set_input "weather_feature" (tensor_name ph) s).2)
      | Fail e => (Fail e, s)
      end
    else (Fail missing, s).
Proof.
  intros Hc Hp Ht missing w.
  unfold build, build_graph. rewrite !run_bind.
  unfold build_inputs. rewrite run_attribute, run_bind.
  rewrite history_input_none by exact Hc. rewrite run_attribute, run_bind.
  rewrite history_input_none by exact Hp. rewrite run_attribute, run_bind.
  rewrite history_input_none by exact Ht. rewrite run_attribute, run_bind.
  fold w. destruct (Z.ltb_spec 0 w) as [Hw|Hw].
  - rewrite history_input_positive by exact Hw.
    destruct (placeholder _ _) as [ph|e]; reflexivity.
  - rewrite history_input_none by exact Hw. reflexivity.
Qed.

(** ** Steps that leave the object alone, and steps that add to it *)

Lemma extends_refl (s : t) : extends s s.
Proof. split; auto. Qed.

Lemma extends_trans (s1 s2 s3 : t) : extends s1 s2 -> extends s2 s3 -> extends s1 s3.
Proof. intros [H1 K1] [H2 K2]. split; [congruence | auto]. Qed.

Lemma unchanged_ret {A} (a : A) : unchanged (mret a : M A).
Proof. intros s. reflexivity. Qed.

Lemma unchanged_raise {A} (e : error) : unchanged (@raise L A e).
Proof. intros s. reflexivity. Qed.

Lemma unchanged_call {A} (o : outcome A) : unchanged (call o).
Proof. intros s. reflexivity. Qed.

Lemma unchanged_attribute {A} (x : Attributes -> A) : unchanged (attribute x).
Proof. intros s. reflexivity. Qed.

Lemma unchanged_get_embedding_dim : unchanged get_embedding_dim.
Proof. intros s. reflexivity. Qed.

Lemma unchanged_local {A} (name : string) (v : option A) : unchanged (local name v).
Proof. intros s. destruct v; reflexivity. Qed.

Lemma unchanged_bind {A B} (m : M A) (f : A -> M B) :
  unchanged m -> (forall a, unchanged (f a)) -> unchanged (m ≫= f).
Proof.
  intros Hm Hf s. rewrite run_bind. specialize (Hm s).
  destruct (m s) as [[a|e] s1]; simpl in Hm; subst s1; [apply Hf | reflexivity].
Qed.

Lemma unchanged_fold_each {A S} (xs : list A) (body : A -> S -> M S) (acc : S) :
  (forall x a, unchanged (body x a)) -> unchanged (fold_each xs body acc).
Proof.
  intros Hb. revert acc. induction xs as [|x xs IH]; intros acc; simpl.
  - apply unchanged_ret.
  - apply unchanged_bind; [apply Hb | intros a; apply IH].
Qed.

Lemma grows_unchanged {A} (m : M A) : unchanged m -> grows m.
Proof. intros H s. rewrite H. apply extends_refl. Qed.

Lemma grows_bind {A B} (m : M A) (f : A -> M B) :
  grows m -> (forall a, grows (f a)) -> grows (m ≫= f).
Proof.
  intros Hm Hf s. rewrite run_bind. specialize (Hm s).
  destruct (m s) as [[a|e] s1]; simpl in Hm; [|exact Hm].
  eapply extends_trans; [exact Hm | apply Hf].
Qed.

Lemma grows_set_input (k v : string) : grows (set_input k v).
Proof.
  intros s. split; [reflexivity|]. simpl. intros j Hj.
  destruct (decide (k = j)) as [->|Hne].
  - rewrite lookup_insert_eq. eauto.
  - rewrite lookup_insert_ne by exact Hne. exact Hj.
Qed.

Lemma grows_set_output (k v : string) : grows (set_output k v).
Proof. intros s. split; [reflexivity | auto]. Qed.

Lemma grows_set_op (k v : string) : grows (set_op k v).
Proof. intros s. split; [reflexivity | auto]. Qed.

Lemma grows_set_embedding_dim (v : value) : grows (set_embedding_dim v).
Proof. intros s. split; [reflexivity | auto]. Qed.

Lemma grows_fold_each {A S} (xs : list A) (body : A -> S -> M S) (acc : S) :
  (forall x a, grows (body x a)) -> grows (fold_each xs body acc).
Proof.
  intros Hb. revert acc. induction xs as [|x xs IH]; intros acc; simpl.
  - apply grows_unchanged, unchanged_ret.
  - apply grows_bind; [apply Hb | intros a; apply IH].
Qed.

Create HintDb unchanged.
Create HintDb grows.

(** Decomposes a block into its steps. *)
Ltac unchanged_steps :=
  repeat first
    [ solve [auto with unchanged nocore]
    | apply unchanged_ret
    | apply unchanged_raise
    | apply unchanged_call
    | apply unchanged_attribute
    | apply unchanged_get_embedding_dim
    | apply unchanged_local
    | apply unchanged_fold_each; intros
    | apply unchanged_bind; [|intros]
    | progress cbv beta
    | match goal with
      | |- unchanged (match ?x with _ => _ end) => destruct x
      | |- unchanged (match ?x with _ => _ end _) => destruct x
      | |- unchanged (let '(_, _) := ?x in _) => destruct x
      end ].

Ltac grows_steps :=
  repeat first
    [ solve [auto with grows nocore]
    | apply grows_set_input
    | apply grows_set_output
    | apply grows_set_op
    | apply grows_set_embedding_dim
    | apply grows_unchanged; solve [unchanged_steps]
    | apply grows_fold_each; intros
    | apply grows_bind; [|intros]
    | progress cbv beta
    | match goal with
      | |- grows (match ?x with _ => _ end) => destruct x
      | |- grows (match ?x with _ => _ end _) => destruct x
      | |- grows (let '(_, _) := ?x in _) => destruct x
      end ].

Lemma unchanged_spread (x : Tensor) (size : value) (d : Tensor) :
  unchanged (spread x size d).
Proof. unfold spread. unchanged_steps. Qed.
#[local] Hint Resolve unchanged_spread : unchanged.

Lemma unchanged_gal_merge (ts : list Tensor) (u h : Z) : unchanged (gal_merge ts u h).
Proof. unfold gal_merge. unchanged_steps. Qed.
#[local] Hint Resolve unchanged_gal_merge : unchanged.

Lemma unchanged_st_outputs (lap : Tensor) (g : Z) (f : temporal_feature) :
  unchanged (st_outputs lap g f).
Proof. unfold st_outputs. destruct f as [[? ?] ?]. unchanged_steps. Qed.
#[local] Hint Resolve unchanged_st_outputs : unchanged.

Lemma unchanged_graph_outputs (i : Inputs) (g : Z) (acc : list Tensor) :
  unchanged (graph_outputs i g acc).
Proof. unfold graph_outputs. unchanged_steps. Qed.
#[local] Hint Resolve unchanged_graph_outputs : unchanged.

Lemma unchanged_merge_graphs (ts : list Tensor) : unchanged (merge_graphs ts).
Proof. unfold merge_graphs. unchanged_steps. Qed.
#[local] Hint Resolve unchanged_merge_graphs : unchanged.

(** The spatial and temporal part does not touch the object. *)
Lemma unchanged_build_network (i : Inputs) : unchanged (build_network i).
Proof. unfold build_network. unchanged_steps. Qed.

Lemma unchanged_classified_dense (x d : Tensor) : unchanged (classified_dense x d).
Proof. unfold classified_dense. unchanged_steps. Qed.
#[local] Hint Resolve unchanged_classified_dense : unchanged.

Lemma unchanged_lstm_dense (w : option Tensor) (x d : Tensor) :
  unchanged (lstm_dense w x d).
Proof. unfold lstm_dense. unchanged_steps. Qed.
#[local] Hint Resolve unchanged_lstm_dense : unchanged.

Lemma grows_embedding_dense (x d : Tensor) : grows (embedding_dense x d).
Proof. unfold embedding_dense. grows_steps. Qed.
#[local] Hint Resolve grows_embedding_dense : grows.

Lemma grows_history_input (length : Z) (feature : string) :
  grows (history_input length feature).
Proof. unfold history_input. grows_steps. Qed.
#[local] Hint Resolve grows_history_input : grows.

Lemma grows_build_inputs : grows build_inputs.
Proof. unfold build_inputs. grows_steps. Qed.

Lemma grows_build_external (i : Inputs) (d : Tensor) : grows (build_external i d).
Proof. unfold build_external. grows_steps. Qed.

Lemma grows_build_outputs (i : Inputs) (d : Tensor) : grows (build_outputs i d).
Proof. unfold build_outputs. grows_steps. Qed.

Lemma run_set_input {B} (k v : string) (f : unit -> M B) (s : t) :
  (set_input k v ≫= f) s = f tt (set_input k v s).2.
Proof. reflexivity. Qed.

Lemma run_raise {A B} (e : error) (f : A -> M B) (s : t) :
  (raise e ≫= f) s = (Fail e, s).
Proof. reflexivity. Qed.

Lemma set_input_has (k v : string) (s : t) :
  is_Some (_input (set_input k v s).2 !! k).
Proof. simpl. rewrite lookup_insert_eq. eauto. Qed.

(** What is left of a run after its first steps only adds to the
    object. *)
Ltac rest_grows H Hg :=
  match type of H with
  | ?r ?s = (_, _) =>
      assert (Hg : grows r) by grows_steps;
      specialize (Hg s); rewrite H in Hg; simpl in Hg
  end.

(** ** What a completed part has recorded *)

Lemma history_input_inv (length : Z) (feature : string) (s s' : t)
                        (r : option Tensor) :
  history_input length feature s = (Done r, s') ->
  extends s s' /\
  (length <= 0 -> r = None) /\
  (0 < length -> is_Some (_input s' !! feature)).
Proof.
  intros H. split.
  - pose proof (grows_history_input length feature s) as Hg.
    rewrite H in Hg. exact Hg.
  - destruct (Z.ltb_spec 0 length) as [Hl|Hl].
    + split; [lia|]. intros _. rewrite history_input_positive in H by exact Hl.
      destruct (placeholder _ _) as [ph|e]; [|discriminate].
      injection H as _ <-. apply set_input_has.
    + rewrite history_input_none in H by exact Hl. injection H as <- _.
      split; [reflexivity | lia].
Qed.

Lemma build_inputs_inv (s s' : t) (i : Inputs) :
  build_inputs s = (Done i, s') ->
  let a := attributes s in
  extends s s' /\
  (_weather_len a <= 0 -> weather_feature i = None) /\
  is_Some (_input s' !! "target") /\
  is_Some (_input s' !! "laplace_matrix") /\
  (0 < _closeness_len a -> is_Some (_input s' !! "closeness_feature")) /\
  (0 < _period_len a -> is_Some (_input s' !! "period_feature")) /\
  (0 < _trend_len a -> is_Some (_input s' !! "trend_feature")) /\
  (0 < _weather_len a -> is_Some (_input s' !! "weather_feature")).
Proof.
  intros H a.
  pose proof (grows_build_inputs s) as Hg. rewrite H in Hg. simpl in Hg.
  split; [exact Hg|].
  unfold build_inputs in H. rewrite run_attribute in H.
  apply run_bind_inv in H as (r1 & s1 & H1 & H). rewrite run_attribute in H.
  apply run_bind_inv in H as (r2 & s2 & H2 & H). rewrite run_attribute in H.
  apply run_bind_inv in H as (r3 & s3 & H3 & H). rewrite run_attribute in H.
  apply run_bind_inv in H as (r4 & s4 & H4 & H).
  apply history_input_inv in H1 as ([A1 K1] & _ & P1).
  apply history_input_inv in H2 as ([A2 K2] & _ & P2).
  apply history_input_inv in H3 as ([A3 K3] & _ & P3).
  apply history_input_inv in H4 as ([A4 K4] & N4 & P4).
  rewrite A1 in P2. rewrite A2, A1 in P3. rewrite A3, A2, A1 in N4, P4.
  fold a in P1, P2, P3, P4, N4.
  destruct (0 <? length _)%nat; [|discriminate].
  rewrite run_call in H. destruct (placeholder _ _) as [tg|]; [|discriminate].
  rewrite run_attribute, run_call in H.
  destruct (placeholder _ _) as [lap|]; [|discriminate].
  rewrite !run_set_input in H. injection H as <- <-. simpl.
  assert (Hkeep : forall k, is_Some (_input s4 !! k) ->
            is_Some (<["laplace_matrix" := tensor_name lap]>
                       (<["target" := tensor_name tg]> (_input s4)) !! k)).
  { intros k Hk.
    destruct (decide ("laplace_matrix"%string = k)) as [<-|Hne1];
      [rewrite lookup_insert_eq; eauto|].
    rewrite lookup_insert_ne by exact Hne1.
    destruct (decide ("target"%string = k)) as [<-|Hne2];
      [rewrite lookup_insert_eq; eauto|].
    rewrite lookup_insert_ne by exact Hne2. exact Hk. }
  split; [exact N4|].
  split; [rewrite lookup_insert_ne by discriminate; rewrite lookup_insert_eq; eauto|].
  split; [rewrite lookup_insert_eq; eauto|].
  repeat split; intros Hpos; apply Hkeep; auto.
Qed.

Lemma build_external_inv (i : Inputs) (d d' : Tensor) (s s' : t) :
  build_external i d s = (Done d', s') ->
  external_method (attributes s) <> "not"%string ->
  is_Some (_input s' !! "external_feature").
Proof.
  unfold build_external. rewrite run_attribute. intros H Hm.
  destruct (String.eqb_spec (external_method (attributes s)) "not"); [contradiction|].
  rewrite run_attribute, run_call in H.
  destruct (placeholder _ _) as [ph|]; [|discriminate].
  rewrite run_set_input in H.
  rest_grows H Hg. apply Hg, set_input_has.
Qed.

Lemma build_outputs_inv (i : Inputs) (d : Tensor) (s s' : t) :
  build_outputs i d s = (Done tt, s') ->
  is_Some (_input s' !! "global_step").
Proof.
  unfold build_outputs. rewrite run_attribute. intros H.
  repeat (rewrite run_call in H;
          match type of H with
          | match ?o with _ => _ end = _ => destruct o as [?|]; [|discriminate]
          end).
  match goal with
  | x : (Tensor * string * string)%type |- _ => destruct x as [[? ?] ?]
  end.
  rewrite run_set_input in H.
  rest_grows H Hg. apply Hg, set_input_has.
Qed.

(** The parts of a completed [build_graph]. *)
Lemma build_graph_inv (s s' : t) :
  build_graph s = (Done tt, s') ->
  exists i d d' s1 s2,
    build_inputs s = (Done i, s1) /\
    build_network i s1 = (Done d, s1) /\
    build_external i d s1 = (Done d', s2) /\
    build_outputs i d' s2 = (Done tt, s') /\
    extends s s1 /\ extends s1 s2 /\ extends s2 s'.
Proof.
  unfold build_graph. intros H.
  apply run_bind_inv in H as (i & s1 & H1 & H).
  apply run_bind_inv in H as (d & s1' & H2 & H).
  apply run_bind_inv in H as (d' & s2 & H3 & H).
  pose proof (unchanged_build_network i s1) as Hu. rewrite H2 in Hu.
  simpl in Hu. subst s1'.
  exists i, d, d', s1, s2. repeat split; try assumption.
  - pose proof (grows_build_inputs s) as Hg. rewrite H1 in Hg. apply Hg.
  - pose proof (grows_build_inputs s) as Hg. rewrite H1 in Hg. apply Hg.
  - pose proof (grows_build_external i d s1) as Hg. rewrite H3 in Hg. apply Hg.
  - pose proof (grows_build_external i d s1) as Hg. rewrite H3 in Hg. apply Hg.
  - pose proof (grows_build_outputs i d' s2) as Hg. rewrite H in Hg. apply Hg.
  - pose proof (grows_build_outputs i d' s2) as Hg. rewrite H in Hg. apply Hg.
Qed.

(** ** The feed dictionary *)

Lemma lookup_insert_if {V} (b : bool) (k j : string) (x v : V) (m : gmap string V) :
  (if b then <[k := x]> m else m) !! j = Some v ->
  (j = k /\ b = true) \/ m !! j = Some v.
Proof.
  destruct b; [|auto].
  intros [[<- _]|[_ H]]%lookup_insert_Some; auto.
Qed.

(** The keys of the feed dictionary. *)
Lemma feed_dict_keys {A} (self : t) (laplace_matrix : option A)
    (closeness_feature period_feature trend_feature weather_feature
       target external_feature : option A) (k : string) (v : option A) :
  _get_feed_dict self laplace_matrix closeness_feature period_feature
                 trend_feature weather_feature target external_feature !! k
  = Some v ->
  let a := attributes self in
  k = "laplace_matrix"%string \/
  (k = "target"%string /\ target <> None) \/
  (k = "external_feature"%string /\ has_external self = true) \/
  (k = "closeness_feature"%string /\ 0 < _closeness_len a) \/
  (k = "period_feature"%string /\ 0 < _period_len a) \/
  (k = "trend_feature"%string /\ 0 < _trend_len a) \/
  (k = "weather_feature"%string /\ 0 < _weather_len a).
Proof.
  intros H a. unfold _get_feed_dict in H. cbv zeta in H. fold a in H.
  repeat (apply lookup_insert_if in H as [[-> Hb]|H];
          [try apply Z.ltb_lt in Hb; auto 10|]).
  assert (Htg : (k = "target"%string /\ target <> None) \/
                ({["laplace_matrix"%string := laplace_matrix]} : gmap string (option A))
                  !! k = Some v).
  { destruct target as [tg|]; [|auto].
    apply lookup_insert_Some in H as [[<- _]|[_ H]]; [left|right]; auto. }
  destruct Htg as [Htg|Htg]; [auto|].
  apply lookup_singleton_Some in Htg as [<- _]. auto.
Qed.

Lemma feed_dict_without_external {A} (self : t) (laplace_matrix : option A)
    (closeness_feature period_feature trend_feature weather_feature
       target external_feature : option A) :
  has_external self = false ->
  _get_feed_dict self laplace_matrix closeness_feature period_feature
                 trend_feature weather_feature target external_feature
    !! "external_feature" = None.
Proof.
  intros Hx.
  match goal with |- ?m !! _ = None => destruct (m !! "external_feature") as [v|] eqn:E end;
    [|reflexivity].
  apply feed_dict_keys in E. rewrite Hx in E.
  intuition discriminate.
Qed.

(** X14.  After [build] has assembled the graph, every key of the
    dictionary [_get_feed_dict] returns is a key of [_input], so that
    every array fed has a placeholder.  The converse fails in two places:
    [_input] holds ['global_step'], which is never fed, and, for an
    [external_method] other than ['not'], it holds ['external_feature']
    even when [external_dim] is [None] or less than one, a case in which
    [_get_feed_dict] leaves the key out. *)
Theorem feed_dict_within_inputs {A} (s s' : t) (laplace_matrix : option A)
    (closeness_feature period_feature trend_feature weather_feature
       target external_feature : option A) :
  build_graph s = (Done tt, s') ->
  let feed_dict :=
    _get_feed_dict s' laplace_matrix closeness_feature period_feature
                   trend_feature weather_feature target external_feature in
  (forall k v, feed_dict !! k = Some v -> is_Some (_input s' !! k)) /\
  (is_Some (_input s' !! "global_step") /\ feed_dict !! "global_step" = None) /\
  (external_method (attributes s') <> "not"%string ->
   has_external s' = false ->
   is_Some (_input s' !! "external_feature") /\
   feed_dict !! "external_feature" = None).
Proof.
  intros H feed_dict.
  apply build_graph_inv in H
    as (i & d & d' & s1 & s2 & H1 & _ & H3 & H4 & [A1 K1] & [A2 K2] & [A3 K3]).
  apply build_inputs_inv in H1
    as (_ & _ & Ptg & Plap & Pc & Pp & Pt & Pw).
  assert (Ha : attributes s' = attributes s) by congruence.
  assert (Ha1 : attributes s1 = attributes s') by congruence.
  assert (Hext : external_method (attributes s') <> "not"%string ->
                 is_Some (_input s' !! "external_feature")).
  { intros Hm. apply K3. eapply build_external_inv; [exact H3|].
    rewrite Ha1. exact Hm. }
  split; [|split].
  - intros k v Hk. apply feed_dict_keys in Hk. rewrite Ha in Hk.
    destruct Hk as [->|[[-> _]|[[-> Hx]|[[-> Hl]|[[-> Hl]|[[-> Hl]|[-> Hl]]]]]]];
      auto.
    apply Hext. unfold has_external in Hx.
    destruct (String.eqb_spec (external_method (attributes s')) "not");
      [discriminate | assumption].
  - split; [eapply build_outputs_inv; exact H4|].
    match goal with |- ?m !! _ = None => destruct (m !! "global_step") as [v|] eqn:E end;
      [|reflexivity].
    apply feed_dict_keys in E. intuition discriminate.
  - intros Hm Hx. split; [apply Hext, Hm|].
    apply feed_dict_without_external, Hx.
Qed.

(** ** The external methods *)

Lemma unknown_method (m : string) :
  m ∉ external_methods ->
  String.eqb m "not" = false /\ String.eqb m "gating" = false /\
  String.eqb m "add" = false /\ String.eqb m "direct" = false /\
  String.eqb m "embedding" = false /\ String.eqb m "classified" = false /\
  String.eqb m "lstm" = false.
Proof.
  intros Hm. unfold external_methods in Hm.
  repeat split; apply String.eqb_neq; intros ->; apply Hm;
    repeat (first [left | right]).
Qed.

Lemma build_external_unknown (i : Inputs) (d : Tensor) (s : t) :
  external_method (attributes s) ∉ external_methods ->
  build_external i d s
  = match placeholder [VNone; dim_value (_external_dim (attributes s))] None with
    | Done ph => (Fail (UnboundLocalError "external_dense"),
                  (set_input "external_feature" (tensor_name ph) s).2)
    | Fail e => (Fail e, s)
    end.
Proof.
  intros (E1 & E2 & E3 & E4 & E5 & E6 & E7)%unknown_method.
  unfold build_external. rewrite run_attribute, E1, run_attribute, run_call.
  destruct (placeholder _ _) as [ph|e]; [|reflexivity].
  rewrite run_set_input, E2, E3, E4, E5, E6, E7. reflexivity.
Qed.

(** X15.  With an [external_method] that is none of ['not'], ['gating'],
    ['add'], ['direct'], ['embedding'], ['classified'] and ['lstm'],
    [build] never returns.  The [ValueError] of line 331 is constructed
    and not raised; the part of lines 263-333 creates and records the
    placeholder of the external features and then fails on the local
    variable [external_dense], which no branch has assigned. *)
Theorem build_unknown_external_method
    (base_build : bool -> Z -> M unit) (init_vars : bool) (max_to_keep : Z)
    (s : t) :
  external_method (attributes s) ∉ external_methods ->
  (exists e s', build base_build init_vars max_to_keep s = (Fail e, s')) /\
  forall i d s1,
    attributes s1 = attributes s ->
    build_external i d s1
    = match placeholder [VNone; dim_value (_external_dim (attributes s))] None with
      | Done ph => (Fail (UnboundLocalError "external_dense"),
                    (set_input "external_feature" (tensor_name ph) s1).2)
      | Fail e => (Fail e, s1)
      end.
Proof.
  intros Hm.
  assert (Hext : forall i d s1,
            attributes s1 = attributes s ->
            build_external i d s1
            = match placeholder [VNone; dim_value (_external_dim (attributes s))] None with
              | Done ph => (Fail (UnboundLocalError "external_dense"),
                            (set_input "external_feature" (tensor_name ph) s1).2)
              | Fail e => (Fail e, s1)
              end).
  { intros i d s1 Ha. rewrite <- Ha. apply build_external_unknown.
    rewrite Ha. exact Hm. }
  split; [|exact Hext].
  unfold build, build_graph. rewrite !run_bind.
  destruct (build_inputs s) as [[i|e] s1] eqn:H1; [|eauto].
  pose proof (grows_build_inputs s) as [Ha _]. rewrite H1 in Ha. simpl in Ha.
  rewrite run_bind.
  destruct (build_network i s1) as [[d|e] s1'] eqn:H2; [|eauto].
  pose proof (unchanged_build_network i s1) as Hu. rewrite H2 in Hu.
  simpl in Hu. subst s1'.
  rewrite run_bind, (Hext i d s1 Ha).
  destruct (placeholder _ _) as [ph|e]; eauto.
Qed.

(** X16.  With [external_method = 'lstm'], [build] never returns when
    there is no weather history ([weather_len] not positive) or when
    [classified_external_feature_dim] is empty, as it is by default: an
    empty list fails with [IndexError] on its first element; otherwise,
    once the recurrent layer is constructed, the local variable
    [weather_feature] is read without having been assigned. *)
Theorem build_lstm_needs_weather
    (base_build : bool -> Z -> M unit) (init_vars : bool) (max_to_keep : Z)
    (s : t) :
  external_method (attributes s) = "lstm"%string ->
  _weather_len (attributes s) <= 0 \/
  _classified_external_feature_dim (attributes s) = [] ->
  (exists e s', build base_build init_vars max_to_keep s = (Fail e, s')) /\
  forall x d s1,
    attributes s1 = attributes s ->
    lstm_dense None x d s1
    = match _classified_external_feature_dim (attributes s) with
      | [] => (Fail IndexError, s1)
      | _ :: _ =>
          match lstm_layer 10 with
          | Done _ => (Fail (UnboundLocalError "weather_feature"), s1)
          | Fail e => (Fail e, s1)
          end
      end.
Proof.
  intros Hm Hw.
  assert (Hnone : forall x d s1,
            attributes s1 = attributes s ->
            lstm_dense None x d s1
            = match _classified_external_feature_dim (attributes s) with
              | [] => (Fail IndexError, s1)
              | _ :: _ =>
                  match lstm_layer 10 with
                  | Done _ => (Fail (UnboundLocalError "weather_feature"), s1)
                  | Fail e => (Fail e, s1)
                  end
              end).
  { intros x d s1 Ha. unfold lstm_dense. cbv zeta.
    rewrite run_attribute, Ha, run_call.
    destruct (_classified_external_feature_dim (attributes s)); [reflexivity|].
    rewrite run_call. destruct (lstm_layer 10); reflexivity. }
  split; [|exact Hnone].
  assert (Hdense : forall w x d s1,
            attributes s1 = attributes s ->
            (w = None \/ _classified_external_feature_dim (attributes s) = []) ->
            exists e s', lstm_dense w x d s1 = (Fail e, s')).
  { intros w x d s1 Ha [->|Hd].
    - rewrite (Hnone x d s1 Ha).
      destruct (_classified_external_feature_dim (attributes s)); [eauto|].
      destruct (lstm_layer 10); eauto.
    - unfold lstm_dense. cbv zeta. rewrite run_attribute, Ha, Hd, run_call. eauto. }
  unfold build, build_graph. rewrite !run_bind.
  destruct (build_inputs s) as [[i|e] s1] eqn:H1; [|eauto].
  apply build_inputs_inv in H1 as ([Ha _] & Hnw & _).
  rewrite run_bind.
  destruct (build_network i s1) as [[d|e] s1'] eqn:H2; [|eauto].
  pose proof (unchanged_build_network i s1) as Hu. rewrite H2 in Hu.
  simpl in Hu. subst s1'.
  rewrite run_bind. unfold build_external.
  rewrite run_attribute, Ha, Hm.
  repeat match goal with
         | |- context [String.eqb ?a ?b] =>
             let v := eval vm_compute in (String.eqb a b) in
             change (String.eqb a b) with v
         end.
  cbv iota. rewrite run_attribute, run_call.
  destruct (placeholder _ _) as [ph|e]; [|eauto].
  rewrite run_set_input, !run_bind.
  destruct (Hdense (weather_feature i) ph d
              (set_input "external_feature" (tensor_name ph) s1).2)
    as (e & s2 & He).
  - exact Ha.
  - destruct Hw as [Hw|Hw]; [left; apply Hnw, Hw | right; exact Hw].
  - rewrite He. eauto.
Qed.

End ModelProperties.

(** ** The further properties on sample datasets *)

Lemma poi_feature_reindexed_sample :
  exists l poi,
    init SampleAttributes.config_poi SampleAttributes.data_poi = Ok l /\
    traffic_data_index l = [0; 1]%nat /\
    poi_feature_train l = Some (replicate (train_sequence_len l) poi) /\
    rows poi = Sample.qrow <$> [[1; 2]; [3; 4]] /\
    poi_dim l = Some 2%nat.
Proof.
  run_init SampleAttributes.config_poi SampleAttributes.data_poi l E.
  pose proof (poi_feature_reindexed SampleAttributes.config_poi
                SampleAttributes.data_poi l E) as H.
  assert (Hp : str_in "poi" (external_use SampleAttributes.config_poi) = true)
    by reflexivity.
  rewrite Hp in H.
  destruct H as (raw & poi & Hraw & Htake & Htr & _ & Hdim & _ & _).
  injection Hraw as <-.
  exists l, poi. split; [exact E|]. split; [reflexivity|]. split; [exact Htr|].
  split; [|exact Hdim].
  assert (Hpoi : take_rows (Z.of_nat <$> traffic_data_index l)
                           SampleAttributes.poi_table
                 = Ok (mk_ndarray 2 (Sample.qrow <$> [[1; 2]; [3; 4]])))
    by (vm_compute; reflexivity).
  rewrite Hpoi in Htake. injection Htake as <-. reflexivity.
Defined.

Lemma graphs_follow_names_sample :
  exists l,
    init SampleAttributes.config_graphs Sample.data = Ok l /\
    split_dash (graph SampleAttributes.config_graphs)
    = ["DISTANCE"; "Corelation"; "Line"]%string /\
    length (LM l) = 2%nat /\ length (AM l) = 1%nat /\
    Forall (fun m => len m = 2%nat /\ shape1 m = 2%nat) (LM l).
Proof.
  run_init SampleAttributes.config_graphs Sample.data l E.
  exists l. split; [exact E|]. split; [reflexivity|].
  destruct (graphs_follow_names SampleAttributes.config_graphs Sample.data l E)
    as (_ & Ha & Hl & Hshape); [reflexivity|].
  split; [rewrite Hl; reflexivity|].
  split; [rewrite <- (Forall2_length _ _ _ Ha); reflexivity|].
  apply Forall_forall. intros m Hm.
  assert (H0 : exists m0, head (LM l) = Some m0 /\ len m0 = 2%nat /\ shape1 m0 = 2%nat)
    by (eexists; repeat split).
  destruct H0 as (m0 & Hhead & H1 & H2).
  destruct (Hshape m m0 Hm) as [H3 H4]; [|split; congruence].
  apply head_Some_elem_of, Hhead.
Defined.

(** Line 375 on Laplacians of different shapes: the graph of the
    correlations is over the two kept stations, the graph of the
    neighbours over all three, and the construction raises. *)
Lemma laplacians_of_different_shapes_raise :
  init SampleAttributes.config_mixed Sample.data
  = Raise (ValueError "setting an array element with a sequence.").
Proof. vm_compute. reflexivity. Qed.

Lemma external_dim_is_sum_sample :
  (exists l,
     init Sample.config Sample.data = Ok l /\
     external_onehot_dim l = Some [1; 2; 19]%nat /\
     external_dim l = 22%nat /\ shape1 (train_ef l) = 22%nat) /\
  (exists r x,
     resolve SampleAttributes.config_no_features Sample.data = Ok r /\
     external_features SampleAttributes.config_no_features Sample.data r = Ok x /\
     x_onehot_dim x = None /\ x_dim x = 0%nat /\ x_feature x = empty_array).
Proof.
  split.
  - run_init Sample.config Sample.data l E.
    exists l. split; [exact E|].
    pose (r := ltac:(let v := returned (resolve Sample.config Sample.data) in exact v)).
    pose (x := ltac:(let v := returned (external_features Sample.config Sample.data r)
                     in exact v)).
    destruct (external_dim_is_sum Sample.config Sample.data r x)
      as (_ & Hsum & _ & Hl); [vm_compute; reflexivity|].
    destruct (Hl l) as (Hd & Ho & Htr & _);
      [vm_compute; reflexivity | exact E |].
    split; [reflexivity|]. split; [reflexivity|]. rewrite Htr. reflexivity.
  - pose (r := ltac:(let v := returned (resolve SampleAttributes.config_no_features
                                                Sample.data) in exact v)).
    pose (x := ltac:(let v := returned (external_features
                                          SampleAttributes.config_no_features
                                          Sample.data r) in exact v)).
    exists r, x.
    assert (Hx : external_features SampleAttributes.config_no_features Sample.data r
                 = Ok x) by (vm_compute; reflexivity).
    split; [vm_compute; reflexivity|]. split; [exact Hx|].
    destruct (external_dim_is_sum SampleAttributes.config_no_features Sample.data r x Hx)
      as (_ & Hsum & Hnone & _).
    assert (Ho : x_onehot_dim x = None).
    { apply Hnone. repeat split. }
    rewrite Ho in Hsum. destruct Hsum as [Hd He].
    split; [exact Ho|]. split; [exact Hd | exact He].
Defined.

Lemma expand_test_short_train_sample :
  exists l,
    init SampleAttributes.config_short Sample.data = Ok l /\
    len (train_data l) = 4%nat /\
    expansion SampleAttributes.config_short (daily_slots l) = Ok 6 /\
    len (test_data l) = 5%nat /\
    rows (test_data l) = lastn 2 (rows (train_data l)) ++ lastn 3 (rows (test_data l)).
Proof.
  run_init SampleAttributes.config_short Sample.data l E.
  exists l. split; [exact E|].
  let r := returned (resolve SampleAttributes.config_short Sample.data) in
  let x := returned (external_features SampleAttributes.config_short Sample.data r) in
  let p := returned (split_partitions SampleAttributes.config_short r x) in
  destruct (expand_test_short_train SampleAttributes.config_short Sample.data l r x p 6 E)
    as (Hrows & _ & _);
    [ vm_compute; reflexivity | vm_compute; reflexivity | vm_compute; reflexivity
    | vm_compute; reflexivity | vm_compute; reflexivity | ].
  split; [reflexivity|]. split; [reflexivity|]. split; [reflexivity|].
  rewrite Hrows at 1. vm_compute. reflexivity.
Defined.

Lemma time_position_embeddings_sample :
  exists l e,
    init SampleAttributes.config_tpe Sample.data = Ok l /\
    tpe l = Some e /\
    closeness_tpe e = [1 # 1; 2 # 1]%Q /\ period_tpe e = [2 # 1]%Q /\
    trend_tpe e = [] /\
    last_channel (train_closeness l) 0 0 1 = Some (2 # 1)%Q.
Proof.
  run_init SampleAttributes.config_tpe Sample.data l E.
  destruct (time_position_embeddings SampleAttributes.config_tpe Sample.data l E)
    as (_ & e & trc & trp & trt & tec & tep & tet & He & _ & Hc & Hp & Ht & _);
    [reflexivity | reflexivity |].
  exists l, e. split; [exact E|]. split; [exact He|].
  split; [exact Hc|]. split; [exact Hp|]. split; [exact Ht | reflexivity].
Defined.

Lemma make_concat_returns_positions_sample :
  exists l h,
    init SampleAttributes.config_tpe Sample.data = Ok l /\
    make_concat l NodeAll true = Ok h /\
    cell h 0 0 0 = Some [1 # 1]%Q /\ cell h 0 0 1 = Some [2 # 1]%Q /\
    cell h 3 1 2 = Some [2 # 1]%Q.
Proof.
  run_init SampleAttributes.config_tpe Sample.data l E.
  destruct (make_concat_returns_positions SampleAttributes.config_tpe Sample.data l
              NodeAll true E)
    as (h & Eh & Hcells); [reflexivity | reflexivity | exact I |].
  exists l, h. split; [exact E|]. split; [exact Eh|].
  split; [|split].
  - apply (Hcells 0%nat 0%nat 0%nat); vm_compute; lia.
  - apply (Hcells 0%nat 0%nat 1%nat); vm_compute; lia.
  - apply (Hcells 3%nat 1%nat 2%nat); vm_compute; lia.
Defined.

(** Names the object a sample construction of [TransferDataLoader]
    returns, for a target train set of [days] days. *)
Ltac run_transfer sd td sds tds days self E :=
  let a := fresh "sd" in
  let b := fresh "td" in
  let c := fresh "fake" in
  let Ea := fresh "E" in
  let Eb := fresh "E" in
  let Ec := fresh "E" in
  run_init sd sds a Ea;
  run_init (with_train_data_length td (LengthDays days)) tds b Eb;
  run_init (with_train_data_length (with_train_data_length td (LengthDays days))
                                   (LengthDays 180)) tds c Ec;
  pose (self := {| TransferDataLoader.sd_loader := a;
                   TransferDataLoader.td_loader := b;
                   TransferDataLoader.fake_td_loader := c |});
  assert (E : TransferDataLoader.init sd td sds tds (Some (LengthDays days))
              = Ok (self, with_train_data_length
                            (with_train_data_length td (LengthDays days))
                            (LengthDays 180)))
    by (unfold TransferDataLoader.init;
        cbn [TransferDataLoader.truthy TransferDataLoader.update_train_data_length];
        rewrite Ea, bind_Ok_l, Eb, bind_Ok_l, Ec; reflexivity).

Lemma transfer_loaders_sample :
  exists self p,
    TransferDataLoader.init TransferSample.params TransferSample.params
      TransferSample.source Sample.data (Some (LengthDays 1)) = Ok (self, p) /\
    len (train_data (TransferDataLoader.sd_loader self)) = 15%nat /\
    len (train_data (TransferDataLoader.td_loader self)) = 2%nat /\
    len (train_data (TransferDataLoader.fake_td_loader self)) = 9%nat /\
    train_data_length p = LengthDays 180 /\
    traffic_data_index (TransferDataLoader.fake_td_loader self)
    = traffic_data_index (TransferDataLoader.td_loader self).
Proof.
  run_transfer TransferSample.params TransferSample.params
               TransferSample.source Sample.data 1 self E.
  eexists self, _. split; [exact E|].
  destruct (transfer_loaders _ _ _ _ _ _ _ E) as (_ & _ & _ & Hp & Hi & _).
  split; [reflexivity|]. split; [reflexivity|]. split; [reflexivity|].
  split; [rewrite Hp; reflexivity | exact Hi].
Defined.

Lemma traffic_sim_windows_sample :
  exists self p recs,
    TransferDataLoader.init TransferSample.params TransferSample.params
      TransferSample.source Sample.data (Some (LengthDays 1)) = Ok (self, p) /\
    @TransferDataLoader.traffic_sim TransferSample.dot_product self = Ok recs /\
    length recs = 2%nat /\
    Forall (fun r => TransferDataLoader.window_stop r
                     = TransferDataLoader.window_start r + 2 /\
                     TransferDataLoader.window_stop r < 15) recs.
Proof.
  run_transfer TransferSample.params TransferSample.params
               TransferSample.source Sample.data 1 self E.
  let v := returned (@TransferDataLoader.traffic_sim TransferSample.dot_product self) in
  pose (recs := v).
  assert (Er : @TransferDataLoader.traffic_sim TransferSample.dot_product self = Ok recs)
    by (vm_compute; reflexivity).
  eexists self, _, recs. split; [exact E|]. split; [exact Er|].
  split; [reflexivity|].
  destruct (@traffic_sim_windows TransferSample.dot_product self recs Er)
    as [_ Hall]; [vm_compute; reflexivity|].
  eapply Forall_impl; [exact Hall|].
  intros r (k & _ & _ & Hstop & Hlt). split; [exact Hstop | exact Hlt].
Defined.

Lemma traffic_sim_fake_windows_sample :
  exists self p recs,
    TransferDataLoader.init TransferSample.params TransferSample.params
      TransferSample.source Sample.data (Some (LengthDays 1)) = Ok (self, p) /\
    @TransferDataLoader.traffic_sim_fake TransferSample.dot_product self = Ok recs /\
    len (train_data (TransferDataLoader.fake_td_loader self)) = 9%nat /\
    (TransferDataLoader.window_start <$> recs) = [4; 4] /\
    (TransferDataLoader.window_stop <$> recs) = [6; 6].
Proof.
  run_transfer TransferSample.params TransferSample.params
               TransferSample.source Sample.data 1 self E.
  let v := returned (@TransferDataLoader.traffic_sim_fake TransferSample.dot_product self) in
  pose (recs := v).
  assert (Er : @TransferDataLoader.traffic_sim_fake TransferSample.dot_product self
               = Ok recs)
    by (vm_compute; reflexivity).
  eexists self, _, recs. split; [exact E|]. split; [exact Er|].
  pose proof (@traffic_sim_fake_windows TransferSample.dot_product self recs Er) as Hall.
  split; [reflexivity|]. split; reflexivity.
Defined.

Lemma traffic_sim_best_window_sample :
  exists self p recs r,
    TransferDataLoader.init TransferSample.params TransferSample.params
      TransferSample.source Sample.data (Some (LengthDays 1)) = Ok (self, p) /\
    @TransferDataLoader.traffic_sim TransferSample.dot_product self = Ok recs /\
    recs !! 0%nat = Some r /\
    TransferDataLoader.similarity r = (187 # 1)%Q /\
    TransferDataLoader.window_start r = 12 /\
    (126 # 1 < TransferDataLoader.similarity r)%Q.
Proof.
  run_transfer TransferSample.params TransferSample.params
               TransferSample.source Sample.data 1 self E.
  let v := returned (@TransferDataLoader.traffic_sim TransferSample.dot_product self) in
  pose (recs := v).
  assert (Er : @TransferDataLoader.traffic_sim TransferSample.dot_product self = Ok recs)
    by (vm_compute; reflexivity).
  destruct (recs !! 0%nat) as [r|] eqn:Hr; [|discriminate].
  eexists self, _, recs, r. split; [exact E|]. split; [exact Er|].
  split; [exact Hr|].
  destruct (@traffic_sim_best_window TransferSample.dot_product self recs 0%nat r Er)
    as (ms & mi & _ & _ & _ & Hbest); [vm_compute; reflexivity | exact Hr |].
  injection Hr as <-.
  split; [reflexivity|]. split; [reflexivity|].
  refine (proj2 (Hbest 0 [126 # 1; 45 # 1]%Q [1; 1]%nat (126 # 1)%Q _ _ _ _) _);
    vm_compute; (reflexivity || lia || discriminate).
Defined.

(** ** The properties of [STMeta] on a sample model *)

Lemma build_needs_history_sample :
  exists s',
    STMeta.build STMetaSample.base_build true 5
                 (STMetaSample.model None 0 0 0 4 "not")
    = (STMeta.Fail (STMeta.ValueError
                      "closeness_len, period_len, trend_len cannot all be zero"), s') /\
    STMeta._input s' !! "weather_feature"%string = Some "weather_feature:0"%string.
Proof.
  eexists. split.
  - rewrite (@build_needs_history STMetaSample.library STMetaSample.base_build true 5
               (STMetaSample.model None 0 0 0 4 "not"));
      [reflexivity | simpl; lia | simpl; lia | simpl; lia].
  - vm_compute. reflexivity.
Defined.

Lemma feed_dict_within_inputs_sample :
  exists s',
    STMeta.build_graph (STMetaSample.model None 6 7 4 0 "direct")
    = (STMeta.Done tt, s') /\
    is_Some (STMeta._input s' !! "external_feature"%string) /\
    STMeta._get_feed_dict s' None (Some 0%nat) (Some 1%nat) (Some 2%nat)
                          (Some 3%nat) (Some 4%nat) (Some 5%nat)
      !! "external_feature"%string = None /\
    STMeta._get_feed_dict s' None (Some 0%nat) (Some 1%nat) (Some 2%nat)
                          (Some 3%nat) (Some 4%nat) (Some 5%nat)
      !! "period_feature"%string = Some (Some 1%nat).
Proof.
  eexists. split; [vm_compute; reflexivity|].
  match goal with
  | |- is_Some (STMeta._input ?x !! _) /\ _ => set (s' := x)
  end.
  assert (E : STMeta.build_graph (STMetaSample.model None 6 7 4 0 "direct")
              = (STMeta.Done tt, s')) by (vm_compute; reflexivity).
  destruct (@feed_dict_within_inputs STMetaSample.library nat
              (STMetaSample.model None 6 7 4 0 "direct") s'
              None (Some 0%nat) (Some 1%nat) (Some 2%nat) (Some 3%nat)
              (Some 4%nat) (Some 5%nat) E)
    as (_ & _ & Hx).
  destruct Hx as [H1 H2]; [vm_compute; discriminate | vm_compute; reflexivity |].
  split; [exact H1|]. split; [exact H2|].
  vm_compute. reflexivity.
Defined.

Lemma build_unknown_external_method_sample :
  exists s',
    STMeta.build STMetaSample.base_build true 5
                 (STMetaSample.model (Some 22) 6 7 4 0 "Direct-Concat")
    = (STMeta.Fail (STMeta.UnboundLocalError "external_dense"), s').
Proof.
  destruct (@build_unknown_external_method STMetaSample.library
              STMetaSample.base_build true 5
              (STMetaSample.model (Some 22) 6 7 4 0 "Direct-Concat"))
    as [_ Hext].
  - vm_compute. intros H. repeat (apply elem_of_cons in H as [H|H]; [discriminate|]).
    inversion H.
  - eexists. vm_compute. reflexivity.
Defined.

Lemma build_lstm_needs_weather_sample :
  exists e s',
    STMeta.build STMetaSample.base_build true 5
                 (STMetaSample.model (Some 22) 6 7 4 5 "LSTM")
    = (STMeta.Fail e, s').
Proof.
  destruct (@build_lstm_needs_weather STMetaSample.library
              STMetaSample.base_build true 5
              (STMetaSample.model (Some 22) 6 7 4 5 "LSTM"))
    as [H _]; [reflexivity | right; reflexivity | exact H].
Defined.
